(** * RoBO: the Bayesian optimization loop

    A shallow embedding of [robo/solver/bayesian_optimization.py]
    (class [BayesianOptimization]: [__init__], [initialize], [run],
    [choose_next]) and the properties of its control loop.

    The solver object is a record of its attributes; every method is a
    function in a small monad that threads the solver, may raise a Python
    exception, and records the calls made to the collaborators (task,
    model, acquisition function, maximizer, recommendation strategy,
    checkpoint sink) and to [logging.info].  Floating point numbers, the
    random generator, the clock and the collaborators are not part of the
    file under study: they are parameters of the development. *)

From Stdlib Require Import ZArith Lia Bool.
From stdpp Require Import base list strings.

Local Open Scope string_scope.
Local Open Scope list_scope.
Local Open Scope Z_scope.

(** ** Python exceptions and results *)

(** The built-in exceptions the code of the loop can raise by itself, and
    [Foreign e] for whatever a collaborator raises. *)
Inductive exn (E : Type) : Type :=
  | AttributeError
  | TypeError
  | ValueError
  | IndexError
  | ZeroDivisionError
  | Foreign (e : E).
Arguments AttributeError {E}.
Arguments TypeError {E}.
Arguments ValueError {E}.
Arguments IndexError {E}.
Arguments ZeroDivisionError {E}.
Arguments Foreign {E} e.

Inductive result (E T : Type) : Type :=
  | Ok (v : T)
  | Raise (e : exn E).
Arguments Ok {E T} v.
Arguments Raise {E T} e.

Definition is_ok {E T} (r : result E T) : bool :=
  match r with Ok _ => true | Raise _ => false end.

(** ** numpy arrays *)

(** A two-dimensional array of shape [(nrows, ncols)].  The number of
    columns is kept apart from the rows because [np.zeros([0, d])] has
    [d] columns and no row. *)
Record arr2 (F : Type) : Type := Arr2 { ncols : nat; rows : list (list F) }.
Arguments Arr2 {F} ncols rows.
Arguments ncols {F} a.
Arguments rows {F} a.

Section Numpy.
Context {F E : Type}.
Variable fzero : F.
Variable fltb : F -> F -> bool.

Definition nrows (a : arr2 F) : nat := length (rows a).

Definition shape (a : arr2 F) : nat * nat := (nrows a, ncols a).

(** Every row has the declared number of columns. *)
Definition wf_arr2 (a : arr2 F) : Prop :=
  Forall (fun r => length r = ncols a) (rows a).

(** [np.zeros([n])] *)
Definition np_zeros1 (n : nat) : list F := replicate n fzero.

(** [np.zeros([n, d])] *)
Definition np_zeros2 (n d : nat) : arr2 F :=
  Arr2 d (replicate n (replicate d fzero)).

(** [np.array([v])] for a one-dimensional [v] *)
Definition np_array_row (v : list F) : arr2 F := Arr2 (length v) [v].

(** [a[i]] and [a[i, :]] for [0 <= i] *)
Definition getrow (a : arr2 F) (i : nat) : result E (list F) :=
  match rows a !! i with
  | Some r => Ok r
  | None => Raise IndexError
  end.

(** [a[i, j]] for [0 <= i], [0 <= j] *)
Definition getitem2 (a : arr2 F) (i j : nat) : result E F :=
  match rows a !! i with
  | Some r => match r !! j with Some c => Ok c | None => Raise IndexError end
  | None => Raise IndexError
  end.

(** [a[i] = v] for a one-dimensional [v]: the array keeps its shape; [v]
    has to have [ncols a] entries, or one entry, which is broadcast. *)
Definition setrow (a : arr2 F) (i : nat) (v : list F) : result E (arr2 F) :=
  if (i <? nrows a)%nat then
    if (length v =? ncols a)%nat then Ok (Arr2 (ncols a) (<[i:=v]> (rows a)))
    else match v with
         | [c] => Ok (Arr2 (ncols a) (<[i:=replicate (ncols a) c]> (rows a)))
         | _ => Raise ValueError
         end
  else Raise IndexError.

(** [t[i] = v] on a one-dimensional array *)
Definition setitem1 (t : list F) (i : nat) (v : F) : result E (list F) :=
  if (i <? length t)%nat then Ok (<[i:=v]> t) else Raise IndexError.

(** [np.append(a, b, axis=0)] *)
Definition np_append0 (a b : arr2 F) : result E (arr2 F) :=
  if (ncols a =? ncols b)%nat then Ok (Arr2 (ncols a) (rows a ++ rows b))
  else Raise ValueError.

(** [np.append(t, np.array([v]))] on a one-dimensional array *)
Definition np_append1 (t : list F) (v : F) : list F := t ++ [v].

(** The scan of [np.argmin]: the running minimum is replaced only by a
    strictly smaller entry, so the first occurrence wins. *)
Fixpoint argmin_from (best_i : nat) (best_v : F) (i : nat) (l : list F) : nat :=
  match l with
  | [] => best_i
  | v :: l' =>
      if fltb v best_v then argmin_from i v (S i) l'
      else argmin_from best_i best_v (S i) l'
  end.

(** [np.argmin(a)]: the index into the flattened array. *)
Definition np_argmin (a : arr2 F) : result E nat :=
  match concat (rows a) with
  | [] => Raise ValueError
  | v :: l => Ok (argmin_from 0 v 1 l)
  end.
End Numpy.

(** ** The collaborators and the solver object *)

(** The value of [self.recommendation_strategy] when it is not [None]:
    the code tells [optimize_posterior_mean_and_std] from every other
    strategy by identity ([is]). *)
Inductive strategy : Type :=
  | optimize_posterior_mean_and_std
  | other_strategy (id : nat).

(** The [startpoints] argument of a recommendation strategy: a Python
    list of points, or one point passed bare. *)
Inductive startpoints (F : Type) : Type :=
  | StartList (pts : list (list F))
  | StartPoint (pt : list F).
Arguments StartList {F} pts.
Arguments StartPoint {F} pt.

(** The [acquisition_value] argument of [save_iteration]: left out, the
    literal [0], or a value of the acquisition function. *)
Inductive acq_arg (A : Type) : Type :=
  | AcqOmitted
  | AcqZero
  | AcqValue (a : A).
Arguments AcqOmitted {A}.
Arguments AcqZero {A}.
Arguments AcqValue {A} a.

(** What the loop does to the outside, in order. *)
Inductive event (F H A : Type) : Type :=
  | Log (msg : string)
  | Uniform (lo hi : list F) (n : nat)
  | Evaluate (x : arr2 F)
  | Train (X Y : arr2 F)
  | AcqUpdate
  | Maximize
  | Recommend (st : strategy) (sp : startpoints F) (with_gradients : option bool)
  | ParamArray
  | AcqCall (x : arr2 F)
  | Save (it : Z) (hyperparameters : option H) (acquisition_value : acq_arg A).
Arguments Log {F H A} msg.
Arguments Uniform {F H A} lo hi n.
Arguments Evaluate {F H A} x.
Arguments Train {F H A} X Y.
Arguments AcqUpdate {F H A}.
Arguments Maximize {F H A}.
Arguments Recommend {F H A} st sp with_gradients.
Arguments ParamArray {F H A}.
Arguments AcqCall {F H A} x.
Arguments Save {F H A} it hyperparameters acquisition_value.

(** The constructor's arguments and what they give access to.  [W] is the
    state of everything outside the solver object (random generator,
    clock, model, acquisition function, file system); a collaborator's
    method maps it to a result and a new state.  [save_iteration] belongs
    to [BaseSolver], [np.random.uniform] and [time.time] to libraries. *)
Record env (F W E H A : Type) : Type := Env {
  fzero : F;
  fsub : F -> F -> F;
  fltb : F -> F -> bool;
  time_time : W -> F * W;
  random_uniform : list F -> list F -> nat -> W -> result E (list F) * W;
  task_X_lower : list F;
  task_X_upper : list F;
  task_n_dims : nat;
  task_evaluate : arr2 F -> W -> result E (arr2 F) * W;
  model_train : arr2 F -> arr2 F -> W -> result E unit * W;
  model_is_GPyModel : bool;
  model_param_array : W -> result E H * W;
  acquisition_func_update : W -> result E unit * W;
  acquisition_func_call : arr2 F -> W -> result E A * W;
  maximize_func_maximize : W -> result E (arr2 F) * W;
  strategy_call : strategy -> startpoints F -> option bool -> W ->
                  result E (list F * list F) * W;
  save_iteration : Z -> option H -> acq_arg A -> W -> result E unit * W;
  save_dir : option string;
  recommendation_strategy : option strategy;
  num_save : Z;
  train_intervall : Z
}.
Arguments Env {F W E H A}.
Arguments fzero {F W E H A} e.
Arguments fsub {F W E H A} e.
Arguments fltb {F W E H A} e.
Arguments time_time {F W E H A} e.
Arguments random_uniform {F W E H A} e.
Arguments task_X_lower {F W E H A} e.
Arguments task_X_upper {F W E H A} e.
Arguments task_n_dims {F W E H A} e.
Arguments task_evaluate {F W E H A} e.
Arguments model_train {F W E H A} e.
Arguments model_is_GPyModel {F W E H A} e.
Arguments model_param_array {F W E H A} e.
Arguments acquisition_func_update {F W E H A} e.
Arguments acquisition_func_call {F W E H A} e.
Arguments maximize_func_maximize {F W E H A} e.
Arguments strategy_call {F W E H A} e.
Arguments save_iteration {F W E H A} e.
Arguments save_dir {F W E H A} e.
Arguments recommendation_strategy {F W E H A} e.
Arguments num_save {F W E H A} e.
Arguments train_intervall {F W E H A} e.

(** The attributes of the solver that the methods assign.  For [X], [Y],
    the timing arrays and [incumbent], [None] is Python's [None];
    [incumbent_value] and [time_start] are not assigned by the
    constructor, and [None] there means that the attribute does not exist
    yet. *)
Record solver (F W : Type) : Type := Solver {
  X : option (arr2 F);
  Y : option (arr2 F);
  time_func_eval : option (list F);
  time_optimization_overhead : option (list F);
  model_untrained : bool;
  incumbent : option (list F);
  incumbent_value : option (list F);
  n_restarts : nat;
  time_start : option F;
  world : W
}.
Arguments Solver {F W}.
Arguments X {F W} s.
Arguments Y {F W} s.
Arguments time_func_eval {F W} s.
Arguments time_optimization_overhead {F W} s.
Arguments model_untrained {F W} s.
Arguments incumbent {F W} s.
Arguments incumbent_value {F W} s.
Arguments n_restarts {F W} s.
Arguments time_start {F W} s.
Arguments world {F W} s.

(** ** The monad of the methods *)

Section Monad.
Context {F W E H A : Type}.

(** What a method call leaves behind: the calls it made to the outside,
    its result or the exception it raised, and the solver object. *)
Record outcome (T : Type) : Type := Out {
  emitted : list (event F H A);
  value : result E T;
  final : solver F W
}.
Global Arguments Out {T} emitted value final.
Global Arguments emitted {T} o.
Global Arguments value {T} o.
Global Arguments final {T} o.

Definition M (T : Type) : Type := solver F W -> outcome T.

Definition ret {T} (v : T) : M T := fun s => Out [] (Ok v) s.

Definition raise {T} (e : exn E) : M T := fun s => Out [] (Raise e) s.

Definition bind {T U} (m : M T) (k : T -> M U) : M U := fun s =>
  let o := m s in
  match value o with
  | Ok v =>
      let o' := k v (final o) in
      Out (emitted o ++ emitted o') (value o') (final o')
  | Raise e => Out (emitted o) (Raise e) (final o)
  end.

(** [try: body except Exception, e: handler e] *)
Definition try_except {T} (body : M T) (handler : exn E -> M T) : M T := fun s =>
  let o := body s in
  match value o with
  | Ok v => Out (emitted o) (Ok v) (final o)
  | Raise e =>
      let o' := handler e (final o) in
      Out (emitted o ++ emitted o') (value o') (final o')
  end.

(** The result of a numpy operation, which touches nothing else. *)
Definition lift {T} (r : result E T) : M T := fun s => Out [] r s.

Definition get {T} (f : solver F W -> T) : M T := fun s => Out [] (Ok (f s)) s.

Definition modify (f : solver F W -> solver F W) : M unit :=
  fun s => Out [] (Ok tt) (f s).

(** An array attribute that is indexed or handed to numpy is not [None]
    wherever [run] and [initialize] get to it; on [None] Python raises. *)
Definition the {T} (f : solver F W -> option T) : M T := fun s =>
  match f s with
  | Some v => Out [] (Ok v) s
  | None => Out [] (Raise TypeError) s
  end.

(** Reading an attribute that was never assigned. *)
Definition getattr {T} (f : solver F W -> option T) : M T := fun s =>
  match f s with
  | Some v => Out [] (Ok v) s
  | None => Out [] (Raise AttributeError) s
  end.

Definition set_X (v : option (arr2 F)) (s : solver F W) : solver F W :=
  Solver v (Y s) (time_func_eval s) (time_optimization_overhead s)
    (model_untrained s) (incumbent s) (incumbent_value s) (n_restarts s)
    (time_start s) (world s).

Definition set_Y (v : option (arr2 F)) (s : solver F W) : solver F W :=
  Solver (X s) v (time_func_eval s) (time_optimization_overhead s)
    (model_untrained s) (incumbent s) (incumbent_value s) (n_restarts s)
    (time_start s) (world s).

Definition set_time_func_eval (v : option (list F)) (s : solver F W) : solver F W :=
  Solver (X s) (Y s) v (time_optimization_overhead s)
    (model_untrained s) (incumbent s) (incumbent_value s) (n_restarts s)
    (time_start s) (world s).

Definition set_time_optimization_overhead (v : option (list F)) (s : solver F W)
  : solver F W :=
  Solver (X s) (Y s) (time_func_eval s) v
    (model_untrained s) (incumbent s) (incumbent_value s) (n_restarts s)
    (time_start s) (world s).

Definition set_model_untrained (v : bool) (s : solver F W) : solver F W :=
  Solver (X s) (Y s) (time_func_eval s) (time_optimization_overhead s)
    v (incumbent s) (incumbent_value s) (n_restarts s)
    (time_start s) (world s).

Definition set_incumbent (v : option (list F)) (s : solver F W) : solver F W :=
  Solver (X s) (Y s) (time_func_eval s) (time_optimization_overhead s)
    (model_untrained s) v (incumbent_value s) (n_restarts s)
    (time_start s) (world s).

Definition set_incumbent_value (v : option (list F)) (s : solver F W) : solver F W :=
  Solver (X s) (Y s) (time_func_eval s) (time_optimization_overhead s)
    (model_untrained s) (incumbent s) v (n_restarts s)
    (time_start s) (world s).

Definition set_time_start (v : option F) (s : solver F W) : solver F W :=
  Solver (X s) (Y s) (time_func_eval s) (time_optimization_overhead s)
    (model_untrained s) (incumbent s) (incumbent_value s) (n_restarts s)
    v (world s).

Definition set_world (w : W) (s : solver F W) : solver F W :=
  Solver (X s) (Y s) (time_func_eval s) (time_optimization_overhead s)
    (model_untrained s) (incumbent s) (incumbent_value s) (n_restarts s)
    (time_start s) w.

(** A call to a collaborator: it is recorded, it may change the outside
    and it may raise. *)
Definition call {T} (e : event F H A) (op : W -> result E T * W) : M T := fun s =>
  Out [e] (fst (op (world s))) (set_world (snd (op (world s))) s).

(** [time.time()] *)
Definition now (clock : W -> F * W) : M F := fun s =>
  Out [] (Ok (fst (clock (world s)))) (set_world (snd (clock (world s))) s).

(** [logging.info(msg, ...)]: the record is handed to the handlers, and
    a record that cannot be formatted is reported by the logging module,
    not raised. *)
Definition logging_info (msg : string) : M unit := fun s => Out [Log msg] (Ok tt) s.

(** [for i in l: body i] *)
Fixpoint for_ {T} (l : list T) (body : T -> M unit) : M unit :=
  match l with
  | [] => ret tt
  | i :: l' => bind (body i) (fun _ => for_ l' body)
  end.

(** [[body for i in range(n)]] *)
Fixpoint comprehension {T} (n : nat) (body : M T) : M (list T) :=
  match n with
  | O => ret []
  | S n' => bind body (fun v => bind (comprehension n' body) (fun vs => ret (v :: vs)))
  end.

(** [wp m Q s]: the outcome of [m] started in [s] satisfies [Q]. *)
Definition wp {T} (m : M T)
    (Q : list (event F H A) -> result E T -> solver F W -> Prop) (s : solver F W) : Prop :=
  Q (emitted (m s)) (value (m s)) (final (m s)).
End Monad.

Notation "'do' x <- c1 ; c2" := (bind c1 (fun x => c2))
  (at level 10, x name, c1 at level 100, c2 at level 200).
Notation "'run_' c1 ; c2" := (bind c1 (fun _ => c2))
  (at level 10, c1 at level 100, c2 at level 200).

(** [range(lo, hi)] over the integers *)
Definition py_range (lo hi : Z) : list Z :=
  map (fun i => lo + Z.of_nat i) (seq 0 (Z.to_nat (hi - lo))).

(** ** The class [BayesianOptimization] *)

Section BayesianOptimization.
Context {F W E H A : Type}.
Variable self : env F W E H A.

Abbreviation M := (@M F W E H A).
Abbreviation clock := (now (time_time self)).

(** [a % b] on integers *)
Definition py_mod (a b : Z) : M Z :=
  if b =? 0 then raise ZeroDivisionError else ret (a mod b).

(** [__init__]: the attributes right after construction, in the outside
    state [w]. *)
Definition __init__ (w : W) : solver F W :=
  Solver None None None None true None None 10 None w.

(** [np.random.uniform(self.task.X_lower, self.task.X_upper, self.task.n_dims)] *)
Definition draw_uniform : M (list F) :=
  call (Uniform (task_X_lower self) (task_X_upper self) (task_n_dims self))
       (random_uniform self (task_X_lower self) (task_X_upper self) (task_n_dims self)).

(** The body of the loop of [initialize] (lines 79-91). *)
Definition initialize_point (i : nat) : M unit :=
  do start_time <- clock;
  do v <- draw_uniform;
  let x := np_array_row v in
  do t <- clock;
  do oh <- the time_optimization_overhead;
  do oh' <- lift (setitem1 oh i (fsub self t start_time));
  run_ modify (set_time_optimization_overhead (Some oh'));
  do start_time <- clock;
  do y <- call (Evaluate x) (task_evaluate self x);
  do t <- clock;
  do fe <- the time_func_eval;
  do fe' <- lift (setitem1 fe i (fsub self t start_time));
  run_ modify (set_time_func_eval (Some fe'));
  do x0 <- lift (getrow x 0);
  do Xa <- the X;
  do Xa' <- lift (setrow Xa i x0);
  run_ modify (set_X (Some Xa'));
  do y0 <- lift (getrow y 0);
  do Ya <- the Y;
  do Ya' <- lift (setrow Ya i y0);
  run_ modify (set_Y (Some Ya'));
  run_ logging_info "Configuration achieved a performance of %f ";
  logging_info "Evaluation of this configuration took %f seconds".

(** [initialize(self, n_init_points=3)] *)
Definition initialize (n_init_points : nat) : M unit :=
  run_ modify (set_time_func_eval (Some (np_zeros1 (fzero self) n_init_points)));
  run_ modify (set_time_optimization_overhead (Some (np_zeros1 (fzero self) n_init_points)));
  run_ modify (set_X (Some (np_zeros2 (fzero self) n_init_points (task_n_dims self))));
  run_ modify (set_Y (Some (np_zeros2 (fzero self) n_init_points 1)));
  for_ (seq 0 n_init_points) initialize_point.

(** [choose_next(self, X=None, Y=None, do_optimize=True)] *)
Definition choose_next (X0 Y0 : option (arr2 F)) (do_optimize : bool) : M (arr2 F) :=
  match X0, Y0 with
  | Some Xa, Some Ya =>
      run_ try_except
        (run_ logging_info "Train model...";
         do t <- clock;
         run_ (if do_optimize then call (Train Xa Ya) (model_train self Xa Ya) else ret tt);
         do t' <- clock;
         logging_info "Time to train the model: %f")
        (fun e =>
           run_ logging_info "Model could not be trained";
           raise e);
      run_ modify (set_model_untrained false);
      run_ call AcqUpdate (acquisition_func_update self);
      run_ logging_info "Maximize acquisition function...";
      do t <- clock;
      do x <- call Maximize (maximize_func_maximize self);
      do t' <- clock;
      run_ logging_info "Time to maximize the acquisition function: %f";
      ret x
  | _, _ =>
      run_ initialize 3;
      the X
  end.

(** Lines 124-127 of [run]: the value of [do_optimize] in iteration [it]. *)
Definition do_optimize_at (it : Z) : M bool :=
  do r <- py_mod it (train_intervall self);
  ret (r =? 0).

(** [best_idx = np.argmin(self.Y)] followed by [self.X[best_idx]] *)
Definition best_observed : M (list F) :=
  do Ya <- the Y;
  do best_idx <- lift (np_argmin (fltb self) Ya);
  do Xa <- the X;
  lift (getrow Xa best_idx).

(** Lines 131-147 of [run]: the new incumbent. *)
Definition recommend : M unit :=
  match recommendation_strategy self with
  | None =>
      run_ logging_info "Use best point seen so far as incumbent.";
      do Ya <- the Y;
      do best_idx <- lift (np_argmin (fltb self) Ya);
      do Xa <- the X;
      do xb <- lift (getrow Xa best_idx);
      run_ modify (set_incumbent (Some xb));
      do Ya <- the Y;
      do yb <- lift (getrow Ya best_idx);
      modify (set_incumbent_value (Some yb))
  | Some optimize_posterior_mean_and_std =>
      run_ logging_info "Optimize the posterior mean and std to find a new incumbent";
      do n <- get n_restarts;
      do startpoints <- comprehension n draw_uniform;
      do xb <- best_observed;
      let startpoints := startpoints ++ [xb] in
      do r <- call (Recommend optimize_posterior_mean_and_std (StartList startpoints) (Some true))
                   (strategy_call self optimize_posterior_mean_and_std
                      (StartList startpoints) (Some true));
      run_ modify (set_incumbent (Some (fst r)));
      modify (set_incumbent_value (Some (snd r)))
  | Some st =>
      do startpoint <- best_observed;
      do r <- call (Recommend st (StartPoint startpoint) None)
                   (strategy_call self st (StartPoint startpoint) None);
      run_ modify (set_incumbent (Some (fst r)));
      modify (set_incumbent_value (Some (snd r)))
  end.

(** Lines 169-176 of [run]: the checkpoint of iteration [it]. *)
Definition checkpoint (it : Z) (new_x : arr2 F) : M unit :=
  match save_dir self with
  | None => ret tt
  | Some _ =>
      do r <- py_mod it (num_save self);
      if r =? 0 then
        if model_is_GPyModel self then
          do h <- call ParamArray (model_param_array self);
          do a <- call (AcqCall new_x) (acquisition_func_call self new_x);
          call (Save it (Some h) (AcqValue a))
               (save_iteration self it (Some h) (AcqValue a))
        else
          call (Save it None AcqOmitted) (save_iteration self it None AcqOmitted)
      else ret tt
  end.

(** The body of the loop of [run] (lines 120-176) for iteration [it]. *)
Definition iteration (it : Z) : M unit :=
  run_ logging_info "Start iteration %d ... ";
  do start_time <- clock;
  do do_optimize <- do_optimize_at it;
  do Xo <- get X;
  do Yo <- get Y;
  do new_x <- choose_next Xo Yo do_optimize;
  do start_time_inc <- clock;
  run_ recommend;
  do t <- clock;
  run_ logging_info "New incumbent %s found in %f seconds";
  do t <- clock;
  do oh <- the time_optimization_overhead;
  run_ modify (set_time_optimization_overhead
                 (Some (np_append1 oh (fsub self t start_time))));
  run_ logging_info "Optimization overhead was %f seconds";
  run_ logging_info "Evaluate candidate %s";
  do start_time <- clock;
  do new_y <- call (Evaluate new_x) (task_evaluate self new_x);
  do t <- clock;
  do fe <- the time_func_eval;
  run_ modify (set_time_func_eval (Some (np_append1 fe (fsub self t start_time))));
  do y00 <- lift (getitem2 new_y 0 0);
  run_ logging_info "Configuration achieved a performance of %f ";
  run_ logging_info "Evaluation of this configuration took %f seconds";
  do Xa <- the X;
  do Xa' <- lift (np_append0 Xa new_x);
  run_ modify (set_X (Some Xa'));
  do Ya <- the Y;
  do Ya' <- lift (np_append0 Ya new_y);
  run_ modify (set_Y (Some Ya'));
  checkpoint it new_x.

(** [self.X.shape[0]] *)
Definition X_shape_0 : M nat :=
  do Xa <- getattr X;
  ret (nrows Xa).

(** Lines 104-117 of [run]: where the observations come from. *)
Definition run_entry (X0 Y0 : option (arr2 F)) : M unit :=
  do t <- clock;
  run_ modify (set_time_start (Some t));
  match X0, Y0 with
  | None, None =>
      run_ initialize 3;
      do Xa <- the X;
      do x0 <- lift (getrow Xa 0);
      run_ modify (set_incumbent (Some x0));
      do Ya <- the Y;
      do y0 <- lift (getrow Ya 0);
      run_ modify (set_incumbent_value (Some y0));
      match save_dir self with
      | None => ret tt
      | Some _ =>
          do r <- py_mod 0 (num_save self);
          if r =? 0 then call (Save 0 None AcqZero) (save_iteration self 0 None AcqZero)
          else ret tt
      end
  | _, _ =>
      run_ modify (set_X X0);
      run_ modify (set_Y Y0);
      do n <- X_shape_0;
      run_ modify (set_time_func_eval (Some (np_zeros1 (fzero self) n)));
      do n <- X_shape_0;
      modify (set_time_optimization_overhead (Some (np_zeros1 (fzero self) n)))
  end.

(** Lines 104-176 of [run]: everything up to the end of the loop. *)
Definition run_loop (num_iterations : Z) (X0 Y0 : option (arr2 F)) : M unit :=
  run_ run_entry X0 Y0;
  for_ (py_range 1 num_iterations) iteration.

(** ["... %f" % v] for an array [v]: the conversion [%f] takes one
    number, so that [v] is converted when it has exactly one entry and
    the operator raises a [TypeError] otherwise.  Line 190 applies it to
    [self.incumbent_value], which is whatever the recommendation
    strategy returned, or a row of [Y].  The other [%] of the file
    (lines 90, 91, 153, 155, 161, 163) format a number, a string or a
    row of the [Y] that [initialize] allocates with one column, and do
    not fail. *)
Definition format_f (v : list F) : M unit :=
  match v with
  | [_] => ret tt
  | _ => raise TypeError
  end.

(** Lines 190-192 of [run]: the message of the last log line, which
    line 190 formats itself before it calls [logging.info], the log
    line and the [return]. *)
Definition run_return : M (option (list F) * list F) :=
  do inc <- get incumbent;
  do inc_value <- getattr incumbent_value;
  run_ format_f inc_value;
  run_ logging_info "Return %s as incumbent with predicted performance %f";
  do inc <- get incumbent;
  do inc_value <- getattr incumbent_value;
  ret (inc, inc_value).

(** [run(self, num_iterations=10, X=None, Y=None)] *)
Definition run (num_iterations : Z) (X0 Y0 : option (arr2 F))
  : M (option (list F) * list F) :=
  run_ run_loop num_iterations X0 Y0;
  run_return.
End BayesianOptimization.

(** ** A concrete task and concrete collaborators

    Numbers are integers, the outside state is a counter that the clock,
    the random generator and the maximizer advance.  The objective is the
    sum of the coordinates; the model fails to train once it is handed
    [fail_rows] observations. *)

Module Demo.
Definition objective (r : list Z) : Z := foldr Z.add 0 r.

(** With [picky], the task refuses a point whose objective is negative. *)
Definition evaluate (picky : bool) (x : arr2 Z) (w : nat)
  : result unit (arr2 Z) * nat :=
  if picky && existsb (fun r => objective r <? 0) (rows x)
  then (Raise (Foreign tt), w)
  else (Ok (Arr2 1 (map (fun r => [objective r]) (rows x))), w).

Definition train (fail_rows : option nat) (X Y : arr2 Z) (w : nat)
  : result unit unit * nat :=
  match fail_rows with
  | Some k => if (nrows X =? k)%nat then (Raise (Foreign tt), w) else (Ok tt, w)
  | None => (Ok tt, w)
  end.

Definition demo_env (dims : nat) (fail_rows : option nat) (picky gpy : bool)
    (dir : option string) (strat : option strategy) (nsave ntrain : Z)
  : env Z nat unit nat Z :=
  {| fzero := 0;
     fsub := Z.sub;
     fltb := Z.ltb;
     time_time := fun w => (Z.of_nat w, S w);
     random_uniform := fun lo hi n w => (Ok (replicate n (Z.of_nat w)), S w);
     task_X_lower := replicate dims 0;
     task_X_upper := replicate dims 100;
     task_n_dims := dims;
     task_evaluate := evaluate picky;
     model_train := train fail_rows;
     model_is_GPyModel := gpy;
     model_param_array := fun w => (Ok w, w);
     acquisition_func_update := fun w => (Ok tt, w);
     acquisition_func_call := fun x w => (Ok (Z.of_nat (nrows x)), w);
     maximize_func_maximize := fun w => (Ok (Arr2 dims [replicate dims (- Z.of_nat w)]), S w);
     strategy_call := fun st sp wg w =>
       (Ok (match sp with
            | StartList pts => (default [] (last pts), [0])
            | StartPoint pt => (pt, [0])
            end), w);
     save_iteration := fun it h a w => (Ok tt, w);
     save_dir := dir;
     recommendation_strategy := strat;
     num_save := nsave;
     train_intervall := ntrain |}.

(** A task in 1 dimension, no checkpoints, default incumbent, training
    at every iteration. *)
Definition plain : env Z nat unit nat Z :=
  demo_env 1 None false false None None 1 1.

(** The same, with a task that refuses what the maximizer proposes. *)
Definition picky_task : env Z nat unit nat Z :=
  demo_env 1 None true false None None 1 1.

(** The same as [plain], with training at every second iteration. *)
Definition every_second : env Z nat unit nat Z :=
  demo_env 1 None false false None None 1 2.

(** A model that cannot be trained on four observations. *)
Definition untrainable : env Z nat unit nat Z :=
  demo_env 1 (Some 4%nat) false false None None 1 1.

(** A [GPyModel], checkpoints at every second iteration, and the
    strategy [optimize_posterior_mean_and_std]. *)
Definition checkpointed : env Z nat unit nat Z :=
  demo_env 2 None false true (Some "run") (Some optimize_posterior_mean_and_std) 2 1.
End Demo.

(** ** Predicates on the solver object *)

Section Predicates.
Context {F W : Type}.

(** The four arrays exist, with [n] rows each: [X] is [n] by [d], [Y] is
    [n] by 1, and the two timing arrays have length [n]. *)
Definition observations (n d : nat) (s : solver F W) : Prop :=
  (exists Xa, X s = Some Xa /\ shape Xa = (n, d) /\ wf_arr2 Xa) /\
  (exists Ya, Y s = Some Ya /\ shape Ya = (n, 1%nat) /\ wf_arr2 Ya) /\
  (exists fe, time_func_eval s = Some fe /\ length fe = n) /\
  (exists oh, time_optimization_overhead s = Some oh /\ length oh = n).

(** The number of rows of [X] and [Y] and the lengths of the timing
    arrays, when all four exist. *)
Definition sizes (s : solver F W) : option (nat * nat * nat * nat) :=
  match X s, Y s, time_func_eval s, time_optimization_overhead s with
  | Some Xa, Some Ya, Some fe, Some oh =>
      Some (nrows Xa, nrows Ya, length fe, length oh)
  | _, _, _, _ => None
  end.
End Predicates.

(** ** Predicates on numbers, calls and collaborators *)

Section Order.
Context {F : Type}.
Variable ltb : F -> F -> bool.

(** The comparison of the numbers is a strict weak order, as [<] is on
    floating point numbers that are not NaN. *)
Definition strict_weak_order : Prop :=
  (forall a, ltb a a = false) /\
  (forall a b c, ltb a b = true -> ltb b c = true -> ltb a c = true) /\
  (forall a b c, ltb a b = true -> ltb a c = true \/ ltb c b = true).

(** [l !! i] is a least entry of [l], and the first of these. *)
Definition first_minimum (l : list F) (i : nat) (m : F) : Prop :=
  l !! i = Some m /\
  (forall j m', l !! j = Some m' -> ltb m' m = false) /\
  (forall j m', (j < i)%nat -> l !! j = Some m' -> ltb m m' = true).
End Order.

Section Calls.
Context {F H A : Type}.

Definition is_save (e : event F H A) : bool :=
  match e with Save _ _ _ => true | _ => false end.

Definition is_train (e : event F H A) : bool :=
  match e with Train _ _ => true | _ => false end.

(** The checkpoints among the calls, in order. *)
Definition checkpoints (evs : list (event F H A)) : list (event F H A) :=
  List.filter is_save evs.

(** The calls of [model.train] among the calls, in order. *)
Definition trainings (evs : list (event F H A)) : list (event F H A) :=
  List.filter is_train evs.
End Calls.

Section Quiet.
Context {F W E H A : Type}.
Variable p : event F H A -> bool.

(** [quiet m]: no call that [m] makes is selected by [p]. *)
Definition quiet {T} (m : @M F W E H A T) : Prop :=
  forall s, wp m (fun ev _ _ => List.filter p ev = []) s.
End Quiet.

Section Interfaces.
Context {F W E H A : Type}.
Variable self : env F W E H A.

(** What a checkpoint of iteration [it] holds: with a [GPyModel] its
    hyperparameters and a value of the acquisition function, and
    otherwise neither. *)
Definition checkpoint_of (it : Z) (e : event F H A) : Prop :=
  if model_is_GPyModel self then exists h a, e = Save it (Some h) (AcqValue a)
  else e = Save it None AcqOmitted.

(** The four arrays of [s'] are those of [s]. *)
Definition same_arrays (s s' : solver F W) : Prop :=
  X s' = X s /\ Y s' = Y s /\
  time_func_eval s' = time_func_eval s /\
  time_optimization_overhead s' = time_optimization_overhead s.

(** What the interfaces of the maximizer and of the task promise:
    [maximize()] gives one point, and [evaluate] one row for each row
    it is given. *)
Definition maximizer_gives_one_point : Prop :=
  forall w x w', maximize_func_maximize self w = (Ok x, w') -> nrows x = 1%nat.

Definition task_gives_one_row_per_point : Prop :=
  forall x w y w', task_evaluate self x w = (Ok y, w') -> nrows y = nrows x.
End Interfaces.

(** A solver with three observations in one dimension; the least value,
    2, is recorded twice, first for the point 4. *)
Definition three_observations : solver Z nat :=
  Solver (Some (Arr2 1 [[9]; [4]; [6]])) (Some (Arr2 1 [[7]; [2]; [2]]))
         (Some [0; 0; 0]) (Some [0; 0; 0]) true None None 10 None 0%nat.

(** ** More predicates on calls, arrays and collaborators *)

Section MoreCalls.
Context {F H A : Type}.

Definition is_evaluate (e : event F H A) : bool :=
  match e with Evaluate _ => true | _ => false end.

Definition is_maximize (e : event F H A) : bool :=
  match e with Maximize => true | _ => false end.

(** The calls of [task.evaluate] among the calls, in order. *)
Definition evaluations (evs : list (event F H A)) : list (event F H A) :=
  List.filter is_evaluate evs.

(** The calls of [maximize_func.maximize] among the calls, in order. *)
Definition maximizations (evs : list (event F H A)) : list (event F H A) :=
  List.filter is_maximize evs.
End MoreCalls.

Section MorePredicates.
Context {F W : Type}.

(** [a'] is [a] with rows added at the end. *)
Definition extends_arr (a a' : arr2 F) : Prop :=
  ncols a' = ncols a /\ rows a `prefix_of` rows a'.

(** The solver still holds the observations [Xa], [Ya] it was given, as
    the first rows of [X] and [Y], and [zeros] as the first entries of
    both timing arrays. *)
Definition keeps_observations (Xa Ya : arr2 F) (zeros : list F) (s : solver F W) : Prop :=
  (exists X', X s = Some X' /\ extends_arr Xa X') /\
  (exists Y', Y s = Some Y' /\ extends_arr Ya Y') /\
  (exists fe, time_func_eval s = Some fe /\ zeros `prefix_of` fe) /\
  (exists oh, time_optimization_overhead s = Some oh /\ zeros `prefix_of` oh).
End MorePredicates.

(** ** Settings that [run] leaves alone *)

Section SettingsPredicates.
Context {F W : Type}.

(** [s'] has the attributes of [s] that are not arrays: the flag, the
    incumbent and its value, the number of restarts, the start time. *)
Definition same_settings (s s' : solver F W) : Prop :=
  model_untrained s' = model_untrained s /\
  incumbent s' = incumbent s /\
  incumbent_value s' = incumbent_value s /\
  n_restarts s' = n_restarts s /\
  time_start s' = time_start s.

(** [n_restarts] is [nr], and [model_untrained] is [False] if [mu] is. *)
Definition keeps_config (nr : nat) (mu : bool) (s : solver F W) : Prop :=
  n_restarts s = nr /\ (mu = false -> model_untrained s = false).
End SettingsPredicates.

(** ** The incumbent and the last observation *)

Section IncumbentPredicates.
Context {F W E H A : Type}.
Variable self : env F W E H A.

(** The arrays that the task answers with are proper arrays: every row
    has the declared number of columns. *)
Definition task_gives_arrays : Prop :=
  forall x w y w', task_evaluate self x w = (Ok y, w') -> wf_arr2 y.

(** [X] and [Y] pair up: [Y] is a proper column with as many rows as
    [X], and there is at least one observation. *)
Definition paired (s : solver F W) : Prop :=
  exists Xa Ya, X s = Some Xa /\ Y s = Some Ya /\
    wf_arr2 Ya /\ ncols Ya = 1%nat /\ nrows Xa = nrows Ya /\ nrows Ya <> 0%nat.

(** [inc] and [v] are the best of the observations of [s] when the last
    row of [X] and of [Y] is left out: [v] holds the first least value
    of [Y] without its last row, and [inc] is the row of [X] at the same
    position. *)
Definition best_but_last (inc : option (list F)) (v : list F) (s : solver F W) : Prop :=
  exists Xa Ya x y i xb m,
    X s = Some (Arr2 (ncols Xa) (rows Xa ++ [x])) /\
    Y s = Some (Arr2 (ncols Ya) (rows Ya ++ [y])) /\
    nrows Xa = nrows Ya /\
    rows Xa !! i = Some xb /\
    first_minimum (fltb self) (concat (rows Ya)) i m /\
    inc = Some xb /\ v = [m].
End IncumbentPredicates.

(** ** How [run] is started *)

Section Start.
Context {T : Type}.

(** [X] and [Y] are both given, or both left out. *)
Definition both_or_neither (X0 Y0 : option T) : Prop :=
  match X0, Y0 with
  | Some _, Some _ | None, None => True
  | _, _ => False
  end.

(** The number of initial points that [run] evaluates itself. *)
Definition initial_evaluations (X0 : option T) : nat :=
  match X0 with
  | None => 3
  | Some _ => 0
  end.
End Start.

(** ** The points that were evaluated *)

Section Evaluated.
Context {F W E H A : Type}.
Variable self : env F W E H A.

(** The points handed to [task.evaluate], in the order of the calls:
    the rows of the argument of each call. *)
Fixpoint evaluated_points (evs : list (event F H A)) : list (list F) :=
  match evs with
  | [] => []
  | Evaluate x :: evs' => rows x ++ evaluated_points evs'
  | _ :: evs' => evaluated_points evs'
  end.

(** The rows of the [X] that [run] is given, if any. *)
Definition given_points (X0 : option (arr2 F)) : list (list F) :=
  match X0 with
  | Some Xa => rows Xa
  | None => []
  end.

(** [np.random.uniform(low, high, n)] gives [n] numbers. *)
Definition uniform_gives_point : Prop :=
  forall lo hi n w v w', random_uniform self lo hi n w = (Ok v, w') -> length v = n.
End Evaluated.

(** ** Collaborators that keep to their interfaces *)

Section Contract.
Context {F W E H A : Type}.
Variable self : env F W E H A.

(** The call [op] does not raise, whatever the state of the outside,
    and what it returns satisfies [P]. *)
Definition returns {T} (op : W -> result E T * W) (P : T -> Prop) : Prop :=
  forall w, exists v, fst (op w) = Ok v /\ P v.

(** The intervals are not zero, no collaborator raises,
    [np.random.uniform] gives as many numbers as it is asked for, the
    maximizer gives one point of [n_dims] coordinates, the task gives
    one value for one point, and the value that a recommendation
    strategy gives for its incumbent is one number. *)
Definition well_behaved : Prop :=
  train_intervall self <> 0 /\
  (forall dir, save_dir self = Some dir -> num_save self <> 0) /\
  (forall lo hi n, returns (random_uniform self lo hi n) (fun v => length v = n)) /\
  (forall x, nrows x = 1%nat ->
     returns (task_evaluate self x) (fun y => shape y = (1%nat, 1%nat) /\ wf_arr2 y)) /\
  (forall Xa Ya, returns (model_train self Xa Ya) (fun _ => True)) /\
  returns (acquisition_func_update self) (fun _ => True) /\
  returns (maximize_func_maximize self) (fun x => shape x = (1%nat, task_n_dims self)) /\
  (forall st sp wg,
     returns (strategy_call self st sp wg) (fun r => length (snd r) = 1%nat)) /\
  returns (model_param_array self) (fun _ => True) /\
  (forall x, returns (acquisition_func_call self x) (fun _ => True)) /\
  (forall it h a, returns (save_iteration self it h a) (fun _ => True)).

(** The state in which an iteration can run and [run] can return: the
    four arrays are there, [X] has [n_dims] columns, [Y] is a proper
    column with as many rows as [X], at least one, and
    [incumbent_value] exists and holds one number. *)
Definition ready (s : solver F W) : Prop :=
  exists Xa Ya fe oh,
    X s = Some Xa /\ Y s = Some Ya /\
    time_func_eval s = Some fe /\ time_optimization_overhead s = Some oh /\
    ncols Xa = task_n_dims self /\
    wf_arr2 Ya /\ ncols Ya = 1%nat /\ nrows Xa = nrows Ya /\ nrows Ya <> 0%nat /\
    exists v, incumbent_value s = Some [v].
End Contract.

(** ** The calls of a checkpoint *)

Section CheckpointCalls.
Context {F H A : Type}.

(** The calls that lines 169-176 make: [self.model.m.param_array],
    [self.acquisition_func(...)] and [self.save_iteration(...)]. *)
Definition is_checkpoint_call (e : event F H A) : bool :=
  match e with
  | ParamArray | AcqCall _ | Save _ _ _ => true
  | _ => false
  end.

(** These calls among the calls, in order. *)
Definition checkpoint_calls (evs : list (event F H A)) : list (event F H A) :=
  List.filter is_checkpoint_call evs.
End CheckpointCalls.

(** * Properties *)

(** ** numpy arrays *)

Section NumpyFacts.
Context {F E : Type}.
Implicit Types (a b : arr2 F) (v : list F).

Lemma np_zeros2_shape (z : F) n d : shape (np_zeros2 z n d) = (n, d).
Proof. unfold shape, nrows, np_zeros2; simpl. by rewrite length_replicate. Qed.

Lemma np_zeros2_wf (z : F) n d : wf_arr2 (np_zeros2 z n d).
Proof.
  unfold wf_arr2, np_zeros2; simpl. apply Forall_replicate.
  apply length_replicate.
Qed.

Lemma np_zeros1_length (z : F) n : length (np_zeros1 z n) = n.
Proof. apply length_replicate. Qed.

Lemma setrow_shape a i v a' :
  setrow (E:=E) a i v = Ok a' -> shape a' = shape a.
Proof.
  unfold setrow, shape, nrows. intros Hs.
  destruct (i <? length (rows a))%nat; [|discriminate].
  destruct (length v =? ncols a)%nat.
  - injection Hs as <-. simpl. by rewrite length_insert.
  - destruct v as [|c [|c' v']]; try discriminate.
    injection Hs as <-. simpl. by rewrite length_insert.
Qed.

Lemma setrow_wf a i v a' :
  setrow (E:=E) a i v = Ok a' -> wf_arr2 a -> wf_arr2 a'.
Proof.
  unfold setrow, wf_arr2. intros Hs Hwf.
  destruct (i <? nrows a)%nat; [|discriminate].
  destruct (length v =? ncols a)%nat eqn:Hlen.
  - injection Hs as <-. simpl. apply Forall_insert; [done|].
    by apply Nat.eqb_eq.
  - destruct v as [|c [|c' v']]; try discriminate.
    injection Hs as <-. simpl. apply Forall_insert; [done|].
    apply length_replicate.
Qed.

Lemma setitem1_length (t : list F) i (x : F) t' :
  setitem1 (E:=E) t i x = Ok t' -> length t' = length t.
Proof.
  unfold setitem1. destruct (i <? length t)%nat; [|discriminate].
  intros [= <-]. apply length_insert.
Qed.

Lemma np_append0_nrows a b c :
  np_append0 (E:=E) a b = Ok c -> nrows c = (nrows a + nrows b)%nat.
Proof.
  unfold np_append0, nrows. destruct (ncols a =? ncols b)%nat; [|discriminate].
  intros [= <-]. simpl. apply length_app.
Qed.

Lemma np_append1_length (t : list F) (x : F) :
  length (np_append1 t x) = S (length t).
Proof. unfold np_append1. rewrite length_app. simpl. lia. Qed.
End NumpyFacts.

(** ** The monad *)

Section MonadFacts.
Context {F W E H A : Type}.
Abbreviation M' := (@M F W E H A).
Abbreviation post T :=
  (list (event F H A) -> result E T -> solver F W -> Prop).
Implicit Types (s : solver F W).

Lemma wp_bind {T U} (m : M' T) (k : T -> M' U) (Q : post _) s :
  wp m (fun ev r s' =>
          match r with
          | Ok v => wp (k v) (fun ev' r' s'' => Q (ev ++ ev') r' s'') s'
          | Raise e => Q ev (Raise e) s'
          end) s ->
  wp (bind m k) Q s.
Proof. unfold wp, bind. by destruct (value (m s)). Qed.

Lemma wp_try_except {T} (body : M' T) (handler : exn E -> M' T) (Q : post _) s :
  wp body (fun ev r s' =>
             match r with
             | Ok v => Q ev (Ok v) s'
             | Raise e => wp (handler e) (fun ev' r' s'' => Q (ev ++ ev') r' s'') s'
             end) s ->
  wp (try_except body handler) Q s.
Proof. unfold wp, try_except. by destruct (value (body s)). Qed.

Lemma wp_conseq {T} (m : M' T) (Q Q' : post T) s :
  wp m Q' s -> (forall ev r s', Q' ev r s' -> Q ev r s') -> wp m Q s.
Proof. unfold wp. auto. Qed.

Lemma wp_ret {T} (v : T) (Q : post _) s : Q [] (Ok v) s -> wp (ret v) Q s.
Proof. done. Qed.

Lemma wp_raise {T} (e : exn E) (Q : post T) s :
  Q [] (Raise e) s -> wp (raise e) Q s.
Proof. done. Qed.

Lemma wp_lift {T} (r : result E T) (Q : post _) s : Q [] r s -> wp (lift r) Q s.
Proof. done. Qed.

Lemma wp_get {T} (f : solver F W -> T) (Q : post _) s : Q [] (Ok (f s)) s -> wp (get f) Q s.
Proof. done. Qed.

Lemma wp_modify (f : solver F W -> solver F W) (Q : post _) s :
  Q [] (Ok tt) (f s) -> wp (modify f) Q s.
Proof. done. Qed.

Lemma wp_the {T} (f : solver F W -> option T) (Q : post _) s :
  match f s with
  | Some v => Q [] (Ok v) s
  | None => Q [] (Raise TypeError) s
  end -> wp (the f) Q s.
Proof. unfold wp, the. by destruct (f s). Qed.

Lemma wp_getattr {T} (f : solver F W -> option T) (Q : post _) s :
  match f s with
  | Some v => Q [] (Ok v) s
  | None => Q [] (Raise AttributeError) s
  end -> wp (getattr f) Q s.
Proof. unfold wp, getattr. by destruct (f s). Qed.

Lemma wp_call {T} (e : event F H A) (op : W -> result E T * W) (Q : post _) s :
  Q [e] (fst (op (world s))) (set_world (snd (op (world s))) s) ->
  wp (call e op) Q s.
Proof. done. Qed.

Lemma wp_now (clock : W -> F * W) (Q : post _) s :
  Q [] (Ok (fst (clock (world s)))) (set_world (snd (clock (world s))) s) ->
  wp (now clock) Q s.
Proof. done. Qed.

Lemma wp_logging_info msg (Q : post _) s : Q [Log msg] (Ok tt) s -> wp (logging_info msg) Q s.
Proof. done. Qed.

Lemma wp_for_nil {T} (body : T -> M' unit) (Q : post _) s :
  Q [] (Ok tt) s -> wp (for_ [] body) Q s.
Proof. done. Qed.

Lemma wp_for_cons {T} (body : T -> M' unit) i l (Q : post _) s :
  wp (bind (body i) (fun _ => for_ l body)) Q s -> wp (for_ (i :: l) body) Q s.
Proof. done. Qed.

(** A property of the solver object that every step of a loop keeps,
    whether the step returns or raises, holds when the loop is left. *)
Lemma for_invariant {T} (P : solver F W -> Prop) (body : T -> M' unit) l :
  (forall i s, P s -> P (final (body i s))) ->
  forall s, P s -> P (final (for_ l body s)).
Proof.
  intros Hbody. induction l as [|i l IH]; intros s Hs; [done|].
  simpl. unfold bind. specialize (Hbody i s Hs).
  destruct (value (body i s)); simpl; auto.
Qed.
End MonadFacts.

(** One step of symbolic execution of a method under [wp]. *)
Ltac wp_simpl :=
  cbv beta iota zeta;
  cbn [fst snd X Y time_func_eval time_optimization_overhead model_untrained
       incumbent incumbent_value n_restarts time_start world
       set_X set_Y set_time_func_eval set_time_optimization_overhead
       set_model_untrained set_incumbent set_incumbent_value set_time_start
       set_world].

Ltac wp_rule :=
  lazymatch goal with
  | |- wp (bind _ _) _ _ => apply wp_bind
  | |- wp (try_except _ _) _ _ => apply wp_try_except
  | |- wp (ret _) _ _ => apply wp_ret
  | |- wp (raise _) _ _ => apply wp_raise
  | |- wp (modify _) _ _ => apply wp_modify
  | |- wp (get _) _ _ => apply wp_get
  | |- wp (logging_info _) _ _ => apply wp_logging_info
  | |- wp (now _) _ _ => apply wp_now
  | |- wp (lift _) _ _ => apply wp_lift
  | |- wp (the _) _ _ => apply wp_the
  | |- wp (getattr _) _ _ => apply wp_getattr
  | |- wp (call _ _) _ _ => apply wp_call
  | |- wp (for_ [] _) _ _ => apply wp_for_nil
  | |- wp (for_ (_ :: _) _) _ _ => apply wp_for_cons
  end.

Ltac wp_case :=
  match goal with
  | |- match fst ?p with _ => _ end => destruct p as [[?|?] ?] eqn:?
  | |- match ?x with _ => _ end => destruct x eqn:?
  | |- wp (match ?x with _ => _ end) _ _ => destruct x eqn:?
  end.

Ltac wp_step := first [ wp_rule | wp_case ]; wp_simpl.

(** ** [initialize] *)

Section Initialize.
Context {F W E H A : Type}.
Variable self : env F W E H A.

Lemma initialize_point_observations n d i s :
  observations n d s ->
  wp (initialize_point self i) (fun _ _ s' => observations n d s') s.
Proof.
  intros ((Xa & HX & HXs & HXw) & (Ya & HY & HYs & HYw) &
          (fe & Hfe & Hfel) & (oh & Hoh & Hohl)).
  destruct s as [x y tf to mu inc incv nr ts w]. simpl in *. subst.
  unfold initialize_point, draw_uniform.
  repeat wp_step;
  repeat match goal with
  | Hs : setrow _ _ _ = Ok _ |- _ =>
      pose proof (setrow_shape _ _ _ _ Hs); pose proof (setrow_wf _ _ _ _ Hs);
      clear Hs
  | Hs : setitem1 _ _ _ = Ok _ |- _ =>
      pose proof (setitem1_length _ _ _ _ Hs); clear Hs
  end;
  unfold observations; cbn [X Y time_func_eval time_optimization_overhead];
  (split; [|split; [|split]]); eexists; (split; [reflexivity|]);
  try split; try congruence; auto.
Qed.

Lemma initialize_observations n s :
  observations n (task_n_dims self) (final (initialize self n s)).
Proof.
  unfold initialize.
  change (wp (run_ modify (set_time_func_eval (Some (np_zeros1 (fzero self) n)));
              run_ modify (set_time_optimization_overhead
                             (Some (np_zeros1 (fzero self) n)));
              run_ modify (set_X (Some (np_zeros2 (fzero self) n (task_n_dims self))));
              run_ modify (set_Y (Some (np_zeros2 (fzero self) n 1)));
              for_ (seq 0 n) (initialize_point self))
            (fun _ _ s' => observations n (task_n_dims self) s') s).
  do 8 wp_step.
  apply (for_invariant (observations n (task_n_dims self))).
  - intros i s0 Hs0. by apply initialize_point_observations.
  - unfold observations; cbn [X Y time_func_eval time_optimization_overhead].
    repeat split; eexists; (split; [reflexivity|]);
      eauto using np_zeros2_shape, np_zeros2_wf, np_zeros1_length.
Qed.

(** C7. For every [n_init_points], when [initialize(n_init_points)] is
    left (by returning or by an exception of a collaborator) [X] has
    shape [(n_init_points, task.n_dims)], [Y] has shape
    [(n_init_points, 1)] and both timing arrays have length
    [n_init_points]; with [n_init_points = 0] the call returns and the
    four arrays are empty. *)
Theorem initialize_shapes n s :
  observations n (task_n_dims self) (final (initialize self n s)) /\
  (n = 0%nat ->
   value (initialize self n s) = Ok tt /\
   X (final (initialize self n s)) = Some (Arr2 (task_n_dims self) []) /\
   Y (final (initialize self n s)) = Some (Arr2 1 []) /\
   time_func_eval (final (initialize self n s)) = Some [] /\
   time_optimization_overhead (final (initialize self n s)) = Some []).
Proof.
  split; [apply initialize_observations|].
  intros ->. by destruct s.
Qed.
End Initialize.

(** ** [np.argmin] *)

Section Argmin.
Context {F : Type}.
Variable ltb : F -> F -> bool.


Hypothesis Hord : strict_weak_order ltb.

Lemma argmin_from_first_minimum l : forall pre bi bv,
  first_minimum ltb pre bi bv ->
  exists m, first_minimum ltb (pre ++ l) (argmin_from ltb bi bv (length pre) l) m.
Proof.
  destruct Hord as (Hirr & Htr & Hneg).
  induction l as [|v l IH]; intros pre bi bv (Hbi & Hmin & Hfirst).
  - exists bv. rewrite app_nil_r. by repeat split.
  - replace (pre ++ v :: l) with ((pre ++ [v]) ++ l) by by rewrite <- app_assoc.
    simpl. replace (S (length pre)) with (length (pre ++ [v]))
      by (rewrite length_app; simpl; lia).
    destruct (ltb v bv) eqn:Hv; apply IH; repeat split.
    + apply list_lookup_middle. done.
    + intros j m' Hj. apply lookup_app_Some in Hj as [Hj|[_ Hj]].
      * destruct (ltb m' v) eqn:Hm'; [|done].
        rewrite <- (Hmin j m' Hj). symmetry. eauto.
      * apply list_lookup_singleton_Some in Hj as [_ <-]. apply Hirr.
    + intros j m' Hlt Hj. rewrite lookup_app_l in Hj by done.
      destruct (Hneg _ _ m' Hv) as [?|Hc]; [done|].
      rewrite (Hmin j m' Hj) in Hc. discriminate.
    + rewrite lookup_app_l; [done|]. by eapply lookup_lt_Some.
    + intros j m' Hj. apply lookup_app_Some in Hj as [Hj|[_ Hj]]; [eauto|].
      by apply list_lookup_singleton_Some in Hj as [_ <-].
    + intros j m' Hlt Hj. apply lookup_lt_Some in Hbi.
      rewrite lookup_app_l in Hj by lia. eauto.
Qed.

(** [np.argmin] fails on an empty array only, and otherwise gives the
    first position of the minimum of the flattened array. *)
Lemma np_argmin_first_minimum {E} (a : arr2 F) :
  concat (rows a) <> [] ->
  exists i m, np_argmin (E:=E) ltb a = Ok i /\ first_minimum ltb (concat (rows a)) i m.
Proof.
  unfold np_argmin. destruct (concat (rows a)) as [|v l] eqn:Hc; [done|].
  intros _. destruct (argmin_from_first_minimum l [v] 0%nat v) as [m Hm].
  - destruct Hord as (Hirr & _). repeat split.
    + intros [|j] m' Hj; simpl in Hj; [|done]. injection Hj as <-. apply Hirr.
    + intros j m' Hlt. lia.
  - exists (argmin_from ltb 0 v 1 l), m. done.
Qed.

(** An array of one column is its flattened form, entry by entry. *)
Lemma one_column_rows (a : arr2 F) :
  wf_arr2 a -> ncols a = 1%nat -> rows a = map (fun m => [m]) (concat (rows a)).
Proof.
  unfold wf_arr2. intros Hwf Hc. rewrite Hc in Hwf.
  induction Hwf as [|r l Hr _ IH]; [done|].
  destruct r as [|c [|c' r']]; try discriminate. simpl. by rewrite <- IH.
Qed.
End Argmin.

Ltac wp_go := repeat (wp_rule; wp_simpl).

(** ** The incumbent *)

Section Recommend.
Context {F W E H A : Type}.
Variable self : env F W E H A.

(** C2. Without a recommendation strategy, the recomputation of the
    incumbent in an iteration sets the incumbent value to the least of
    the objective values recorded in [Y] at that moment and the
    incumbent to the row of [X] at the same position, which is the
    first position where the least value occurs. *)
Theorem recommend_default s Xa Ya :
  recommendation_strategy self = None ->
  strict_weak_order (fltb self) ->
  X s = Some Xa -> Y s = Some Ya ->
  wf_arr2 Ya -> ncols Ya = 1%nat ->
  nrows Xa = nrows Ya -> nrows Ya <> 0%nat ->
  exists i xb m,
    value (recommend self s) = Ok tt /\
    incumbent (final (recommend self s)) = Some xb /\
    incumbent_value (final (recommend self s)) = Some [m] /\
    rows Xa !! i = Some xb /\
    rows Ya !! i = Some [m] /\
    first_minimum (fltb self) (concat (rows Ya)) i m.
Proof.
  intros Hnone Hord HX HY Hwf Hcol Hrows Hne.
  pose proof (one_column_rows Ya Hwf Hcol) as Hflat.
  destruct (np_argmin_first_minimum (E:=E) (fltb self) Hord Ya) as (i & m & Harg & Hmin).
  { intros Hnil. apply Hne. unfold nrows. by rewrite Hflat, Hnil. }
  assert (HYi : rows Ya !! i = Some [m]).
  { rewrite Hflat, list_lookup_fmap. destruct Hmin as (-> & _). done. }
  destruct (lookup_lt_is_Some_2 (rows Xa) i) as [xb HXi].
  { apply lookup_lt_Some in HYi. unfold nrows in Hrows. lia. }
  exists i, xb, m.
  cut (wp (recommend self)
         (fun _ r s' => r = Ok tt /\ incumbent s' = Some xb /\
                        incumbent_value s' = Some [m]) s).
  { unfold wp. intros (? & ? & ?). done. }
  unfold recommend. rewrite Hnone.
  destruct s as [x y tf to mu inc incv nr ts w]. simpl in HX, HY. subst x y.
  wp_go. rewrite Harg. wp_go. unfold getrow. rewrite HXi. wp_go.
  rewrite HYi. wp_go. done.
Qed.

Abbreviation uniform_event :=
  (Uniform (H:=H) (A:=A) (task_X_lower self) (task_X_upper self) (task_n_dims self)).

(** The list comprehension of line 139 touches the outside only; when
    no draw raises it makes [n] draws and gives [n] points. *)
Lemma comprehension_draw_uniform n : forall s,
  (exists w', final (comprehension n (draw_uniform self) s) = set_world w' s) /\
  (forall pts, value (comprehension n (draw_uniform self) s) = Ok pts ->
     length pts = n /\
     emitted (comprehension n (draw_uniform self) s) = replicate n uniform_event).
Proof.
  induction n as [|n IH]; intros s.
  - split; [exists (world s); by destruct s|]. by intros pts [= <-].
  - simpl. set (c := comprehension n (draw_uniform self)) in *.
    unfold bind, draw_uniform, call, ret; simpl.
    destruct (random_uniform self _ _ _ (world s)) as [[v|e] w1]; simpl.
    + destruct (IH (set_world w1 s)) as ([w2 Hw2] & Hpts).
      destruct (value (c (set_world w1 s))) as [vs|e] eqn:Hv; simpl.
      * destruct (Hpts vs eq_refl) as [Hlen Hem]. split.
        { exists w2. by rewrite Hw2. }
        intros pts [= <-]. simpl. rewrite Hlen, Hem, app_nil_r. done.
      * split; [|done]. exists w2. by rewrite Hw2.
    + split; [|done]. by exists w1.
Qed.


End Recommend.

(** ** The entry of [run] *)

Section RunEntry.
Context {F W E H A : Type}.
Variable self : env F W E H A.

Lemma py_range_empty lo hi : hi <= lo -> py_range lo hi = [].
Proof. intros Hle. unfold py_range. by replace (Z.to_nat (hi - lo)) with 0%nat by lia. Qed.

(** C8. When [run] is given both [X] and [Y], its entry (lines 104-117)
    calls no collaborator, so that nothing is initialized, stores the
    two arrays as they are, and sets both timing arrays to zeros, as
    many as [X] has rows. *)
Theorem run_entry_prior Xa Ya s :
  let o := run_entry self (Some Xa) (Some Ya) s in
  value o = Ok tt /\ emitted o = [] /\
  X (final o) = Some Xa /\ Y (final o) = Some Ya /\
  time_func_eval (final o) = Some (replicate (nrows Xa) (fzero self)) /\
  time_optimization_overhead (final o) = Some (replicate (nrows Xa) (fzero self)) /\
  length (replicate (nrows Xa) (fzero self)) = nrows Xa /\
  incumbent (final o) = incumbent s /\
  incumbent_value (final o) = incumbent_value s.
Proof.
  destruct s as [x y tf to mu inc incv nr ts w]. simpl.
  repeat split. apply length_replicate.
Qed.

(** C10. On a solver that was just constructed, [run] with both [X] and
    [Y] given and [num_iterations <= 1] executes no iteration: no
    collaborator is called and nothing is logged, [incumbent] is still
    [None] and [incumbent_value] still does not exist, and the call ends
    in an [AttributeError], raised where line 190 reads
    [self.incumbent_value]. *)
Theorem run_prior_no_iteration num_iterations Xa Ya w :
  num_iterations <= 1 ->
  let o := run self num_iterations (Some Xa) (Some Ya) (__init__ w) in
  value o = Raise AttributeError /\ emitted o = [] /\
  incumbent (final o) = None /\ incumbent_value (final o) = None /\
  py_range 1 num_iterations = [] /\
  final o = final (run_entry self (Some Xa) (Some Ya) (__init__ w)).
Proof.
  intros Hle. unfold run, run_loop. rewrite (py_range_empty 1) by done.
  simpl. done.
Qed.
End RunEntry.

(** ** Which calls a method makes *)

Section CallsFacts.
Context {F H A : Type}.
Implicit Types (evs : list (event F H A)).

Lemma checkpoints_app evs (evs' : list (event F H A)) :
  checkpoints (evs ++ evs') = checkpoints evs ++ checkpoints evs'.
Proof. apply List.filter_app. Qed.

Lemma trainings_app evs (evs' : list (event F H A)) :
  trainings (evs ++ evs') = trainings evs ++ trainings evs'.
Proof. apply List.filter_app. Qed.
End CallsFacts.

Section QuietFacts.
Context {F W E H A : Type}.
Variable self : env F W E H A.
Variable p : event F H A -> bool.


Lemma quiet_app (evs evs' : list (event F H A)) :
  List.filter p evs = [] -> List.filter p evs' = [] -> List.filter p (evs ++ evs') = [].
Proof. intros H1 H2. by rewrite List.filter_app, H1, H2. Qed.

Lemma wp_quiet {T} (m : @M F W E H A T) (Q : _ -> _ -> _ -> Prop) s :
  quiet p m ->
  (forall ev r s', List.filter p ev = [] -> Q ev r s') ->
  wp m Q s.
Proof. intros Hm HQ. apply HQ. apply Hm. Qed.

Lemma quiet_for {T} (body : T -> @M F W E H A unit) l :
  (forall i, quiet p (body i)) -> quiet p (for_ l body).
Proof.
  intros Hbody. induction l as [|i l IH]; intros s; [done|].
  apply wp_for_cons, wp_bind. apply (wp_quiet _ _ _ (Hbody i)).
  intros ev [[]|e] s' Hev; [|done].
  apply (wp_quiet _ _ _ IH). intros. by apply quiet_app.
Qed.

Lemma quiet_comprehension {T} (body : @M F W E H A T) n :
  quiet p body -> quiet p (comprehension n body).
Proof.
  intros Hbody. induction n as [|n IH]; intros s; [done|].
  simpl. apply wp_bind. apply (wp_quiet _ _ _ Hbody).
  intros ev [v|e] s' Hev; [|done].
  apply wp_bind. apply (wp_quiet _ _ _ IH).
  intros ev' [vs|e] s'' Hev'; [|by apply quiet_app].
  apply wp_ret. rewrite app_nil_r. by apply quiet_app.
Qed.
End QuietFacts.

(** Closes [wp m (fun ev _ _ => filter p ev = []) s] for a method whose
    calls are not selected by [p]: runs it, and uses the hypotheses of
    the form [quiet p m'] for the methods it calls. *)
Ltac quiet_sub :=
  match goal with
  | Hq : _ |- wp ?m _ _ =>
      first [ apply (wp_quiet _ m _ _ Hq)
            | apply (wp_quiet _ m _ _ (Hq _))
            | apply (wp_quiet _ m _ _ (Hq _ _))
            | apply (wp_quiet _ m _ _ (Hq _ _ _)) ]
  end;
  intros ? ? ? ?; wp_simpl.

Ltac quiet_run := repeat first [ wp_rule; wp_simpl | quiet_sub | wp_case; wp_simpl ].

Ltac quiet_close :=
  repeat rewrite List.filter_app;
  repeat match goal with
         | Hf : List.filter _ ?ev = [] |- _ => rewrite Hf
         end;
  reflexivity.

Ltac quiet_solve := intros; quiet_run; quiet_close.

Section QuietMethods.
Context {F W E H A : Type}.
Variable self : env F W E H A.

Lemma initialize_no_save n : quiet is_save (initialize self n).
Proof.
  assert (Hpt : forall i, quiet is_save (initialize_point self i)).
  { intros i s. unfold initialize_point, draw_uniform. quiet_solve. }
  pose proof (quiet_for is_save _ (seq 0 n) Hpt) as Hloop.
  intros s. unfold initialize. quiet_solve.
Qed.

Lemma initialize_no_train n : quiet is_train (initialize self n).
Proof.
  assert (Hpt : forall i, quiet is_train (initialize_point self i)).
  { intros i s. unfold initialize_point, draw_uniform. quiet_solve. }
  pose proof (quiet_for is_train _ (seq 0 n) Hpt) as Hloop.
  intros s. unfold initialize. quiet_solve.
Qed.

Lemma choose_next_no_save X0 Y0 b : quiet is_save (choose_next self X0 Y0 b).
Proof.
  pose proof (initialize_no_save 3) as Hinit.
  intros s. unfold choose_next. destruct X0, Y0, b; quiet_solve.
Qed.

Lemma recommend_no_save : quiet is_save (recommend self).
Proof.
  assert (Hdraw : quiet is_save (draw_uniform self)).
  { intros s. unfold draw_uniform. quiet_solve. }
  assert (Hc : forall n, quiet is_save (comprehension n (draw_uniform self))).
  { intros n. by apply quiet_comprehension. }
  intros s. unfold recommend, best_observed.
  destruct (recommendation_strategy self) as [[|id]|]; quiet_solve.
Qed.

Lemma recommend_no_train : quiet is_train (recommend self).
Proof.
  assert (Hdraw : quiet is_train (draw_uniform self)).
  { intros s. unfold draw_uniform. quiet_solve. }
  assert (Hc : forall n, quiet is_train (comprehension n (draw_uniform self))).
  { intros n. by apply quiet_comprehension. }
  intros s. unfold recommend, best_observed.
  destruct (recommendation_strategy self) as [[|id]|]; quiet_solve.
Qed.

Lemma checkpoint_no_train it new_x : quiet is_train (checkpoint self it new_x).
Proof.
  intros s. unfold checkpoint, py_mod.
  destruct (save_dir self); [|quiet_solve].
  destruct (num_save self =? 0); [quiet_solve|].
  wp_go. destruct (it mod num_save self =? 0); [|quiet_solve].
  destruct (model_is_GPyModel self); quiet_solve.
Qed.
End QuietMethods.

(** ** Checkpoints *)

Section Checkpoints.
Context {F W E H A : Type}.
Variable self : env F W E H A.


Lemma checkpoint_saves it new_x s dir :
  save_dir self = Some dir -> num_save self <> 0 ->
  wp (checkpoint self it new_x)
     (fun ev r _ =>
        (it mod num_save self <> 0 -> ev = []) /\
        (it mod num_save self = 0 -> r = Ok tt ->
         exists e, checkpoints ev = [e] /\ checkpoint_of self it e)) s.
Proof.
  intros Hdir Hns. unfold checkpoint, py_mod, checkpoint_of. rewrite Hdir.
  destruct (Z.eqb_spec (num_save self) 0) as [|_]; [done|].
  wp_go. destruct (Z.eqb_spec (it mod num_save self) 0) as [Hz|Hz].
  - destruct (model_is_GPyModel self); repeat wp_step;
      (split; [done|]); intros _ Hr; try discriminate; eauto.
  - wp_go. by split.
Qed.

Lemma choose_next_no_checkpoint_call X0 Y0 b :
  quiet is_checkpoint_call (choose_next self X0 Y0 b).
Proof.
  assert (Hpt : forall i, quiet is_checkpoint_call (initialize_point self i)).
  { intros i s. unfold initialize_point, draw_uniform. quiet_solve. }
  pose proof (quiet_for is_checkpoint_call _ (seq 0 3) Hpt) as Hloop.
  intros s. unfold choose_next, initialize. destruct X0, Y0, b; quiet_solve.
Qed.

Lemma recommend_no_checkpoint_call : quiet is_checkpoint_call (recommend self).
Proof.
  assert (Hdraw : quiet is_checkpoint_call (draw_uniform self)).
  { intros s. unfold draw_uniform. quiet_solve. }
  assert (Hc : forall n, quiet is_checkpoint_call (comprehension n (draw_uniform self))).
  { intros n. by apply quiet_comprehension. }
  intros s. unfold recommend, best_observed.
  destruct (recommendation_strategy self) as [[|id]|]; quiet_solve.
Qed.

(** The checkpoint of an iteration is the checkpoint of the candidate
    that [choose_next] returned in this iteration. *)
Lemma iteration_checkpoint_candidate dir it s :
  save_dir self = Some dir -> num_save self <> 0 ->
  it mod num_save self = 0 ->
  value (iteration self it s) = Ok tt ->
  exists new_x,
    value (choose_next self (X s) (Y s) (it mod train_intervall self =? 0)
             (set_world (snd (time_time self (world s))) s)) = Ok new_x /\
    if model_is_GPyModel self then
      exists h a w1 w2 w3,
        model_param_array self w1 = (Ok h, w2) /\
        acquisition_func_call self new_x w2 = (Ok a, w3) /\
        checkpoint_calls (emitted (iteration self it s)) =
          [ParamArray; AcqCall new_x; Save it (Some h) (AcqValue a)]
    else
      checkpoint_calls (emitted (iteration self it s)) = [Save it None AcqOmitted].
Proof.
  intros Hdir Hns Hz.
  cut (wp (iteration self it)
         (fun ev r _ =>
            r = Ok tt ->
            exists new_x,
              value (choose_next self (X s) (Y s) (it mod train_intervall self =? 0)
                       (set_world (snd (time_time self (world s))) s)) = Ok new_x /\
              if model_is_GPyModel self then
                exists h a w1 w2 w3,
                  model_param_array self w1 = (Ok h, w2) /\
                  acquisition_func_call self new_x w2 = (Ok a, w3) /\
                  checkpoint_calls ev =
                    [ParamArray; AcqCall new_x; Save it (Some h) (AcqValue a)]
              else checkpoint_calls ev = [Save it None AcqOmitted]) s);
    [intros Hwp; exact Hwp|].
  pose proof recommend_no_checkpoint_call as Hrec.
  destruct s as [x y tf to mu inc incv nr ts w]. cbn [X Y world set_world].
  unfold iteration, do_optimize_at, py_mod.
  destruct (train_intervall self =? 0); wp_go; [by intros [=]|].
  unfold wp at 1. wp_simpl.
  match goal with
  | |- context [emitted (choose_next self ?x0 ?y0 ?b ?s0)] =>
      pose proof (choose_next_no_checkpoint_call x0 y0 b s0) as Hcn;
      unfold wp in Hcn;
      remember (choose_next self x0 y0 b s0) as o eqn:Ho
  end.
  destruct o as [ev1 [new_x|e] s1]; cbn [emitted value final] in *; wp_simpl;
    [|by intros [=]].
  clear Ho.
  unfold checkpoint, py_mod, checkpoint_calls. rewrite Hdir.
  rewrite (proj2 (Z.eqb_neq _ _) Hns), Hz. change (0 =? 0) with true.
  destruct (model_is_GPyModel self).
  - quiet_run; try (by intros [=]).
    all: intros _; exists new_x; (split; [reflexivity|]);
      do 5 eexists; (split; [eassumption|]); (split; [eassumption|]); quiet_close.
  - quiet_run; try (by intros [=]).
    all: intros _; exists new_x; (split; [reflexivity|]); quiet_close.
Qed.

(** C5. With a save directory and [num_save] not zero:
    - the code of lines 169-176 in iteration [it] does nothing when
      [it % num_save] is not zero; otherwise, with a [GPyModel], it
      reads the hyperparameters [h], evaluates the acquisition function
      at the new candidate to [a] and calls
      [save_iteration(it, h, a)], and with another model it calls
      [save_iteration(it, hyperparameters=None)];
    - an iteration that completes has saved exactly one such checkpoint
      when [it % num_save] is zero, and an iteration has saved none,
      however it ends, when it is not;
    - the entry of a fresh [run] that completes has saved exactly the
      checkpoint [save_iteration(0, hyperparameters=None,
      acquisition_value=0)];
    - the checkpoint of an iteration is the one of its own candidate:
      in an iteration that completes, with [it % num_save] zero, the
      calls of the model's hyperparameters, of the acquisition function
      and of [save_iteration] are, with a [GPyModel], the three calls
      [param_array], [acquisition_func(new_x)] and
      [save_iteration(it, h, a)] and no other, where [new_x] is what
      [choose_next(self.X, self.Y, do_optimize)] returned on line 128
      of this iteration, [h] what [param_array] gave and [a] what the
      acquisition function gave for [new_x]; with another model, the
      one call [save_iteration(it, hyperparameters=None)]. *)
Theorem checkpoint_schedule dir :
  save_dir self = Some dir -> num_save self <> 0 ->
  (forall it new_x s,
     (it mod num_save self <> 0 ->
      checkpoint self it new_x s = Out [] (Ok tt) s) /\
     (it mod num_save self = 0 ->
      if model_is_GPyModel self then
        forall h w1 a w2,
          model_param_array self (world s) = (Ok h, w1) ->
          acquisition_func_call self new_x w1 = (Ok a, w2) ->
          emitted (checkpoint self it new_x s) =
            [ParamArray; AcqCall new_x; Save it (Some h) (AcqValue a)]
      else
        emitted (checkpoint self it new_x s) = [Save it None AcqOmitted])) /\
  (forall it s,
     (it mod num_save self <> 0 ->
      checkpoints (emitted (iteration self it s)) = []) /\
     (it mod num_save self = 0 ->
      value (iteration self it s) = Ok tt ->
      exists e, checkpoints (emitted (iteration self it s)) = [e] /\
                checkpoint_of self it e)) /\
  (forall s,
     value (run_entry self None None s) = Ok tt ->
     checkpoints (emitted (run_entry self None None s)) = [Save 0 None AcqZero]) /\
  (forall it s,
     it mod num_save self = 0 ->
     value (iteration self it s) = Ok tt ->
     exists new_x,
       value (choose_next self (X s) (Y s) (it mod train_intervall self =? 0)
                (set_world (snd (time_time self (world s))) s)) = Ok new_x /\
       if model_is_GPyModel self then
         exists h a w1 w2 w3,
           model_param_array self w1 = (Ok h, w2) /\
           acquisition_func_call self new_x w2 = (Ok a, w3) /\
           checkpoint_calls (emitted (iteration self it s)) =
             [ParamArray; AcqCall new_x; Save it (Some h) (AcqValue a)]
       else
         checkpoint_calls (emitted (iteration self it s)) = [Save it None AcqOmitted]).
Proof.
  intros Hdir Hns. split; [|split; [|split]].
  - intros it new_x s. unfold checkpoint, py_mod. rewrite Hdir.
    destruct (Z.eqb_spec (num_save self) 0) as [|_]; [done|].
    unfold bind at 1; simpl.
    destruct (Z.eqb_spec (it mod num_save self) 0) as [Hz|Hz];
      (split; [try done|]); intros Hz'; try done.
    destruct (model_is_GPyModel self); [|done].
    intros h w1 a w2 Hh Ha. unfold bind, call; simpl.
    rewrite Hh; simpl. by rewrite Ha.
  - intros it s.
    pose proof (choose_next_no_save self) as Hcn.
    pose proof (recommend_no_save self) as Hrec.
    cut (wp (iteration self it)
           (fun ev r _ =>
              (it mod num_save self <> 0 -> checkpoints ev = []) /\
              (it mod num_save self = 0 -> r = Ok tt ->
               exists e, checkpoints ev = [e] /\ checkpoint_of self it e)) s); [done|].
    unfold iteration, do_optimize_at, py_mod, checkpoints. quiet_run.
    all: try (split; [intros _; quiet_close | by intros _ [=]]).
    eapply wp_conseq; [by apply (checkpoint_saves it _ _ dir)|].
    intros ? ? ? [Hno Hyes]. split.
    + intros Hz. rewrite (Hno Hz). quiet_close.
    + intros Hz Hr. destruct (Hyes Hz Hr) as (e & He & Hof). exists e.
      split; [|done]. unfold checkpoints in He.
      repeat rewrite List.filter_app.
      repeat match goal with
             | Hf : List.filter _ ?ev = [] |- _ => rewrite Hf
             end.
      by rewrite He.
  - intros s.
    pose proof (initialize_no_save self) as Hinit.
    cut (wp (run_entry self None None)
           (fun ev r _ => r = Ok tt -> checkpoints ev = [Save 0 None AcqZero]) s);
      [done|].
    unfold run_entry, py_mod, checkpoints. rewrite Hdir.
    destruct (Z.eqb_spec (num_save self) 0) as [|_]; [done|].
    rewrite Z.mod_0_l by done. quiet_run; try (by intros [=]).
    intros _. quiet_close.
  - intros it s Hz Hr. exact (iteration_checkpoint_candidate dir it s Hdir Hns Hz Hr).
Qed.
End Checkpoints.

(** ** Retraining *)

Section Retraining.
Context {F W E H A : Type}.
Variable self : env F W E H A.

Lemma choose_next_trainings Xa Ya b s :
  wp (choose_next self (Some Xa) (Some Ya) b)
     (fun ev _ _ => trainings ev = if b then [Train Xa Ya] else []) s.
Proof.
  unfold choose_next, trainings. destruct b; quiet_run; reflexivity.
Qed.

Lemma choose_next_skipped Xa Ya s :
  wp (choose_next self (Some Xa) (Some Ya) false)
     (fun ev r _ =>
        (exists evs,
           ev = [Log "Train model..."; Log "Time to train the model: %f"; AcqUpdate]
                ++ evs) /\
        (forall w3,
           acquisition_func_update self
             (snd (time_time self (snd (time_time self (world s))))) = (Ok tt, w3) ->
           r = fst (maximize_func_maximize self (snd (time_time self w3))) /\
           exists evs,
             ev = [Log "Train model..."; Log "Time to train the model: %f"; AcqUpdate;
                   Log "Maximize acquisition function..."; Maximize] ++ evs)) s.
Proof.
  destruct s as [x y tf to mu inc incv nr ts w]. unfold choose_next.
  repeat wp_step.
  all: split; [simpl; eauto|]; intros w3 Hw3; simplify_eq;
    match goal with
    | Hm : maximize_func_maximize _ _ = _ |- _ => rewrite Hm
    end; simpl; eauto.
Qed.

(** C6. With [train_intervall] not zero:
    - [do_optimize] is true in iteration [it] exactly when
      [it % train_intervall] is zero, which with [train_intervall = 1]
      is every iteration;
    - [choose_next], given observations, calls [model.train] once on
      them when [do_optimize] is true and not at all when it is false;
    - an iteration that starts with observations [X], [Y] calls
      [model.train(X, Y)] once when [it % train_intervall] is zero and
      never otherwise, however the iteration ends;
    - when training is skipped, [choose_next] still calls
      [acquisition_func.update(self.model)], and when that returns it
      calls [maximize_func.maximize()] and proposes what it returns. *)
Theorem retrain_schedule :
  train_intervall self <> 0 ->
  (forall it s,
     do_optimize_at self it s = Out [] (Ok (it mod train_intervall self =? 0)) s) /\
  (train_intervall self = 1 ->
   forall it, (it mod train_intervall self =? 0) = true) /\
  (forall Xa Ya b s,
     trainings (emitted (choose_next self (Some Xa) (Some Ya) b s)) =
       if b then [Train Xa Ya] else []) /\
  (forall it s Xa Ya,
     X s = Some Xa -> Y s = Some Ya ->
     trainings (emitted (iteration self it s)) =
       if it mod train_intervall self =? 0 then [Train Xa Ya] else []) /\
  (forall Xa Ya s,
     (exists evs,
        emitted (choose_next self (Some Xa) (Some Ya) false s) =
          [Log "Train model..."; Log "Time to train the model: %f"; AcqUpdate]
          ++ evs) /\
     (forall w3,
        acquisition_func_update self
          (snd (time_time self (snd (time_time self (world s))))) = (Ok tt, w3) ->
        value (choose_next self (Some Xa) (Some Ya) false s) =
          fst (maximize_func_maximize self (snd (time_time self w3))) /\
        exists evs,
          emitted (choose_next self (Some Xa) (Some Ya) false s) =
            [Log "Train model..."; Log "Time to train the model: %f"; AcqUpdate;
             Log "Maximize acquisition function..."; Maximize] ++ evs)).
Proof.
  intros Hti. split; [|split; [|split; [|split]]].
  - intros it s. unfold do_optimize_at, py_mod.
    by destruct (Z.eqb_spec (train_intervall self) 0).
  - intros -> it. by rewrite Z.mod_1_r.
  - intros Xa Ya b s. apply choose_next_trainings.
  - intros it s Xa Ya HX HY.
    pose proof (recommend_no_train self) as Hrec.
    pose proof (checkpoint_no_train self) as Hsave.
    cut (wp (iteration self it)
           (fun ev _ _ => trainings ev =
              if it mod train_intervall self =? 0 then [Train Xa Ya] else []) s);
      [done|].
    destruct s as [x y tf to mu inc incv nr ts w]. simpl in HX, HY. subst x y.
    unfold iteration, do_optimize_at, py_mod.
    destruct (Z.eqb_spec (train_intervall self) 0) as [|_]; [done|].
    wp_go. eapply wp_conseq; [apply choose_next_trainings|].
    intros ev r s' Hev. unfold trainings in *. quiet_run.
    all: repeat rewrite List.filter_app;
      repeat match goal with
             | Hf : List.filter _ ?ev = _ |- _ => rewrite Hf
             end;
      simpl; by rewrite ?app_nil_r.
  - intros Xa Ya s. apply (choose_next_skipped Xa Ya s).
Qed.
End Retraining.

(** ** The loop of [run] *)

Section RunLoop.
Context {F W E H A : Type}.
Variable self : env F W E H A.
Implicit Types (s : solver F W).

Lemma outcome_eta {T} (o : @outcome F W E H A T) :
  Out (emitted o) (value o) (final o) = o.
Proof. by destruct o. Qed.

Lemma bind_assoc {T U V} (m : @M F W E H A T) (k : T -> @M F W E H A U)
    (k' : U -> @M F W E H A V) s :
  bind (bind m k) k' s = bind m (fun v => bind (k v) k') s.
Proof.
  unfold bind. destruct (value (m s)) as [v|e]; simpl; [|done].
  destruct (value (k v (final (m s)))); simpl; by rewrite ?app_assoc.
Qed.

Lemma bind_ok {T U} (m : @M F W E H A T) (k : T -> @M F W E H A U) s v :
  value (m s) = Ok v ->
  bind m k s = Out (emitted (m s) ++ emitted (k v (final (m s))))
                   (value (k v (final (m s)))) (final (k v (final (m s)))).
Proof. intros Hv. unfold bind. by rewrite Hv. Qed.

Lemma bind_raise {T U} (m : @M F W E H A T) (k : T -> @M F W E H A U) s e :
  value (m s) = Raise e ->
  bind m k s = Out (emitted (m s)) (Raise e) (final (m s)).
Proof. intros Hv. unfold bind. by rewrite Hv. Qed.

Lemma bind_ok_raise {V} (m it rest : @M F W E H A unit) (fin : @M F W E H A V) s e :
  value (m s) = Ok tt ->
  value (it (final (m s))) = Raise e ->
  bind m (fun _ => bind (bind it (fun _ => rest)) (fun _ => fin)) s =
  Out (emitted (m s) ++ emitted (it (final (m s)))) (Raise e)
      (final (it (final (m s)))).
Proof. intros Hm Hit. unfold bind. by rewrite Hm, Hit. Qed.

Lemma for_cons {T} (body : T -> @M F W E H A unit) i l :
  for_ (i :: l) body = bind (body i) (fun _ => for_ l body).
Proof. done. Qed.

Lemma bind_ext {T U} (m : @M F W E H A T) (k k' : T -> @M F W E H A U) s :
  (forall v s', k v s' = k' v s') -> bind m k s = bind m k' s.
Proof. intros Hk. unfold bind. destruct (value (m s)); [|done]. by rewrite Hk. Qed.

Lemma for_app {T} (body : T -> @M F W E H A unit) l1 l2 : forall s,
  for_ (l1 ++ l2) body s = bind (for_ l1 body) (fun _ => for_ l2 body) s.
Proof.
  induction l1 as [|i l1 IH]; intros s.
  - unfold bind. simpl. by rewrite outcome_eta.
  - simpl. rewrite bind_assoc. apply bind_ext. intros _ s'. apply IH.
Qed.

Lemma py_range_cons lo hi : lo < hi -> py_range lo hi = lo :: py_range (lo + 1) hi.
Proof.
  intros Hlt. unfold py_range.
  replace (Z.to_nat (hi - lo)) with (S (Z.to_nat (hi - (lo + 1)))) by lia.
  simpl. f_equal; [lia|]. rewrite <- seq_shift, map_map.
  apply map_ext. intros i. lia.
Qed.

Lemma py_range_shift lo a n : forall j,
  map (fun i => lo + Z.of_nat i) (seq (a + j) n) =
  map (fun i => lo + Z.of_nat a + Z.of_nat i) (seq j n).
Proof.
  induction n as [|n IH]; intros j; [done|]. simpl. f_equal; [lia|].
  rewrite <- IH. by rewrite Nat.add_succ_r.
Qed.

Lemma py_range_split lo mid hi :
  lo <= mid <= hi -> py_range lo hi = py_range lo mid ++ py_range mid hi.
Proof.
  intros Hle. unfold py_range.
  replace (Z.to_nat (hi - lo)) with (Z.to_nat (mid - lo) + Z.to_nat (hi - mid))%nat
    by lia.
  rewrite seq_app, map_app. f_equal.
  rewrite Nat.add_comm, Nat.add_0_r, <- (Nat.add_0_r (Z.to_nat (mid - lo))).
  rewrite py_range_shift. apply map_ext. intros i. lia.
Qed.

Lemma py_range_length lo hi : length (py_range lo hi) = Z.to_nat (hi - lo).
Proof. unfold py_range. by rewrite length_map, length_seq. Qed.

(** The first [k - 1] iterations of a run of [num_iterations] are the
    run of [k]: the solver that [run_loop k] returns is the solver
    after [k - 1] completed iterations of any longer run. *)
Lemma run_loop_split num_iterations k X0 Y0 s :
  1 <= k <= num_iterations ->
  run_loop self num_iterations X0 Y0 s =
  bind (run_loop self k X0 Y0)
       (fun _ => for_ (py_range k num_iterations) (iteration self)) s.
Proof.
  intros Hk. unfold run_loop. rewrite (py_range_split 1 k num_iterations Hk).
  rewrite bind_assoc. apply bind_ext. intros _ s'. apply for_app.
Qed.

Lemma bind_assoc_run num_iterations k X0 Y0 s :
  1 <= k <= num_iterations ->
  run self num_iterations X0 Y0 s =
  bind (run_loop self k X0 Y0)
       (fun _ => bind (for_ (py_range k num_iterations) (iteration self))
                      (fun _ => run_return)) s.
Proof.
  intros Hk. unfold run. rewrite <- bind_assoc.
  unfold bind at 1 3. by rewrite (run_loop_split num_iterations k).
Qed.
End RunLoop.

(** ** A model that cannot be trained *)

Section TrainFailure.
Context {F W E H A : Type}.
Variable self : env F W E H A.
Implicit Types (s : solver F W).

Lemma choose_next_train_raises Xa Ya s e w' :
  model_train self Xa Ya (snd (time_time self (world s))) = (Raise e, w') ->
  wp (choose_next self (Some Xa) (Some Ya) true)
     (fun ev r s' =>
        ev = [Log "Train model..."; Train Xa Ya; Log "Model could not be trained"] /\
        r = Raise e /\ s' = set_world w' s) s.
Proof.
  intros Htrain. destruct s as [x y tf to mu inc incv nr ts w].
  unfold choose_next. wp_go. cbn [world] in Htrain. rewrite Htrain. wp_go. done.
Qed.

Lemma iteration_train_raises it s Xa Ya e w' :
  X s = Some Xa -> Y s = Some Ya ->
  train_intervall self <> 0 -> it mod train_intervall self = 0 ->
  model_train self Xa Ya
    (snd (time_time self (snd (time_time self (world s))))) = (Raise e, w') ->
  wp (iteration self it)
     (fun ev r s' =>
        ev = [Log "Start iteration %d ... "; Log "Train model..."; Train Xa Ya;
              Log "Model could not be trained"] /\
        r = Raise e /\ s' = set_world w' s) s.
Proof.
  intros HX HY Hti Hit Htrain.
  destruct s as [x y tf to mu inc incv nr ts w]. simpl in HX, HY. subst x y.
  unfold iteration, do_optimize_at, py_mod.
  destruct (Z.eqb_spec (train_intervall self) 0) as [|_]; [done|].
  wp_go. rewrite Hit. simpl (0 =? 0).
  eapply wp_conseq; [by apply (choose_next_train_raises _ _ _ e w')|].
  intros ev r s' (-> & -> & ->). done.
Qed.

Lemma run_train_raises num_iterations X0 Y0 s k Xa Ya e w' :
  1 <= k < num_iterations ->
  train_intervall self <> 0 -> k mod train_intervall self = 0 ->
  value (run_loop self k X0 Y0 s) = Ok tt ->
  X (final (run_loop self k X0 Y0 s)) = Some Xa ->
  Y (final (run_loop self k X0 Y0 s)) = Some Ya ->
  model_train self Xa Ya
    (snd (time_time self (snd (time_time self
       (world (final (run_loop self k X0 Y0 s))))))) = (Raise e, w') ->
  run self num_iterations X0 Y0 s =
  Out (emitted (run_loop self k X0 Y0 s) ++
       [Log "Start iteration %d ... "; Log "Train model..."; Train Xa Ya;
        Log "Model could not be trained"])
      (Raise e) (set_world w' (final (run_loop self k X0 Y0 s))).
Proof.
  intros Hk Hti Hmod Hok HX HY Htrain.
  destruct (iteration_train_raises k _ Xa Ya e w' HX HY Hti Hmod Htrain)
    as (Hev & Hval & Hfin).
  rewrite (bind_assoc_run self num_iterations k) by lia.
  rewrite (py_range_cons k num_iterations), for_cons by lia.
  rewrite (bind_ok_raise (run_loop self k X0 Y0) (iteration self k)
             (for_ (py_range (k + 1) num_iterations) (iteration self))
             run_return s e Hok Hval).
  by rewrite Hev, Hfin.
Qed.

(** C3. When [model.train] raises [e]:
    - [choose_next] logs "Train model...", calls [model.train] once,
      logs "Model could not be trained" and raises [e]; the solver
      object is left as it was;
    - if that happens in iteration [k] of [run], after the entry and
      the iterations before [k] have completed ([run_loop k]), then
      [run] raises [e], nothing more is called, and [X], [Y] and the
      timing arrays are those that the iterations before [k] left. *)
Theorem train_failure_aborts :
  (forall Xa Ya s e w',
     model_train self Xa Ya (snd (time_time self (world s))) = (Raise e, w') ->
     let o := choose_next self (Some Xa) (Some Ya) true s in
     value o = Raise e /\
     emitted o = [Log "Train model..."; Train Xa Ya;
                  Log "Model could not be trained"] /\
     final o = set_world w' s) /\
  (forall num_iterations X0 Y0 s k Xa Ya e w',
     1 <= k < num_iterations ->
     train_intervall self <> 0 -> k mod train_intervall self = 0 ->
     let before := run_loop self k X0 Y0 s in
     value before = Ok tt ->
     X (final before) = Some Xa -> Y (final before) = Some Ya ->
     model_train self Xa Ya
       (snd (time_time self (snd (time_time self (world (final before))))))
       = (Raise e, w') ->
     let o := run self num_iterations X0 Y0 s in
     value o = Raise e /\
     emitted o = emitted before ++
                 [Log "Start iteration %d ... "; Log "Train model..."; Train Xa Ya;
                  Log "Model could not be trained"] /\
     final o = set_world w' (final before) /\
     X (final o) = Some Xa /\ Y (final o) = Some Ya /\
     time_func_eval (final o) = time_func_eval (final before) /\
     time_optimization_overhead (final o) =
       time_optimization_overhead (final before)).
Proof.
  split.
  - intros Xa Ya s e w' Htrain o.
    destruct (choose_next_train_raises Xa Ya s e w' Htrain) as (? & ? & ?). done.
  - intros N X0 Y0 s k Xa Ya e w' Hk Hti Hmod before Hok HX HY Htrain o.
    unfold o. rewrite (run_train_raises N X0 Y0 s k Xa Ya e w') by done.
    fold before. cbn [emitted value final].
    unfold set_world. cbn [X Y time_func_eval time_optimization_overhead].
    done.
Qed.
End TrainFailure.

(** ** The number of observations *)

Section Sizes.
Context {F W E H A : Type}.
Variable self : env F W E H A.
Implicit Types (s : solver F W).


Lemma choose_next_frame Xa Ya b s :
  maximizer_gives_one_point self ->
  wp (choose_next self (Some Xa) (Some Ya) b)
     (fun _ r s' => same_arrays s s' /\ forall x, r = Ok x -> nrows x = 1%nat) s.
Proof.
  intros Hmax. destruct s as [x y tf to mu inc incv nr ts w].
  unfold choose_next. destruct b; repeat wp_step;
    (split; [done|]); intros x' [= <-]; eauto.
Qed.

Lemma recommend_frame s : wp (recommend self) (fun _ _ s' => same_arrays s s') s.
Proof.
  destruct s as [x y tf to mu inc incv nr ts w].
  unfold recommend, best_observed.
  destruct (recommendation_strategy self) as [[|id]|]; wp_go.
  2, 3: by repeat wp_step.
  unfold wp at 1.
  destruct (comprehension_draw_uniform self nr
              (Solver x y tf to mu inc incv nr ts w)) as ([w' ->] & _).
  destruct (value (comprehension _ _ _)); [|done].
  wp_simpl. by repeat wp_step.
Qed.

Lemma checkpoint_frame it new_x s :
  wp (checkpoint self it new_x) (fun _ _ s' => same_arrays s s') s.
Proof.
  destruct s as [x y tf to mu inc incv nr ts w].
  unfold checkpoint, py_mod. by repeat wp_step.
Qed.

Lemma iteration_sizes it s n :
  maximizer_gives_one_point self -> task_gives_one_row_per_point self ->
  sizes s = Some (n, n, n, n) ->
  wp (iteration self it)
     (fun _ r s' => r = Ok tt -> sizes s' = Some (S n, S n, S n, S n)) s.
Proof.
  intros Hmax Heval Hs.
  destruct s as [[Xa|] [Ya|] [fe|] [oh|] mu inc incv nr ts w]; try discriminate.
  unfold sizes in Hs; simpl in Hs.
  injection Hs as HXa HYa Hfe Hoh.
  unfold iteration, do_optimize_at, py_mod.
  destruct (train_intervall self =? 0); wp_go; [by intros [=]|].
  eapply wp_conseq; [by apply choose_next_frame|].
  intros _ [new_x|e] [x y tf to mu1 inc1 incv1 nr1 ts1 w1]
    [(Hx & Hy & Htf & Hto) Hone]; simpl in Hx, Hy, Htf, Hto; subst;
    [|by intros [=]].
  specialize (Hone new_x eq_refl). wp_go.
  eapply wp_conseq; [apply recommend_frame|].
  intros _ [[]|e] [x y tf to mu2 inc2 incv2 nr2 ts2 w2]
    (Hx & Hy & Htf & Hto); simpl in Hx, Hy, Htf, Hto; subst;
    [|by intros [=]].
  wp_go. destruct (task_evaluate self new_x _) as [[new_y|e] w3] eqn:Hy;
    wp_simpl; [|by intros [=]].
  apply Heval in Hy. wp_go.
  destruct (getitem2 new_y 0 0); wp_simpl; [|by intros [=]]. wp_go.
  destruct (np_append0 Xa new_x) as [Xa'|] eqn:HXa'; wp_simpl; [|by intros [=]].
  wp_go.
  destruct (np_append0 Ya new_y) as [Ya'|] eqn:HYa'; wp_simpl; [|by intros [=]].
  wp_go. eapply wp_conseq; [apply checkpoint_frame|].
  intros _ r [x y tf to mu3 inc3 incv3 nr3 ts3 w4]
    (Hx & Hy' & Htf & Hto) _; simpl in Hx, Hy', Htf, Hto; subst.
  unfold sizes; simpl.
  apply (np_append0_nrows (E:=E)) in HXa', HYa'.
  rewrite HXa', HYa', !np_append1_length. do 2 f_equal; [do 2 f_equal|]; lia.
Qed.
End Sizes.

Section RunSizes.
Context {F W E H A : Type}.
Variable self : env F W E H A.
Implicit Types (s : solver F W).

Lemma run_entry_sizes s :
  wp (run_entry self None None)
     (fun _ r s' => r = Ok tt -> sizes s' = Some (3, 3, 3, 3)%nat) s.
Proof.
  unfold run_entry, py_mod. wp_go.
  apply wp_conseq with (Q' := fun _ _ s' => observations 3 (task_n_dims self) s');
    [apply initialize_observations|].
  intros _ [[]|e] [x y tf to mu inc incv nr ts w]
    ((Xa & HX & HXs & _) & (Ya & HY & HYs & _) & (fe & Hfe & Hfel) & (oh & Hoh & Hohl));
    simpl in HX, HY, Hfe, Hoh; subst; [|by intros [=]].
  injection HXs as HXs _. injection HYs as HYs _.
  repeat wp_step; try (by intros [=]); intros _;
    unfold sizes; simpl; by rewrite HXs, HYs, Hfel, Hohl.
Qed.

Lemma for_iteration_sizes l :
  maximizer_gives_one_point self -> task_gives_one_row_per_point self ->
  forall s n,
    sizes s = Some (n, n, n, n) ->
    wp (for_ l (iteration self))
       (fun _ r s' =>
          r = Ok tt ->
          sizes s' = Some (n + length l, n + length l, n + length l, n + length l)%nat) s.
Proof.
  intros Hmax Heval. induction l as [|it l IH]; intros s n Hs.
  - apply wp_for_nil. intros _. simpl. by rewrite Nat.add_0_r.
  - apply wp_for_cons, wp_bind.
    eapply wp_conseq; [by apply iteration_sizes|].
    intros _ [[]|e] s' Hs'; [|by intros [=]].
    eapply wp_conseq; [by apply (IH s' (S n)), Hs'|].
    intros ev' r s'' Hs'' Hr. simpl length. rewrite <- !Nat.add_succ_comm. auto.
Qed.

Lemma run_loop_sizes num_iterations s :
  maximizer_gives_one_point self -> task_gives_one_row_per_point self ->
  wp (run_loop self num_iterations None None)
     (fun _ r s' =>
        r = Ok tt ->
        let n := (3 + Z.to_nat (num_iterations - 1))%nat in
        sizes s' = Some (n, n, n, n)) s.
Proof.
  intros Hmax Heval. unfold run_loop. apply wp_bind.
  eapply wp_conseq; [apply run_entry_sizes|].
  intros _ [[]|e] s' Hs'; [|by intros [=]].
  eapply wp_conseq; [by apply (for_iteration_sizes _ Hmax Heval s' 3%nat), Hs'|].
  intros ev' r s'' Hs'' Hr. rewrite py_range_length in Hs''. auto.
Qed.
End RunSizes.

Section RunCount.
Context {F W E H A : Type}.
Variable self : env F W E H A.
Implicit Types (s : solver F W).

Lemma run_return_final s : final (run_return (E:=E) (H:=H) (A:=A) s) = s.
Proof.
  destruct s as [x y tf to mu inc [[|v [|v' incv]]|] nr ts w]; reflexivity.
Qed.

Lemma run_ok_inv num_iterations X0 Y0 s r :
  value (run self num_iterations X0 Y0 s) = Ok r ->
  value (run_loop self num_iterations X0 Y0 s) = Ok tt /\
  final (run self num_iterations X0 Y0 s) = final (run_loop self num_iterations X0 Y0 s).
Proof.
  unfold run, bind.
  destruct (value (run_loop self num_iterations X0 Y0 s)) as [[]|e]; [|done].
  cbn [value final]. intros _. by rewrite run_return_final.
Qed.

(** C1, as amended. With a maximizer that gives one point at a time and
    a task that gives one value for each point it is given:
    - a [run(num_iterations)] without [X] and [Y] that returns, with
      [num_iterations >= 1], leaves [3 + (num_iterations - 1)] rows in
      [X] and in [Y] and as many entries in both timing arrays;
    - the same holds of the solver after the initialization and
      [k - 1] completed iterations, for every [k] from 1 to
      [num_iterations]: this solver is the one that [run_loop k]
      leaves, the rest of the run starts from it, and its four arrays
      have [3 + (k - 1)] entries each. *)
Theorem run_observation_count num_iterations s :
  maximizer_gives_one_point self -> task_gives_one_row_per_point self ->
  1 <= num_iterations ->
  (forall r,
     value (run self num_iterations None None s) = Ok r ->
     let n := (3 + Z.to_nat (num_iterations - 1))%nat in
     sizes (final (run self num_iterations None None s)) = Some (n, n, n, n)) /\
  (forall k,
     1 <= k <= num_iterations ->
     run_loop self num_iterations None None s =
       bind (run_loop self k None None)
            (fun _ => for_ (py_range k num_iterations) (iteration self)) s /\
     (value (run_loop self k None None s) = Ok tt ->
      let n := (3 + Z.to_nat (k - 1))%nat in
      sizes (final (run_loop self k None None s)) = Some (n, n, n, n))).
Proof.
  intros Hmax Heval HN. split.
  - intros r Hr. apply run_ok_inv in Hr as [Hok ->].
    by apply (run_loop_sizes self num_iterations s Hmax Heval).
  - intros k Hk. split; [by apply run_loop_split|].
    by apply (run_loop_sizes self k s Hmax Heval).
Qed.
End RunCount.

(** C1, as stated, fails: when the task raises in the first iteration,
    [run] is left with a fourth entry in [time_optimization_overhead]
    (line 151) and three rows in [X] and [Y] (lines 166-167 were not
    reached). *)
Lemma run_sizes_differ_when_evaluate_raises :
  value (run Demo.picky_task 2 None None (__init__ 0%nat)) = Raise (Foreign tt) /\
  sizes (final (run Demo.picky_task 2 None None (__init__ 0%nat)))
    = Some (3, 3, 3, 4)%nat.
Proof. vm_compute. done. Qed.

(** ** The flag [model_untrained] *)

(** C9, where the code departs from it. With [train_intervall = 2],
    iteration 1 of [run(num_iterations=2)] skips [model.train] (1 % 2 is
    not 0), and line 212 of [choose_next] clears [model_untrained] all the
    same: the run returns with the flag [False] and the model was never
    trained. *)
Theorem model_untrained_cleared_without_training :
  model_untrained (__init__ (F:=Z) 0%nat) = true /\
  is_ok (value (run Demo.every_second 2 None None (__init__ 0%nat))) = true /\
  trainings (emitted (run Demo.every_second 2 None None (__init__ 0%nat))) = [] /\
  model_untrained (final (run Demo.every_second 2 None None (__init__ 0%nat))) = false.
Proof. vm_compute. done. Qed.

(** With the default [train_intervall = 1] the flag is cleared by the
    first iteration, which trains the model. *)
Lemma model_untrained_cleared_by_training :
  trainings (emitted (run Demo.plain 2 None None (__init__ 0%nat))) =
    [Train (Arr2 1 [[2]; [7]; [12]]) (Arr2 1 [[2]; [7]; [12]])] /\
  model_untrained (final (run Demo.plain 2 None None (__init__ 0%nat))) = false.
Proof. vm_compute. done. Qed.

(** ** The properties on the concrete task *)

Lemma Z_ltb_strict_weak_order : strict_weak_order Z.ltb.
Proof.
  split; [apply Z.ltb_irrefl|]. split.
  - intros a b c Hab Hbc. apply Z.ltb_lt in Hab, Hbc. apply Z.ltb_lt. lia.
  - intros a b c Hab. apply Z.ltb_lt in Hab.
    destruct (Z.ltb_spec a c); [by left|]. right. apply Z.ltb_lt. lia.
Qed.

Lemma demo_maximizer_gives_one_point dims fr picky gpy dir strat ns nt :
  maximizer_gives_one_point (Demo.demo_env dims fr picky gpy dir strat ns nt).
Proof. intros w x w' [= <- _]. done. Qed.

Lemma demo_task_gives_one_row_per_point dims fr gpy dir strat ns nt :
  task_gives_one_row_per_point (Demo.demo_env dims fr false gpy dir strat ns nt).
Proof. intros x w y w' [= <- _]. unfold nrows. simpl. apply length_map. Qed.


Lemma run_observation_count_witness :
  1 <= 3 /\
  sizes (final (run Demo.plain 3 None None (__init__ 0%nat))) = Some (5, 5, 5, 5)%nat.
Proof.
  split; [lia|].
  eapply (proj1 (run_observation_count Demo.plain 3 (__init__ 0%nat)
                   (demo_maximizer_gives_one_point _ _ _ _ _ _ _ _)
                   (demo_task_gives_one_row_per_point _ _ _ _ _ _ _)
                   ltac:(lia))).
  vm_compute. reflexivity.
Defined.

Lemma recommend_default_witness :
  exists i xb m,
    value (recommend Demo.plain three_observations) = Ok tt /\
    incumbent (final (recommend Demo.plain three_observations)) = Some xb /\
    incumbent_value (final (recommend Demo.plain three_observations)) = Some [m] /\
    rows (Arr2 1 [[9]; [4]; [6]]) !! i = Some xb /\
    rows (Arr2 1 [[7]; [2]; [2]]) !! i = Some [m] /\
    first_minimum Z.ltb (concat (rows (Arr2 1 [[7]; [2]; [2]]))) i m.
Proof.
  apply (recommend_default Demo.plain three_observations
           (Arr2 1 [[9]; [4]; [6]]) (Arr2 1 [[7]; [2]; [2]]));
    try reflexivity.
  - apply Z_ltb_strict_weak_order.
  - repeat constructor.
  - vm_compute. discriminate.
Defined.

Lemma train_failure_aborts_witness :
  1 <= 2 < 3 /\
  value (run Demo.untrainable 3 None None (__init__ 0%nat)) = Raise (Foreign tt).
Proof.
  split; [lia|].
  eapply proj1.
  eapply (proj2 (train_failure_aborts Demo.untrainable)) with (k := 2).
  - lia.
  - discriminate.
  - reflexivity.
  - vm_compute. reflexivity.
  - vm_compute. reflexivity.
  - vm_compute. reflexivity.
  - vm_compute. reflexivity.
Defined.


Lemma checkpoint_schedule_witness :
  checkpoint Demo.checkpointed 3 (Arr2 2 [[1; 1]]) three_observations =
    Out [] (Ok tt) three_observations /\
  emitted (checkpoint Demo.checkpointed 4 (Arr2 2 [[1; 1]]) three_observations) =
    [ParamArray; AcqCall (Arr2 2 [[1; 1]]); Save 4 (Some 0%nat) (AcqValue 1)] /\
  checkpoints (emitted (run_entry Demo.checkpointed None None (__init__ 0%nat))) =
    [Save 0 None AcqZero] /\
  (exists new_x,
     value (choose_next Demo.checkpointed
              (X (final (run_entry Demo.checkpointed None None (__init__ 0%nat))))
              (Y (final (run_entry Demo.checkpointed None None (__init__ 0%nat))))
              (2 mod train_intervall Demo.checkpointed =? 0)
              (set_world
                 (snd (time_time Demo.checkpointed
                         (world (final (run_entry Demo.checkpointed None None
                                          (__init__ 0%nat))))))
                 (final (run_entry Demo.checkpointed None None (__init__ 0%nat)))))
       = Ok new_x /\
     exists h a w1 w2 w3,
       model_param_array Demo.checkpointed w1 = (Ok h, w2) /\
       acquisition_func_call Demo.checkpointed new_x w2 = (Ok a, w3) /\
       checkpoint_calls
         (emitted (iteration Demo.checkpointed 2
                     (final (run_entry Demo.checkpointed None None (__init__ 0%nat))))) =
         [ParamArray; AcqCall new_x; Save 2 (Some h) (AcqValue a)]).
Proof.
  pose proof (checkpoint_schedule Demo.checkpointed "run" eq_refl ltac:(discriminate))
    as (Hstep & _ & Hentry & Hloop).
  split; [|split; [|split]].
  - apply (proj1 (Hstep 3 (Arr2 2 [[1; 1]]) three_observations)). discriminate.
  - apply (proj2 (Hstep 4 (Arr2 2 [[1; 1]]) three_observations) eq_refl
             0%nat 0%nat 1 0%nat eq_refl eq_refl).
  - apply Hentry. vm_compute. reflexivity.
  - apply (Hloop 2 (final (run_entry Demo.checkpointed None None (__init__ 0%nat)))
             eq_refl).
    vm_compute. reflexivity.
Defined.

Lemma retrain_schedule_witness :
  do_optimize_at Demo.every_second 3 three_observations =
    Out [] (Ok false) three_observations /\
  trainings (emitted (iteration Demo.every_second 4 three_observations)) =
    [Train (Arr2 1 [[9]; [4]; [6]]) (Arr2 1 [[7]; [2]; [2]])] /\
  trainings (emitted (iteration Demo.every_second 3 three_observations)) = [].
Proof.
  pose proof (retrain_schedule Demo.every_second ltac:(discriminate))
    as (Hdo & _ & _ & Hit & _).
  split; [|split].
  - apply (Hdo 3 three_observations).
  - apply (Hit 4 three_observations _ _ eq_refl eq_refl).
  - apply (Hit 3 three_observations _ _ eq_refl eq_refl).
Defined.

Lemma run_prior_no_iteration_witness :
  1 <= 1 /\
  value (run Demo.plain 1 (Some (Arr2 1 [[9]; [4]; [6]])) (Some (Arr2 1 [[7]; [2]; [2]]))
           (__init__ 0%nat)) = Raise AttributeError.
Proof.
  split; [lia|].
  apply (run_prior_no_iteration Demo.plain 1 (Arr2 1 [[9]; [4]; [6]])
           (Arr2 1 [[7]; [2]; [2]]) 0%nat).
  lia.
Defined.


(** * More properties of the loop *)

(** ** Missing and degenerate arguments *)

Section Degenerate.
Context {F W E H A : Type}.
Variable self : env F W E H A.
Implicit Types (s : solver F W).

(** X1. [run] given [Y] but not [X] takes the branch for prior
    observations, stores [None] and [Y], and fails with an
    [AttributeError] where line 116 reads [self.X.shape]: no collaborator
    is called and the timing arrays are not touched. *)
Theorem run_without_X num_iterations Ya s :
  value (run self num_iterations None (Some Ya) s) = Raise AttributeError /\
  emitted (run self num_iterations None (Some Ya) s) = [] /\
  X (final (run self num_iterations None (Some Ya) s)) = None /\
  Y (final (run self num_iterations None (Some Ya) s)) = Some Ya /\
  time_func_eval (final (run self num_iterations None (Some Ya) s)) = time_func_eval s /\
  time_optimization_overhead (final (run self num_iterations None (Some Ya) s)) =
    time_optimization_overhead s.
Proof. by destruct s. Qed.

Lemma bind_not_ok {T U} (m : @M F W E H A T) (k : T -> @M F W E H A U) s :
  is_ok (value (m s)) = false -> is_ok (value (bind m k s)) = false.
Proof. unfold bind. by destruct (value (m s)). Qed.

Lemma iteration_zero_interval it s :
  train_intervall self = 0 ->
  wp (iteration self it)
     (fun ev r _ => ev = [Log "Start iteration %d ... "] /\ r = Raise ZeroDivisionError) s.
Proof.
  intros Hti. unfold iteration, do_optimize_at, py_mod. rewrite Hti.
  simpl (0 =? 0). wp_go. done.
Qed.
End Degenerate.

Section Degenerate2.
Context {F W E H A : Type}.
Variable self : env F W E H A.
Implicit Types (s : solver F W).

(** X2. The constructor accepts [train_intervall=0], and then no
    [run] of two or more iterations returns: when the entry of [run]
    completes, iteration 1 fails with a [ZeroDivisionError] at
    [it % self.train_intervall], after its first log line and before any
    collaborator is called. *)
Theorem run_zero_train_intervall num_iterations X0 Y0 s :
  train_intervall self = 0 -> 2 <= num_iterations ->
  is_ok (value (run self num_iterations X0 Y0 s)) = false /\
  (value (run_entry self X0 Y0 s) = Ok tt ->
   value (run self num_iterations X0 Y0 s) = Raise ZeroDivisionError /\
   emitted (run self num_iterations X0 Y0 s) =
     emitted (run_entry self X0 Y0 s) ++ [Log "Start iteration %d ... "]).
Proof.
  intros Hti HN.
  assert (Hrun : value (run_entry self X0 Y0 s) = Ok tt ->
                 value (run self num_iterations X0 Y0 s) = Raise ZeroDivisionError /\
                 emitted (run self num_iterations X0 Y0 s) =
                   emitted (run_entry self X0 Y0 s) ++ [Log "Start iteration %d ... "]).
  { intros Hentry.
    destruct (iteration_zero_interval self 1 (final (run_entry self X0 Y0 s)) Hti)
      as [Hev Hval].
    unfold run, run_loop. rewrite (py_range_cons 1 num_iterations), for_cons by lia.
    rewrite bind_assoc.
    rewrite (bind_ok_raise (run_entry self X0 Y0) (iteration self 1)
               (for_ (py_range (1 + 1) num_iterations) (iteration self))
               run_return s ZeroDivisionError Hentry Hval).
    cbn [value emitted]. by rewrite Hev. }
  split; [|done].
  destruct (value (run_entry self X0 Y0 s)) as [[]|e] eqn:Hentry.
  - destruct Hrun as [-> _]; done.
  - unfold run, run_loop. apply bind_not_ok, bind_not_ok. by rewrite Hentry.
Qed.
End Degenerate2.

Section Degenerate3.
Context {F W E H A : Type}.
Variable self : env F W E H A.
Implicit Types (s : solver F W).

Lemma wp_outcome {T} (m : @M F W E H A T) (Q : _ -> _ -> _ -> Prop) s :
  Q (emitted (m s)) (value (m s)) (final (m s)) -> wp m Q s.
Proof. done. Qed.

Lemma observations_first_rows n d s :
  observations (S n) d s ->
  exists Xa Ya x0 y0,
    X s = Some Xa /\ Y s = Some Ya /\
    rows Xa !! 0%nat = Some x0 /\ rows Ya !! 0%nat = Some y0.
Proof.
  intros ((Xa & HX & HXs & _) & (Ya & HY & HYs & _) & _).
  injection HXs as HXs _. injection HYs as HYs _. unfold nrows in *.
  destruct (rows Xa) as [|x0 ?] eqn:?; [done|].
  destruct (rows Ya) as [|y0 ?] eqn:?; [done|].
  exists Xa, Ya, x0, y0. by rewrite Heql, Heql0.
Qed.

Lemma bind_raise2 {T U V} (m : @M F W E H A T) (k : T -> @M F W E H A U)
    (k' : U -> @M F W E H A V) s e :
  value (m s) = Raise e ->
  bind (bind m k) k' s = Out (emitted (m s)) (Raise e) (final (m s)).
Proof. intros Hm. unfold bind. by rewrite Hm. Qed.

Lemma bind_raise2_proj {T U V} (m : @M F W E H A T) (k : T -> @M F W E H A U)
    (k' : U -> @M F W E H A V) s e :
  value (m s) = Raise e ->
  value (bind (bind m k) k' s) = Raise e /\
  emitted (bind (bind m k) k' s) = emitted (m s) /\
  final (bind (bind m k) k' s) = final (m s).
Proof. intros Hm. unfold bind. by rewrite Hm. Qed.

(** When the entry of [run] raises, [run] raises the same and does
    nothing more. *)
Lemma run_raises_in_entry num_iterations X0 Y0 s e :
  value (run_entry self X0 Y0 s) = Raise e ->
  value (run self num_iterations X0 Y0 s) = Raise e /\
  emitted (run self num_iterations X0 Y0 s) = emitted (run_entry self X0 Y0 s) /\
  final (run self num_iterations X0 Y0 s) = final (run_entry self X0 Y0 s).
Proof. intros Hval. unfold run, run_loop. apply bind_raise2_proj, Hval. Qed.

Lemma run_entry_zero_num_save dir s :
  save_dir self = Some dir -> num_save self = 0 ->
  wp (run_entry self None None)
     (fun ev r _ =>
        is_ok r = false /\ checkpoints ev = [] /\
        (value (initialize self 3
                  (set_time_start (Some (fst (time_time self (world s))))
                     (set_world (snd (time_time self (world s))) s))) = Ok tt ->
         r = Raise ZeroDivisionError)) s.
Proof.
  intros Hdir Hns. unfold run_entry, py_mod. rewrite Hdir, Hns.
  change (0 =? 0) with true. wp_go. apply wp_outcome.
  match goal with
  | |- context [initialize self 3 ?st] =>
      pose proof (initialize_observations self 3 st) as Hobs;
      pose proof (initialize_no_save self 3 st) as Hq;
      unfold wp in Hq; unfold checkpoints;
      destruct (value (initialize self 3 st)) as [[]|e];
      [|cbn [app]; rewrite Hq; split; [reflexivity|split; [reflexivity|discriminate]]];
      destruct (observations_first_rows _ _ _ Hobs)
        as (Xa & Ya & x0 & y0 & HX & HY & Hx0 & Hy0);
      clear Hobs; revert Hq HX HY;
      generalize (emitted (initialize self 3 st));
      generalize (final (initialize self 3 st))
  end.
  intros [x y tf to mu inc incv nr ts w] ev Hq HX HY.
  cbn [X Y] in HX, HY. subst x y.
  wp_go. unfold getrow. rewrite Hx0. wp_go.
  rewrite Hy0. wp_go. cbn [app].
  rewrite !List.filter_app, Hq. split; [reflexivity|]. split; reflexivity.
Qed.

(** X3. The constructor accepts [num_save=0] with a save directory, and
    then no fresh [run] returns: it stops in its entry, without a
    checkpoint; when the three initial points were evaluated, with the
    [ZeroDivisionError] of [(0) % self.num_save] on line 111. *)
Theorem run_zero_num_save dir num_iterations s :
  save_dir self = Some dir -> num_save self = 0 ->
  is_ok (value (run self num_iterations None None s)) = false /\
  emitted (run self num_iterations None None s) =
    emitted (run_entry self None None s) /\
  checkpoints (emitted (run self num_iterations None None s)) = [] /\
  (value (initialize self 3
            (set_time_start (Some (fst (time_time self (world s))))
               (set_world (snd (time_time self (world s))) s))) = Ok tt ->
   value (run self num_iterations None None s) = Raise ZeroDivisionError).
Proof.
  intros Hdir Hns.
  pose proof (run_entry_zero_num_save dir s Hdir Hns) as Hentry.
  unfold wp in Hentry. destruct Hentry as (Hnok & Hcp & Hzero).
  assert (exists e, value (run_entry self None None s) = Raise e) as [e Hval].
  { destruct (value (run_entry self None None s)); [discriminate Hnok|eauto]. }
  destruct (run_raises_in_entry num_iterations None None s e Hval) as (Hv & Hev & _).
  rewrite Hv, Hev. split; [reflexivity|]. split; [reflexivity|].
  split; [exact Hcp|].
  intros Hinit. specialize (Hzero Hinit). rewrite Hval in Hzero.
  by injection Hzero as ->.
Qed.
End Degenerate3.

Section FreshNoIteration.
Context {F W E H A : Type}.
Variable self : env F W E H A.
Implicit Types (s : solver F W).

Lemma maximizations_app (evs evs' : list (event F H A)) :
  maximizations (evs ++ evs') = maximizations evs ++ maximizations evs'.
Proof. apply List.filter_app. Qed.

Lemma evaluations_app (evs evs' : list (event F H A)) :
  evaluations (evs ++ evs') = evaluations evs ++ evaluations evs'.
Proof. apply List.filter_app. Qed.

Lemma initialize_no_maximize n : quiet is_maximize (initialize self n).
Proof.
  assert (Hpt : forall i, quiet is_maximize (initialize_point self i)).
  { intros i s. unfold initialize_point, draw_uniform. quiet_solve. }
  pose proof (quiet_for is_maximize _ (seq 0 n) Hpt) as Hloop.
  intros s. unfold initialize. quiet_solve.
Qed.

Lemma run_entry_fresh s :
  wp (run_entry self None None)
     (fun ev r s' =>
        trainings ev = [] /\ maximizations ev = [] /\
        (r = Ok tt ->
         exists Xa Ya x0 y0,
           X s' = Some Xa /\ Y s' = Some Ya /\
           rows Xa !! 0%nat = Some x0 /\ rows Ya !! 0%nat = Some y0 /\
           incumbent s' = Some x0 /\ incumbent_value s' = Some y0 /\
           sizes s' = Some (3, 3, 3, 3)%nat)) s.
Proof.
  unfold run_entry, py_mod, trainings, maximizations. wp_go.
  apply wp_conseq with
    (Q' := fun ev _ s' => observations 3 (task_n_dims self) s' /\
                          List.filter is_train ev = [] /\
                          List.filter is_maximize ev = []).
  { split; [apply initialize_observations|].
    split; [apply initialize_no_train|apply initialize_no_maximize]. }
  intros ev r s' (Hobs & Htr & Hmx).
  destruct (observations_first_rows _ _ _ Hobs) as (Xa & Ya & x0 & y0 & HX & HY & Hx0 & Hy0).
  assert (Hsz : sizes s' = Some (3, 3, 3, 3)%nat).
  { destruct Hobs as ((Xa' & HX' & HXs & _) & (Ya' & HY' & HYs & _) &
                      (fe & Hfe & Hfel) & (oh & Hoh & Hohl)).
    injection HXs as HXs _. injection HYs as HYs _.
    unfold sizes. by rewrite HX', HY', Hfe, Hoh, HXs, HYs, Hfel, Hohl. }
  clear Hobs. destruct s' as [x y tf to mu inc incv nr ts w].
  cbn [X Y] in HX, HY. subst x y.
  destruct r as [[]|e]; wp_simpl;
    [|cbn [app]; rewrite Htr, Hmx; split; [done|split; [done|discriminate]]].
  wp_go. unfold getrow. rewrite Hx0. wp_go. rewrite Hy0. wp_go.
  repeat wp_step; cbn [app]; rewrite ?List.filter_app, Htr, Hmx;
    (split; [reflexivity|split; [reflexivity|]]); try discriminate;
    intros _; exists Xa, Ya, x0, y0; done.
Qed.

Lemma run_return_ok s inc v :
  value (run_return (E:=E) (H:=H) (A:=A) s) = Ok (inc, v) ->
  inc = incumbent s /\ incumbent_value s = Some v /\
  emitted (run_return (E:=E) (H:=H) (A:=A) s) =
    [Log "Return %s as incumbent with predicted performance %f"].
Proof.
  destruct s as [x y tf to mu inc' [[|v0 [|v1 incv]]|] nr ts w]; try discriminate.
  by intros [= <- <-].
Qed.

Lemma bind_ok_proj {T U} (m : @M F W E H A T) (k : T -> @M F W E H A U) s v :
  value (m s) = Ok v ->
  value (bind m k s) = value (k v (final (m s))) /\
  emitted (bind m k s) = emitted (m s) ++ emitted (k v (final (m s))) /\
  final (bind m k s) = final (k v (final (m s))).
Proof. intros Hm. unfold bind. by rewrite Hm. Qed.

Lemma bind_raise_proj {T U} (m : @M F W E H A T) (k : T -> @M F W E H A U) s e :
  value (m s) = Raise e ->
  value (bind m k s) = Raise e /\
  emitted (bind m k s) = emitted (m s) /\
  final (bind m k s) = final (m s).
Proof. intros Hm. unfold bind. by rewrite Hm. Qed.

(** A [run] whose loop completes ends with the last log line and the
    [return] of lines 190-192. *)
Lemma run_after_loop num_iterations X0 Y0 s :
  value (run_loop self num_iterations X0 Y0 s) = Ok tt ->
  value (run self num_iterations X0 Y0 s) =
    value (run_return (E:=E) (H:=H) (A:=A) (final (run_loop self num_iterations X0 Y0 s))) /\
  emitted (run self num_iterations X0 Y0 s) =
    emitted (run_loop self num_iterations X0 Y0 s) ++
    emitted (run_return (E:=E) (H:=H) (A:=A)
               (final (run_loop self num_iterations X0 Y0 s))) /\
  final (run self num_iterations X0 Y0 s) =
    final (run_loop self num_iterations X0 Y0 s).
Proof.
  intros Hloop. unfold run.
  destruct (bind_ok_proj (run_loop self num_iterations X0 Y0) (fun _ => run_return)
              s tt Hloop) as (-> & -> & ->).
  by rewrite run_return_final.
Qed.

(** With [num_iterations <= 1] the loop of [run] is empty. *)
Lemma run_loop_no_iteration num_iterations X0 Y0 s :
  num_iterations <= 1 ->
  value (run_loop self num_iterations X0 Y0 s) = value (run_entry self X0 Y0 s) /\
  emitted (run_loop self num_iterations X0 Y0 s) = emitted (run_entry self X0 Y0 s) /\
  final (run_loop self num_iterations X0 Y0 s) = final (run_entry self X0 Y0 s).
Proof.
  intros HN. unfold run_loop. rewrite (py_range_empty 1) by done.
  destruct (value (run_entry self X0 Y0 s)) as [[]|e] eqn:Hentry.
  - destruct (bind_ok_proj (run_entry self X0 Y0) (fun _ => for_ [] (iteration self))
                s tt Hentry) as (-> & -> & ->).
    cbn [for_]. unfold ret. cbn [value emitted final]. by rewrite app_nil_r.
  - by destruct (bind_raise_proj (run_entry self X0 Y0)
                   (fun _ => for_ [] (iteration self)) s e Hentry) as (-> & -> & ->).
Qed.

Lemma run_no_iteration_ok num_iterations X0 Y0 s inc v :
  num_iterations <= 1 ->
  value (run self num_iterations X0 Y0 s) = Ok (inc, v) ->
  value (run_entry self X0 Y0 s) = Ok tt /\
  final (run self num_iterations X0 Y0 s) = final (run_entry self X0 Y0 s) /\
  emitted (run self num_iterations X0 Y0 s) =
    emitted (run_entry self X0 Y0 s) ++
    [Log "Return %s as incumbent with predicted performance %f"] /\
  inc = incumbent (final (run_entry self X0 Y0 s)) /\
  incumbent_value (final (run_entry self X0 Y0 s)) = Some v.
Proof.
  intros HN Hr.
  destruct (run_ok_inv self _ _ _ _ _ Hr) as [Hloop _].
  destruct (run_after_loop num_iterations X0 Y0 s Hloop) as (Hv & Hev & Hfin).
  rewrite Hv in Hr. rewrite Hev, Hfin. clear Hv Hev Hfin.
  destruct (run_loop_no_iteration num_iterations X0 Y0 s HN) as (Hv & Hev & Hfin).
  rewrite Hv in Hloop. rewrite Hev, Hfin. rewrite Hfin in Hr. clear Hv Hev Hfin.
  destruct (run_return_ok _ _ _ Hr) as (-> & Hv & Hlog).
  rewrite Hlog. split; [exact Hloop|]. split; [reflexivity|].
  split; [reflexivity|]. split; [reflexivity|exact Hv].
Qed.

(** X4. A fresh [run] with [num_iterations <= 1] that returns gives back
    the first of the three initial points and its value (lines
    108-109), whatever the values of the other two are; the model is not
    trained and the maximizer is not called. *)
Theorem run_fresh_no_iteration num_iterations s inc v :
  num_iterations <= 1 ->
  value (run self num_iterations None None s) = Ok (inc, v) ->
  exists Xa Ya,
    X (final (run self num_iterations None None s)) = Some Xa /\
    Y (final (run self num_iterations None None s)) = Some Ya /\
    inc = rows Xa !! 0%nat /\ rows Ya !! 0%nat = Some v /\
    sizes (final (run self num_iterations None None s)) = Some (3, 3, 3, 3)%nat /\
    trainings (emitted (run self num_iterations None None s)) = [] /\
    maximizations (emitted (run self num_iterations None None s)) = [].
Proof.
  intros HN Hr.
  destruct (run_no_iteration_ok _ _ _ _ _ _ HN Hr) as (Hentry & Hfin & Hev & Hi & Hincv).
  rewrite Hfin, Hev, Hi. clear Hfin Hev Hi.
  pose proof (run_entry_fresh s) as Hfresh. unfold wp in Hfresh.
  destruct Hfresh as (Htr & Hmx & Hok).
  destruct (Hok Hentry) as (Xa & Ya & x0 & y0 & HX & HY & Hx0 & Hy0 & Hinc & Hincv' & Hsz).
  rewrite Hincv' in Hincv. injection Hincv as <-.
  exists Xa, Ya. rewrite trainings_app, maximizations_app, Htr, Hmx.
  split; [exact HX|]. split; [exact HY|]. split; [by rewrite Hinc|].
  split; [exact Hy0|]. split; [exact Hsz|]. split; reflexivity.
Qed.
End FreshNoIteration.

(** ** What the methods leave alone *)

Section Settings.
Context {F W E H A : Type}.
Variable self : env F W E H A.
Implicit Types (s : solver F W).

Lemma initialize_point_same_settings s0 i s :
  same_settings s0 s ->
  wp (initialize_point self i) (fun _ _ s' => same_settings s0 s') s.
Proof.
  intros Hs. destruct s as [x y tf to mu inc incv nr ts w].
  unfold initialize_point, draw_uniform. repeat wp_step; exact Hs.
Qed.

Lemma initialize_same_settings n s : same_settings s (final (initialize self n s)).
Proof.
  unfold initialize.
  change (wp (run_ modify (set_time_func_eval (Some (np_zeros1 (fzero self) n)));
              run_ modify (set_time_optimization_overhead
                             (Some (np_zeros1 (fzero self) n)));
              run_ modify (set_X (Some (np_zeros2 (fzero self) n (task_n_dims self))));
              run_ modify (set_Y (Some (np_zeros2 (fzero self) n 1)));
              for_ (seq 0 n) (initialize_point self))
            (fun _ _ s' => same_settings s s') s).
  do 8 wp_step.
  apply (for_invariant (same_settings s)).
  - intros i s1 Hs1. by apply initialize_point_same_settings.
  - by destruct s.
Qed.

(** X5. [choose_next] called without [X] or without [Y] ignores its
    arguments: it runs [initialize()] and returns the whole of the new
    [self.X], three points, instead of one candidate.  The model is not
    trained, the maximizer is not called and [model_untrained] is not
    touched; whatever observations the solver held are replaced. *)
Theorem choose_next_without_observations X0 Y0 do_optimize s :
  X0 = None \/ Y0 = None ->
  choose_next self X0 Y0 do_optimize s = choose_next self None None true s /\
  observations 3 (task_n_dims self) (final (choose_next self X0 Y0 do_optimize s)) /\
  same_settings s (final (choose_next self X0 Y0 do_optimize s)) /\
  trainings (emitted (choose_next self X0 Y0 do_optimize s)) = [] /\
  maximizations (emitted (choose_next self X0 Y0 do_optimize s)) = [] /\
  (forall x,
     value (choose_next self X0 Y0 do_optimize s) = Ok x ->
     X (final (choose_next self X0 Y0 do_optimize s)) = Some x /\
     shape x = (3%nat, task_n_dims self)).
Proof.
  intros Hnone.
  assert (Heq : choose_next self X0 Y0 do_optimize s = choose_next self None None true s).
  { destruct Hnone as [-> | ->]; [|destruct X0]; unfold choose_next; reflexivity. }
  split; [exact Heq|]. rewrite Heq. clear Heq Hnone.
  cut (wp (choose_next self None None true)
         (fun ev r s' =>
            observations 3 (task_n_dims self) s' /\ same_settings s s' /\
            trainings ev = [] /\ maximizations ev = [] /\
            (forall x, r = Ok x -> X s' = Some x /\ shape x = (3%nat, task_n_dims self))) s);
    [intros Hwp; exact Hwp|].
  unfold choose_next. apply wp_bind.
  apply wp_conseq with
    (Q' := fun ev _ s' => observations 3 (task_n_dims self) s' /\ same_settings s s' /\
                          trainings ev = [] /\ maximizations ev = []).
  { split; [apply initialize_observations|]. split; [apply initialize_same_settings|].
    split; [apply initialize_no_train|apply initialize_no_maximize]. }
  intros ev r s' (Hobs & Hset & Htr & Hmx).
  destruct r as [[]|e]; wp_simpl;
    [|split; [exact Hobs|split; [exact Hset|split; [exact Htr|split; [exact Hmx|]]]];
      intros x; discriminate].
  pose proof Hobs as ((Xa & HX & HXs & _) & _).
  apply wp_the. rewrite HX. rewrite app_nil_r.
  split; [exact Hobs|]. split; [exact Hset|]. split; [exact Htr|].
  split; [exact Hmx|]. intros x [= <-]. split; [reflexivity|exact HXs].
Qed.
End Settings.

Section Config.
Context {F W E H A : Type}.
Variable self : env F W E H A.
Implicit Types (s : solver F W).

Lemma keeps_config_same_settings nr mu s s' :
  keeps_config nr mu s -> same_settings s s' -> keeps_config nr mu s'.
Proof.
  intros [Hnr Hmu] (Hm & _ & _ & Hn & _). split; [congruence|].
  intros Hf. rewrite Hm. auto.
Qed.

Lemma wp_for_invariant {T} (P : solver F W -> Prop) (body : T -> @M F W E H A unit) l s :
  (forall i s, P s -> wp (body i) (fun _ _ s' => P s') s) ->
  P s -> wp (for_ l body) (fun _ _ s' => P s') s.
Proof. intros Hbody Hs. by apply (for_invariant P). Qed.

Lemma initialize_keeps_config nr mu n s :
  keeps_config nr mu s ->
  wp (initialize self n) (fun _ _ s' => keeps_config nr mu s') s.
Proof.
  intros Hs. apply (keeps_config_same_settings nr mu s); [exact Hs|].
  apply initialize_same_settings.
Qed.

Lemma choose_next_keeps_config nr mu X0 Y0 b s :
  keeps_config nr mu s ->
  wp (choose_next self X0 Y0 b) (fun _ _ s' => keeps_config nr mu s') s.
Proof.
  intros Hs. unfold choose_next.
  assert (Hfallback : wp (run_ initialize self 3; the X)
                         (fun _ _ s' => keeps_config nr mu s') s).
  { apply wp_bind. eapply wp_conseq; [by apply initialize_keeps_config|].
    intros ev [[]|e] s' Hs'; wp_simpl; [|exact Hs'].
    apply wp_the. by destruct (X s'). }
  destruct X0 as [Xa|]; [|exact Hfallback].
  destruct Y0 as [Ya|]; [|exact Hfallback]. clear Hfallback.
  destruct Hs as [Hnr Hmu]. destruct s as [x y tf to m inc incv n ts w].
  cbn [n_restarts model_untrained] in Hnr, Hmu.
  destruct b; repeat wp_step; split; try exact Hnr; try exact Hmu; reflexivity.
Qed.

Lemma recommend_keeps_config nr mu s :
  keeps_config nr mu s ->
  wp (recommend self) (fun _ _ s' => keeps_config nr mu s') s.
Proof.
  intros Hs. destruct s as [x y tf to m inc incv n ts w].
  unfold recommend, best_observed.
  destruct (recommendation_strategy self) as [[|id]|]; wp_go.
  2, 3: by repeat wp_step.
  apply wp_outcome.
  destruct (comprehension_draw_uniform self n
              (Solver x y tf to m inc incv n ts w)) as ([w' ->] & _).
  destruct (value (comprehension _ _ _)); [|exact Hs].
  wp_simpl. by repeat wp_step.
Qed.

Lemma checkpoint_keeps_config nr mu it new_x s :
  keeps_config nr mu s ->
  wp (checkpoint self it new_x) (fun _ _ s' => keeps_config nr mu s') s.
Proof.
  intros Hs. destruct s as [x y tf to m inc incv n ts w].
  unfold checkpoint, py_mod. by repeat wp_step.
Qed.

Lemma iteration_keeps_config nr mu it s :
  keeps_config nr mu s ->
  wp (iteration self it) (fun _ _ s' => keeps_config nr mu s') s.
Proof.
  intros Hs. unfold iteration, do_optimize_at, py_mod.
  destruct (train_intervall self =? 0); wp_go;
    [unfold keeps_config in *; exact Hs|].
  eapply wp_conseq;
    [apply (choose_next_keeps_config nr mu); unfold keeps_config in *; exact Hs|].
  intros ev1 [new_x|e] s1 Hs1; wp_simpl; [|exact Hs1]. wp_go.
  eapply wp_conseq;
    [apply (recommend_keeps_config nr mu); unfold keeps_config in *; exact Hs1|].
  intros ev2 [[]|e] s2 Hs2; wp_simpl; [|exact Hs2].
  repeat first
    [ wp_rule; wp_simpl
    | lazymatch goal with
      | |- wp (checkpoint _ _ _) _ _ =>
          eapply wp_conseq;
          [apply (checkpoint_keeps_config nr mu); unfold keeps_config in *; exact Hs2|];
          intros ? ? ? Hs3; exact Hs3
      end
    | wp_case; wp_simpl ];
    unfold keeps_config in *; exact Hs2.
Qed.

Lemma run_entry_keeps_config nr mu X0 Y0 s :
  keeps_config nr mu s ->
  wp (run_entry self X0 Y0) (fun _ _ s' => keeps_config nr mu s') s.
Proof.
  intros Hs. unfold run_entry, X_shape_0, py_mod.
  destruct X0 as [Xa|], Y0 as [Ya|].
  1-3: repeat wp_step; unfold keeps_config in *; exact Hs.
  wp_go.
  eapply wp_conseq;
    [apply (initialize_keeps_config nr mu); unfold keeps_config in *; exact Hs|].
  intros ev1 [[]|e] s1 Hs1; wp_simpl; [|exact Hs1].
  repeat wp_step; unfold keeps_config in *; exact Hs1.
Qed.

(** X6. [run] never changes [n_restarts] and never sets
    [model_untrained] back to [True], however it ends; on a solver that
    was just constructed every iteration therefore works with the 10
    restarts of line 50. *)
Theorem run_keeps_config num_iterations X0 Y0 s :
  n_restarts (final (run self num_iterations X0 Y0 s)) = n_restarts s /\
  (model_untrained s = false ->
   model_untrained (final (run self num_iterations X0 Y0 s)) = false) /\
  (forall w, s = __init__ w ->
   n_restarts (final (run self num_iterations X0 Y0 s)) = 10%nat).
Proof.
  assert (Hrun : wp (run self num_iterations X0 Y0)
                    (fun _ _ s' => keeps_config (n_restarts s) (model_untrained s) s') s).
  { unfold run, run_loop. apply wp_bind, wp_bind.
    eapply wp_conseq; [by apply run_entry_keeps_config|].
    intros ev1 [[]|e] s1 Hs1; wp_simpl; [|exact Hs1].
    eapply wp_conseq;
      [apply (wp_for_invariant
                (keeps_config (n_restarts s) (model_untrained s)));
       [intros i s2 Hs2; by apply iteration_keeps_config|exact Hs1]|].
    intros ev2 [[]|e] s2 Hs2; wp_simpl; [|exact Hs2].
    apply wp_outcome. by rewrite run_return_final. }
  destruct Hrun as [Hnr Hmu]. split; [exact Hnr|]. split; [exact Hmu|].
  intros w ->. exact Hnr.
Qed.
End Config.

(** ** Observations are only added *)

Section AppendOnly.
Context {F W E H A : Type}.
Variable self : env F W E H A.
Implicit Types (s : solver F W).

Lemma extends_arr_refl (a : arr2 F) : extends_arr a a.
Proof. by split. Qed.

Lemma extends_arr_append (a b c d : arr2 F) :
  extends_arr a b -> np_append0 (E:=E) b c = Ok d -> extends_arr a d.
Proof.
  intros [Hc Hp]. unfold np_append0.
  destruct (ncols b =? ncols c)%nat; [|discriminate]. intros [= <-].
  split; [exact Hc|]. simpl. by apply prefix_app_r.
Qed.

Lemma prefix_append1 (zeros t : list F) (x : F) :
  zeros `prefix_of` t -> zeros `prefix_of` np_append1 t x.
Proof. intros Hp. by apply prefix_app_r. Qed.

Lemma choose_next_same_arrays Xa Ya b s :
  wp (choose_next self (Some Xa) (Some Ya) b) (fun _ _ s' => same_arrays s s') s.
Proof.
  destruct s as [x y tf to mu inc incv nr ts w].
  unfold choose_next. destruct b; by repeat wp_step.
Qed.

Lemma iteration_keeps_observations Xa Ya zeros it s :
  keeps_observations Xa Ya zeros s ->
  wp (iteration self it) (fun _ _ s' => keeps_observations Xa Ya zeros s') s.
Proof.
  intros ((X1 & HX & HX1) & (Y1 & HY & HY1) & (fe & Hfe & Hfe1) & (oh & Hoh & Hoh1)).
  destruct s as [x y tf to mu inc incv nr ts w].
  cbn [X Y time_func_eval time_optimization_overhead] in HX, HY, Hfe, Hoh. subst.
  assert (Hclose : forall x2 y2 fe2 oh2 mu' inc' incv' nr' ts' (w' : W),
    extends_arr Xa x2 -> extends_arr Ya y2 ->
    zeros `prefix_of` fe2 -> zeros `prefix_of` oh2 ->
    keeps_observations Xa Ya zeros
      (Solver (Some x2) (Some y2) (Some fe2) (Some oh2) mu' inc' incv' nr' ts' w')).
  { intros. unfold keeps_observations.
    cbn [X Y time_func_eval time_optimization_overhead]. repeat split; eexists; (split; [reflexivity|assumption]). }
  unfold iteration, do_optimize_at, py_mod.
  destruct (train_intervall self =? 0); wp_go; [by apply Hclose; auto|].
  eapply wp_conseq; [apply choose_next_same_arrays|].
  intros _ [new_x|e] [x y tf to mu1 inc1 incv1 nr1 ts1 w1] (Hx & Hy & Htf & Hto);
    cbn [X Y time_func_eval time_optimization_overhead] in Hx, Hy, Htf, Hto; subst;
    wp_simpl; [|by apply Hclose; auto].
  wp_go. eapply wp_conseq; [apply recommend_frame|].
  intros _ [[]|e] [x y tf to mu2 inc2 incv2 nr2 ts2 w2] (Hx & Hy & Htf & Hto);
    cbn [X Y time_func_eval time_optimization_overhead] in Hx, Hy, Htf, Hto; subst;
    wp_simpl; [|by apply Hclose; auto].
  repeat first
    [ wp_rule; wp_simpl
    | lazymatch goal with
      | |- wp (checkpoint _ _ _) _ _ =>
          eapply wp_conseq; [apply checkpoint_frame|];
          intros _ ? [x y tf to mu3 inc3 incv3 nr3 ts3 w3] (Hx & Hy & Htf & Hto);
          cbn [X Y time_func_eval time_optimization_overhead] in Hx, Hy, Htf, Hto;
          subst
      end
    | wp_case; wp_simpl ];
    apply Hclose; eauto using extends_arr_append, prefix_append1.
Qed.
End AppendOnly.

Section AppendOnlyRun.
Context {F W E H A : Type}.
Variable self : env F W E H A.
Implicit Types (s : solver F W).

Lemma run_entry_keeps_observations Xa Ya s :
  wp (run_entry self (Some Xa) (Some Ya))
     (fun _ r s' => r = Ok tt /\
        keeps_observations Xa Ya (np_zeros1 (fzero self) (nrows Xa)) s') s.
Proof.
  destruct s as [x y tf to mu inc incv nr ts w].
  unfold run_entry. repeat wp_step. split; [reflexivity|].
  unfold keeps_observations. cbn [X Y time_func_eval time_optimization_overhead].
  repeat split; eexists; (split; [reflexivity|]);
    first [apply extends_arr_refl | reflexivity].
Qed.

(** X7. Observations handed to [run] are never dropped or overwritten:
    however the run ends (returning, or raising in any iteration), [X] and
    [Y] still start with the rows of the given arrays and have their numbers
    of columns, and both timing arrays still start with the zeros allocated
    at the entry. *)
Theorem run_keeps_prior_observations num_iterations Xa Ya s :
  keeps_observations Xa Ya (np_zeros1 (fzero self) (nrows Xa))
    (final (run self num_iterations (Some Xa) (Some Ya) s)).
Proof.
  cut (wp (run self num_iterations (Some Xa) (Some Ya))
          (fun _ _ s' => keeps_observations Xa Ya (np_zeros1 (fzero self) (nrows Xa)) s') s);
    [intros Hwp; exact Hwp|].
  unfold run, run_loop. apply wp_bind, wp_bind.
  eapply wp_conseq; [apply run_entry_keeps_observations|].
  intros ev1 r1 s1 [-> Hs1]; wp_simpl.
  eapply wp_conseq;
    [apply (wp_for_invariant (keeps_observations Xa Ya (np_zeros1 (fzero self) (nrows Xa))));
       [intros i s2 Hs2; by apply iteration_keeps_observations|exact Hs1]|].
  intros ev2 [[]|e] s2 Hs2; wp_simpl; [|exact Hs2].
  apply wp_outcome. by rewrite run_return_final.
Qed.
End AppendOnlyRun.

(** ** The incumbent lags one observation behind *)

Section IncumbentLag.
Context {F W E H A : Type}.
Variable self : env F W E H A.
Implicit Types (s : solver F W).

Hypothesis Hnone : recommendation_strategy self = None.
Hypothesis Hord : strict_weak_order (fltb self).
Hypothesis Hmax : maximizer_gives_one_point self.
Hypothesis Heval : task_gives_one_row_per_point self.
Hypothesis Hwf : task_gives_arrays self.

Lemma recommend_best_observed s Xa Ya :
  X s = Some Xa -> Y s = Some Ya ->
  wf_arr2 Ya -> ncols Ya = 1%nat ->
  nrows Xa = nrows Ya -> nrows Ya <> 0%nat ->
  wp (recommend self)
     (fun _ r s' =>
        r = Ok tt /\ same_arrays s s' /\
        exists i xb m,
          rows Xa !! i = Some xb /\
          first_minimum (fltb self) (concat (rows Ya)) i m /\
          incumbent s' = Some xb /\ incumbent_value s' = Some [m]) s.
Proof.
  intros HX HY HwfY Hcol Hrows Hne.
  pose proof (one_column_rows Ya HwfY Hcol) as Hflat.
  destruct (np_argmin_first_minimum (E:=E) (fltb self) Hord Ya) as (i & m & Harg & Hmin).
  { intros Hnil. apply Hne. unfold nrows. by rewrite Hflat, Hnil. }
  assert (HYi : rows Ya !! i = Some [m]).
  { rewrite Hflat, list_lookup_fmap. destruct Hmin as (-> & _). done. }
  destruct (lookup_lt_is_Some_2 (rows Xa) i) as [xb HXi].
  { apply lookup_lt_Some in HYi. unfold nrows in Hrows. lia. }
  unfold recommend. rewrite Hnone.
  destruct s as [x y tf to mu inc incv nr ts w]. simpl in HX, HY. subst x y.
  wp_go. rewrite Harg. wp_go. unfold getrow. rewrite HXi. wp_go.
  rewrite HYi. wp_go. split; [done|]. split; [done|]. by exists i, xb, m.
Qed.

Lemma checkpoint_world it new_x s :
  wp (checkpoint self it new_x) (fun _ _ s' => exists w', s' = set_world w' s) s.
Proof.
  destruct s as [x y tf to mu inc incv nr ts w].
  unfold checkpoint, py_mod. repeat wp_step; by eexists.
Qed.

Lemma one_row (a : arr2 F) : nrows a = 1%nat -> exists r, rows a = [r].
Proof.
  unfold nrows. destruct (rows a) as [|r [|r' l]]; try discriminate. by exists r.
Qed.

Lemma iteration_lags it s :
  paired s ->
  wp (iteration self it)
     (fun _ r s' =>
        r = Ok tt ->
        paired s' /\
        exists v, incumbent_value s' = Some v /\ best_but_last self (incumbent s') v s') s.
Proof.
  intros (Xa & Ya & HX & HY & HwfY & Hcol & Hrows & Hne).
  destruct s as [x y tf to mu inc incv nr ts w]. cbn [X Y] in HX, HY. subst x y.
  unfold iteration, do_optimize_at, py_mod.
  destruct (train_intervall self =? 0); wp_go; [by intros [=]|].
  eapply wp_conseq; [by apply choose_next_frame|].
  intros _ [new_x|e] [x y tf1 to1 mu1 inc1 incv1 nr1 ts1 w1]
    [(Hx & Hy & Htf & Hto) Hone]; simpl in Hx, Hy, Htf, Hto; subst;
    [|by intros [=]].
  specialize (Hone new_x eq_refl). wp_go.
  eapply wp_conseq; [by apply (recommend_best_observed _ Xa Ya)|].
  intros _ r [x y tf2 to2 mu2 inc2 incv2 nr2 ts2 w2]
    (-> & (Hx & Hy & Htf & Hto) & i & xb & m & HXi & Hmin & Hinc & Hincv);
    simpl in Hx, Hy, Htf, Hto, Hinc, Hincv; subst.
  wp_go. destruct to as [oh|]; wp_simpl; [|by intros [=]]. wp_go.
  destruct (task_evaluate self new_x _) as [[new_y|e] w3] eqn:Hy;
    wp_simpl; [|by intros [=]].
  pose proof (Hwf _ _ _ _ Hy) as Hwfy. apply Heval in Hy. wp_go.
  destruct tf as [fe|]; wp_simpl; [|by intros [=]]. wp_go.
  destruct (getitem2 new_y 0 0); wp_simpl; [|by intros [=]]. wp_go.
  unfold np_append0.
  destruct (ncols Xa =? ncols new_x)%nat; wp_simpl; [|by intros [=]]. wp_go.
  destruct (ncols Ya =? ncols new_y)%nat eqn:Hcy; wp_simpl; [|by intros [=]].
  apply Nat.eqb_eq in Hcy. wp_go.
  eapply wp_conseq; [apply checkpoint_world|].
  intros _ r s' [w4 ->] _. wp_simpl.
  destruct (one_row new_x Hone) as [rx Hrx].
  destruct (one_row new_y) as [ry Hry]; [congruence|].
  rewrite Hrx, Hry. split.
  - exists (Arr2 (ncols Xa) (rows Xa ++ [rx])), (Arr2 (ncols Ya) (rows Ya ++ [ry])).
    split; [done|]. split; [done|]. unfold wf_arr2, nrows in *. cbn [rows ncols].
    split; [|split; [done|split; [rewrite !length_app; simpl; lia|rewrite length_app; simpl; lia]]].
    apply Forall_app. split; [done|]. rewrite Hry in Hwfy. by rewrite Hcy.
  - exists [m]. split; [done|]. by exists Xa, Ya, rx, ry, i, xb, m.
Qed.

Lemma for_iteration_lags l : forall s,
  (paired s /\
   exists v, incumbent_value s = Some v /\ best_but_last self (incumbent s) v s) ->
  wp (for_ l (iteration self))
     (fun _ r s' =>
        r = Ok tt ->
        paired s' /\
        exists v, incumbent_value s' = Some v /\ best_but_last self (incumbent s') v s') s.
Proof.
  induction l as [|it l IH]; intros s Hs.
  - apply wp_for_nil. by intros _.
  - apply wp_for_cons, wp_bind.
    eapply wp_conseq; [apply iteration_lags; by destruct Hs|].
    intros ev [[]|e] s' Hs'; [|by intros [=]].
    apply IH, Hs'. reflexivity.
Qed.

Lemma run_entry_paired s :
  wp (run_entry self None None) (fun _ r s' => r = Ok tt -> paired s') s.
Proof.
  unfold run_entry, py_mod. wp_go.
  apply wp_conseq with (Q' := fun _ _ s' => observations 3 (task_n_dims self) s');
    [apply initialize_observations|].
  intros ev [[]|e] [x y tf to mu inc incv nr ts w]
    ((Xa & HX & HXs & _) & (Ya & HY & HYs & HYwf) & _);
    simpl in HX, HY; subst; [|by intros [=]].
  injection HXs as HXs _. injection HYs as HYs HYc.
  assert (Hp : forall mu' inc' incv' nr' ts' (w' : W),
            paired (Solver (Some Xa) (Some Ya) tf to mu' inc' incv' nr' ts' w')).
  { intros. exists Xa, Ya. cbn [X Y]. rewrite HXs, HYs. by repeat split. }
  repeat wp_step; try (by intros [=]); intros _; apply Hp.
Qed.

Lemma run_loop_lags num_iterations s :
  2 <= num_iterations ->
  wp (run_loop self num_iterations None None)
     (fun _ r s' =>
        r = Ok tt ->
        paired s' /\
        exists v, incumbent_value s' = Some v /\ best_but_last self (incumbent s') v s') s.
Proof.
  intros HN. unfold run_loop. rewrite py_range_cons by lia. apply wp_bind.
  eapply wp_conseq; [apply run_entry_paired|].
  intros ev1 [[]|e] s1 Hs1; [|by intros [=]].
  apply wp_for_cons, wp_bind.
  eapply wp_conseq; [apply iteration_lags, Hs1; reflexivity|].
  intros ev2 [[]|e] s2 Hs2; [|by intros [=]].
  apply for_iteration_lags, Hs2. reflexivity.
Qed.

(** X8. Without a recommendation strategy, the incumbent that a fresh [run]
    of at least one iteration returns is the best of all observations except
    the one made in the last iteration: the incumbent is recomputed before
    the new point is evaluated and appended, so the last row of [X] and [Y]
    is never looked at. *)
Theorem run_incumbent_ignores_last_observation num_iterations s inc v :
  2 <= num_iterations ->
  value (run self num_iterations None None s) = Ok (inc, v) ->
  best_but_last self inc v (final (run self num_iterations None None s)).
Proof.
  intros HN Hr.
  destruct (run_ok_inv self num_iterations None None s _ Hr) as [Hloop Hfin].
  destruct (run_after_loop self num_iterations None None s Hloop) as (Hval & _).
  rewrite Hr in Hval. symmetry in Hval.
  apply run_return_ok in Hval as (Hinc & Hincv & _).
  rewrite Hfin.
  destruct (run_loop_lags num_iterations s HN Hloop) as (_ & v' & Hv' & Hbest).
  rewrite Hincv in Hv'. injection Hv' as <-. rewrite Hinc. exact Hbest.
Qed.
End IncumbentLag.

(** ** The number of evaluations *)

Section Budget.
Context {F W E H A : Type}.
Variable self : env F W E H A.
Implicit Types (s : solver F W).

Lemma wp_and {T} (m : @M F W E H A T) (Q1 Q2 : _ -> _ -> _ -> Prop) s :
  wp m Q1 s -> wp m Q2 s -> wp m (fun ev r s' => Q1 ev r s' /\ Q2 ev r s') s.
Proof. intros H1 H2. by split. Qed.

(** A loop whose body makes [k] calls of a kind each time makes
    [length l * k] of them when it completes. *)
Lemma for_count {T} (P : solver F W -> Prop) (p : event F H A -> bool)
    (body : T -> @M F W E H A unit) k l :
  (forall i s, P s ->
     wp (body i) (fun ev r s' => r = Ok tt -> P s' /\ length (List.filter p ev) = k) s) ->
  forall s, P s ->
    wp (for_ l body)
       (fun ev r s' => r = Ok tt -> P s' /\ length (List.filter p ev) = (length l * k)%nat) s.
Proof.
  intros Hbody. induction l as [|i l IH]; intros s Hs.
  - apply wp_for_nil. by intros _.
  - apply wp_for_cons, wp_bind.
    eapply wp_conseq; [by apply Hbody|].
    intros ev [[]|e] s' Hs'; [|by intros [=]].
    destruct (Hs' eq_refl) as [HP Hk].
    eapply wp_conseq; [by apply IH|].
    intros ev' r s'' Hs'' Hr. destruct (Hs'' Hr) as [HP' Hk'].
    split; [exact HP'|].
    rewrite List.filter_app, length_app, Hk, Hk'. simpl. lia.
Qed.

Lemma recommend_no_evaluate : quiet is_evaluate (recommend self).
Proof.
  assert (Hdraw : quiet is_evaluate (draw_uniform self)).
  { intros s. unfold draw_uniform. quiet_solve. }
  assert (Hc : forall n, quiet is_evaluate (comprehension n (draw_uniform self))).
  { intros n. by apply quiet_comprehension. }
  intros s. unfold recommend, best_observed.
  destruct (recommendation_strategy self) as [[|id]|]; quiet_solve.
Qed.

Lemma recommend_no_maximize : quiet is_maximize (recommend self).
Proof.
  assert (Hdraw : quiet is_maximize (draw_uniform self)).
  { intros s. unfold draw_uniform. quiet_solve. }
  assert (Hc : forall n, quiet is_maximize (comprehension n (draw_uniform self))).
  { intros n. by apply quiet_comprehension. }
  intros s. unfold recommend, best_observed.
  destruct (recommendation_strategy self) as [[|id]|]; quiet_solve.
Qed.

Lemma checkpoint_no_evaluate it new_x : quiet is_evaluate (checkpoint self it new_x).
Proof.
  intros s. unfold checkpoint, py_mod.
  destruct (save_dir self); [|quiet_solve].
  destruct (num_save self =? 0); [quiet_solve|].
  wp_go. destruct (it mod num_save self =? 0); [|quiet_solve].
  destruct (model_is_GPyModel self); quiet_solve.
Qed.

Lemma checkpoint_no_maximize it new_x : quiet is_maximize (checkpoint self it new_x).
Proof.
  intros s. unfold checkpoint, py_mod.
  destruct (save_dir self); [|quiet_solve].
  destruct (num_save self =? 0); [quiet_solve|].
  wp_go. destruct (it mod num_save self =? 0); [|quiet_solve].
  destruct (model_is_GPyModel self); quiet_solve.
Qed.

Lemma initialize_point_evaluates_once i s :
  wp (initialize_point self i)
     (fun ev r _ => r = Ok tt -> True /\ length (List.filter is_evaluate ev) = 1%nat) s.
Proof.
  destruct s as [x y tf to mu inc incv nr ts w].
  unfold initialize_point, draw_uniform.
  repeat wp_step; first [by intros [=] | by intros _].
Qed.

Lemma initialize_evaluations n s :
  wp (initialize self n)
     (fun ev r _ => r = Ok tt -> length (evaluations ev) = n) s.
Proof.
  unfold initialize. do 8 wp_step.
  eapply wp_conseq.
  { apply (for_count (fun _ => True) is_evaluate (initialize_point self) 1 (seq 0 n));
      [intros i s' _; apply initialize_point_evaluates_once|exact I]. }
  intros ev r s' Hev Hr. destruct (Hev Hr) as [_ Hlen].
  unfold evaluations. simpl. rewrite Hlen, length_seq. lia.
Qed.

Lemma choose_next_calls Xa Ya b s :
  wp (choose_next self (Some Xa) (Some Ya) b)
     (fun ev r _ =>
        forall x, r = Ok x -> evaluations ev = [] /\ maximizations ev = [Maximize]) s.
Proof.
  destruct s as [x y tf to mu inc incv nr ts w].
  unfold choose_next. destruct b; repeat wp_step; intros x' [=]; by split.
Qed.

Ltac calls_close :=
  rewrite ?evaluations_app, ?maximizations_app;
  repeat match goal with
         | Hf : evaluations ?ev = _ |- _ => rewrite Hf
         | Hf : maximizations ?ev = _ |- _ => rewrite Hf
         | Hf : List.filter _ ?ev = [] |- _ => rewrite Hf
         end;
  reflexivity.

Lemma iteration_calls it s :
  is_Some (X s) /\ is_Some (Y s) ->
  wp (iteration self it)
     (fun ev r s' =>
        r = Ok tt ->
        (is_Some (X s') /\ is_Some (Y s')) /\
        length (evaluations ev) = 1%nat /\ length (maximizations ev) = 1%nat) s.
Proof.
  intros [[Xa HX] [Ya HY]].
  destruct s as [x y tf to mu inc incv nr ts w]. cbn [X Y] in HX, HY. subst x y.
  pose proof (recommend_no_evaluate) as Hre. pose proof (recommend_no_maximize) as Hrm.
  pose proof (checkpoint_no_evaluate) as Hce. pose proof (checkpoint_no_maximize) as Hcm.
  unfold iteration, do_optimize_at, py_mod.
  destruct (train_intervall self =? 0); wp_go; [by intros [=]|].
  eapply wp_conseq; [apply wp_and; [apply choose_next_same_arrays|apply choose_next_calls]|].
  intros ev1 [new_x|e] [x y tf1 to1 mu1 inc1 incv1 nr1 ts1 w1]
    [(Hx & Hy & Htf & Hto) Hcalls]; simpl in Hx, Hy, Htf, Hto; subst;
    [|by intros [=]].
  destruct (Hcalls new_x eq_refl) as [Hev1 Hmx1]. clear Hcalls. wp_go.
  eapply wp_conseq;
    [apply wp_and; [apply recommend_frame|apply wp_and; [apply Hre|apply Hrm]]|].
  intros ev2 [[]|e] [x y tf2 to2 mu2 inc2 incv2 nr2 ts2 w2]
    [(Hx & Hy & Htf & Hto) [Hev2 Hmx2]]; simpl in Hx, Hy, Htf, Hto; subst;
    [|by intros [=]].
  fold (evaluations ev2) in Hev2. fold (maximizations ev2) in Hmx2.
  repeat first
    [ wp_rule; wp_simpl
    | lazymatch goal with
      | |- wp (checkpoint _ _ _) _ _ =>
          eapply wp_conseq;
            [apply wp_and; [apply checkpoint_frame|apply wp_and; [apply Hce|apply Hcm]]|];
          intros ev3 r3 [x y tf3 to3 mu3 inc3 incv3 nr3 ts3 w3]
            [(Hx & Hy & Htf & Hto) [Hev3 Hmx3]];
          cbn [X Y time_func_eval time_optimization_overhead] in Hx, Hy, Htf, Hto; subst;
          fold (evaluations ev3) in Hev3; fold (maximizations ev3) in Hmx3
      end
    | wp_case; wp_simpl ];
    try (by intros [=]).
  all: intros _; split; [split; by eexists|]; split; calls_close.
Qed.

Lemma run_entry_calls X0 Y0 s :
  both_or_neither X0 Y0 ->
  wp (run_entry self X0 Y0)
     (fun ev r s' =>
        r = Ok tt ->
        (is_Some (X s') /\ is_Some (Y s')) /\
        length (evaluations ev) = initial_evaluations X0 /\ maximizations ev = []) s.
Proof.
  intros Hboth. destruct X0 as [Xa|], Y0 as [Ya|]; try contradiction.
  - destruct s as [x y tf to mu inc incv nr ts w].
    unfold run_entry. repeat wp_step. intros _. split; [split; by eexists|done].
  - unfold run_entry, py_mod. wp_go.
    apply wp_conseq with
      (Q' := fun ev r s' =>
               observations 3 (task_n_dims self) s' /\
               (r = Ok tt -> length (evaluations ev) = 3%nat) /\
               List.filter is_maximize ev = []).
    { split; [apply initialize_observations|].
      split; [apply initialize_evaluations|apply initialize_no_maximize]. }
    intros ev [[]|e] [x y tf to mu inc incv nr ts w]
      [((Xa & HX & _) & (Ya & HY & _) & _) [Hev Hmx]];
      simpl in HX, HY; subst; [|by intros [=]].
    specialize (Hev eq_refl). fold (maximizations ev) in Hmx.
    repeat wp_step; try (by intros [=]); intros _;
      (split; [split; by eexists|]);
      rewrite ?evaluations_app, ?maximizations_app, ?length_app, Hev, Hmx; done.
Qed.

Lemma run_loop_calls num_iterations X0 Y0 s :
  both_or_neither X0 Y0 ->
  wp (run_loop self num_iterations X0 Y0)
     (fun ev r s' =>
        r = Ok tt ->
        length (evaluations ev) = (initial_evaluations X0 + Z.to_nat (num_iterations - 1))%nat /\
        length (maximizations ev) = Z.to_nat (num_iterations - 1)) s.
Proof.
  intros Hboth. unfold run_loop. apply wp_bind.
  eapply wp_conseq; [by apply run_entry_calls|].
  intros ev1 [[]|e] s1 Hs1; [|by intros [=]].
  destruct (Hs1 eq_refl) as (Hobs & Hev1 & Hmx1).
  eapply wp_conseq.
  { apply wp_and.
    - apply (for_count (fun s => is_Some (X s) /\ is_Some (Y s)) is_evaluate
               (iteration self) 1 (py_range 1 num_iterations)); [|exact Hobs].
      intros i s' Hs'. eapply wp_conseq; [by apply iteration_calls|].
      intros ev r s'' Hit Hr. destruct (Hit Hr) as (? & ? & ?). by split.
    - apply (for_count (fun s => is_Some (X s) /\ is_Some (Y s)) is_maximize
               (iteration self) 1 (py_range 1 num_iterations)); [|exact Hobs].
      intros i s' Hs'. eapply wp_conseq; [by apply iteration_calls|].
      intros ev r s'' Hit Hr. destruct (Hit Hr) as (? & ? & ?). by split. }
  intros ev2 r s2 [Hev2 Hmx2] Hr.
  destruct (Hev2 Hr) as [_ Hev]. destruct (Hmx2 Hr) as [_ Hmx].
  fold (evaluations ev2) in Hev. fold (maximizations ev2) in Hmx.
  rewrite evaluations_app, maximizations_app, !length_app, Hev1, Hmx1, Hev, Hmx.
  rewrite py_range_length. simpl. split; lia.
Qed.

(** X9. A [run] that returns has called [task.evaluate] once in each of its
    [num_iterations - 1] iterations, and three times more for the initial
    points when it was started without [X] and [Y]; it has called
    [maximize_func.maximize] once in each iteration and never before. *)
Theorem run_calls num_iterations X0 Y0 s r :
  both_or_neither X0 Y0 ->
  value (run self num_iterations X0 Y0 s) = Ok r ->
  length (evaluations (emitted (run self num_iterations X0 Y0 s))) =
    (initial_evaluations X0 + Z.to_nat (num_iterations - 1))%nat /\
  length (maximizations (emitted (run self num_iterations X0 Y0 s))) =
    Z.to_nat (num_iterations - 1).
Proof.
  intros Hboth Hr. destruct r as [inc v].
  destruct (run_ok_inv self num_iterations X0 Y0 s _ Hr) as [Hloop _].
  destruct (run_after_loop self num_iterations X0 Y0 s Hloop) as (Hval & Hem & _).
  rewrite Hr in Hval. symmetry in Hval.
  apply run_return_ok in Hval as (_ & _ & Hlog).
  rewrite Hem, Hlog, evaluations_app, maximizations_app, !length_app.
  destruct (run_loop_calls num_iterations X0 Y0 s Hboth Hloop) as [Hev Hmx].
  rewrite Hev, Hmx. simpl. split; lia.
Qed.
End Budget.

(** ** The number of observations after a run with given observations *)

Section PriorCount.
Context {F W E H A : Type}.
Variable self : env F W E H A.
Implicit Types (s : solver F W).

Lemma run_entry_prior_sizes Xa Ya s :
  nrows Ya = nrows Xa ->
  wp (run_entry self (Some Xa) (Some Ya))
     (fun _ r s' =>
        r = Ok tt /\ sizes s' = Some (nrows Xa, nrows Xa, nrows Xa, nrows Xa)) s.
Proof.
  intros Hrows. destruct s as [x y tf to mu inc incv nr ts w].
  unfold run_entry, X_shape_0. repeat wp_step. split; [reflexivity|].
  unfold sizes, np_zeros1. simpl.
  rewrite !length_replicate. unfold nrows in *. by rewrite Hrows.
Qed.

(** X10. A [run] that is given [n] observations ([X] and [Y] of [n] rows
    each) and returns leaves [n + (num_iterations - 1)] rows in [X] and in
    [Y] and as many entries in both timing arrays, with a maximizer that
    gives one point at a time and a task that gives one value for each
    point. *)
Theorem run_prior_observation_count num_iterations Xa Ya s r :
  maximizer_gives_one_point self -> task_gives_one_row_per_point self ->
  nrows Ya = nrows Xa ->
  value (run self num_iterations (Some Xa) (Some Ya) s) = Ok r ->
  let n := (nrows Xa + Z.to_nat (num_iterations - 1))%nat in
  sizes (final (run self num_iterations (Some Xa) (Some Ya) s)) = Some (n, n, n, n).
Proof.
  intros Hmax Heval Hrows Hr.
  destruct (run_ok_inv self num_iterations _ _ s _ Hr) as [Hloop Hfin].
  rewrite Hfin.
  cut (wp (run_loop self num_iterations (Some Xa) (Some Ya))
          (fun _ r s' =>
             r = Ok tt ->
             let n := (nrows Xa + Z.to_nat (num_iterations - 1))%nat in
             sizes s' = Some (n, n, n, n)) s);
    [intros Hwp; exact (Hwp Hloop)|].
  unfold run_loop. apply wp_bind.
  eapply wp_conseq; [by apply run_entry_prior_sizes|].
  intros ev1 r1 s1 [-> Hs1].
  eapply wp_conseq; [by apply (for_iteration_sizes self _ Hmax Heval s1 (nrows Xa)), Hs1|].
  intros ev' r' s'' Hs'' Hr'. rewrite py_range_length in Hs''. auto.
Qed.
End PriorCount.

(** ** [X] is the record of the evaluated points *)

Section Records.
Context {F W E H A : Type}.
Variable self : env F W E H A.
Implicit Types (s : solver F W).

Lemma evaluated_points_app (evs evs' : list (event F H A)) :
  evaluated_points (evs ++ evs') = evaluated_points evs ++ evaluated_points evs'.
Proof.
  induction evs as [|e evs IH]; [done|].
  destruct e; simpl; rewrite IH; try done. by rewrite app_assoc.
Qed.

Lemma evaluated_points_quiet (evs : list (event F H A)) :
  evaluations evs = [] -> evaluated_points evs = [].
Proof.
  unfold evaluations. induction evs as [|e evs IH]; [done|].
  destruct e; simpl; try done; exact IH.
Qed.

Hypothesis Huni : uniform_gives_point self.

Lemma initialize_point_records k pts z zs s :
  X s = Some (Arr2 (task_n_dims self) (pts ++ z :: zs)) -> length pts = k ->
  wp (initialize_point self k)
     (fun ev r s' =>
        r = Ok tt ->
        exists v, evaluated_points ev = [v] /\
                  X s' = Some (Arr2 (task_n_dims self) (pts ++ v :: zs))) s.
Proof.
  intros HX Hk. destruct s as [x y tf to mu inc incv nr ts w].
  cbn [X] in HX. subst x.
  unfold initialize_point, draw_uniform. wp_go.
  destruct (random_uniform self _ _ _ _) as [[v|e] w1] eqn:Hv; wp_simpl;
    [|by intros [=]].
  apply Huni in Hv. wp_go.
  destruct to as [oh|]; wp_simpl; [|by intros [=]]. wp_go.
  destruct (setitem1 oh k _) as [oh'|e]; wp_simpl; [|by intros [=]]. wp_go.
  destruct (task_evaluate self _ _) as [[yv|e] w2]; wp_simpl; [|by intros [=]].
  wp_go. destruct tf as [fe|]; wp_simpl; [|by intros [=]]. wp_go.
  destruct (setitem1 fe k _) as [fe'|e]; wp_simpl; [|by intros [=]]. wp_go.
  change (getrow (np_array_row v) 0) with (@Ok E _ v). wp_simpl. wp_go.
  unfold setrow at 1, nrows. cbn [rows ncols].
  assert (Hlt : (k <? length (pts ++ z :: zs))%nat = true).
  { apply Nat.ltb_lt. rewrite length_app. simpl. lia. }
  rewrite Hlt, Hv, Nat.eqb_refl. wp_go.
  assert (Hins : <[k:=v]> (pts ++ z :: zs) = pts ++ v :: zs).
  { rewrite insert_app_r_alt by lia. by replace (k - length pts)%nat with 0%nat by lia. }
  rewrite Hins.
  repeat wp_step; try (by intros [=]); intros _; exists v; by split.
Qed.

Lemma for_initialize_point_records zs : forall pts s,
  X s = Some (Arr2 (task_n_dims self) (pts ++ zs)) ->
  wp (for_ (seq (length pts) (length zs)) (initialize_point self))
     (fun ev r s' =>
        r = Ok tt ->
        X s' = Some (Arr2 (task_n_dims self) (pts ++ evaluated_points ev))) s.
Proof.
  induction zs as [|z zs IH]; intros pts s HX.
  - apply wp_for_nil. by intros _.
  - simpl seq. apply wp_for_cons, wp_bind.
    eapply wp_conseq; [by apply (initialize_point_records _ pts z zs)|].
    intros ev [[]|e] s' Hs'; [|by intros [=]].
    destruct (Hs' eq_refl) as (v & Hev & HX').
    replace (S (length pts)) with (length (pts ++ [v]))
      by (rewrite length_app; simpl; lia).
    eapply wp_conseq; [apply (IH (pts ++ [v])); by rewrite <- app_assoc|].
    intros ev' r s'' Hs'' Hr. rewrite (Hs'' Hr), evaluated_points_app, Hev.
    by rewrite <- app_assoc.
Qed.

Lemma initialize_records n s :
  wp (initialize self n)
     (fun ev r s' =>
        r = Ok tt ->
        X s' = Some (Arr2 (task_n_dims self) (evaluated_points ev))) s.
Proof.
  destruct s as [x y tf to mu inc incv nr ts w].
  unfold initialize. do 8 wp_step.
  pose proof (for_initialize_point_records
                (replicate n (replicate (task_n_dims self) (fzero self))) []) as Hfor.
  rewrite length_replicate in Hfor. simpl in Hfor.
  eapply wp_conseq; [apply Hfor; reflexivity|].
  intros ev r s' Hs'. exact Hs'.
Qed.

Lemma choose_next_evaluates_nothing Xa Ya b s :
  wp (choose_next self (Some Xa) (Some Ya) b) (fun ev _ _ => evaluated_points ev = []) s.
Proof.
  destruct s as [x y tf to mu inc incv nr ts w].
  unfold choose_next. destruct b; by repeat wp_step.
Qed.

Lemma iteration_records it s Xa :
  X s = Some Xa -> is_Some (Y s) ->
  wp (iteration self it)
     (fun ev r s' =>
        r = Ok tt ->
        is_Some (Y s') /\
        exists Xa', X s' = Some Xa' /\ rows Xa' = rows Xa ++ evaluated_points ev) s.
Proof.
  intros HX [Ya HY].
  destruct s as [x y tf to mu inc incv nr ts w]. cbn [X Y] in HX, HY. subst x y.
  pose proof (recommend_no_evaluate self) as Hre.
  pose proof (checkpoint_no_evaluate self) as Hce.
  unfold iteration, do_optimize_at, py_mod, np_append0.
  destruct (train_intervall self =? 0); wp_go; [by intros [=]|].
  eapply wp_conseq;
    [apply wp_and; [apply choose_next_same_arrays|apply choose_next_evaluates_nothing]|].
  intros ev1 [new_x|e] [x y tf1 to1 mu1 inc1 incv1 nr1 ts1 w1]
    [(Hx & Hy & Htf & Hto) Hev1]; simpl in Hx, Hy, Htf, Hto; subst;
    [|by intros [=]].
  wp_go.
  eapply wp_conseq; [apply wp_and; [apply recommend_frame|apply Hre]|].
  intros ev2 [[]|e] [x y tf2 to2 mu2 inc2 incv2 nr2 ts2 w2]
    [(Hx & Hy & Htf & Hto) Hev2]; simpl in Hx, Hy, Htf, Hto; subst;
    [|by intros [=]].
  apply evaluated_points_quiet in Hev2.
  repeat first
    [ wp_rule; wp_simpl
    | lazymatch goal with
      | |- wp (checkpoint _ _ _) _ _ =>
          eapply wp_conseq; [apply wp_and; [apply checkpoint_frame|apply Hce]|];
          intros ev3 r3 [x y tf3 to3 mu3 inc3 incv3 nr3 ts3 w3]
            [(Hx & Hy & Htf & Hto) Hev3];
          cbn [X Y time_func_eval time_optimization_overhead] in Hx, Hy, Htf, Hto; subst;
          apply evaluated_points_quiet in Hev3
      | |- match (if ?c then _ else _) with _ => _ end => destruct c; wp_simpl
      end
    | wp_case; wp_simpl ];
    try (by intros [=]).
  all: intros _; split; [by eexists|]; eexists; split; [reflexivity|];
    rewrite !evaluated_points_app, Hev1, Hev2, Hev3; simpl; by rewrite !app_nil_r.
Qed.

Lemma for_iteration_records l : forall s Xa,
  X s = Some Xa -> is_Some (Y s) ->
  wp (for_ l (iteration self))
     (fun ev r s' =>
        r = Ok tt ->
        exists Xa', X s' = Some Xa' /\ rows Xa' = rows Xa ++ evaluated_points ev) s.
Proof.
  induction l as [|it l IH]; intros s Xa HX HY.
  - apply wp_for_nil. intros _. exists Xa. by rewrite app_nil_r.
  - apply wp_for_cons, wp_bind.
    eapply wp_conseq; [by apply (iteration_records it s Xa)|].
    intros ev [[]|e] s' Hs'; [|by intros [=]].
    destruct (Hs' eq_refl) as (HY' & Xa' & HX' & Hrows).
    eapply wp_conseq; [by apply (IH s' Xa')|].
    intros ev' r s'' Hs'' Hr. destruct (Hs'' Hr) as (Xa'' & HX'' & Hrows').
    exists Xa''. split; [exact HX''|].
    by rewrite Hrows', Hrows, evaluated_points_app, app_assoc.
Qed.

Lemma run_entry_records X0 Y0 s :
  both_or_neither X0 Y0 ->
  wp (run_entry self X0 Y0)
     (fun ev r s' =>
        r = Ok tt ->
        is_Some (Y s') /\
        exists Xa, X s' = Some Xa /\ rows Xa = given_points X0 ++ evaluated_points ev) s.
Proof.
  intros Hboth. destruct X0 as [Xa|], Y0 as [Ya|]; try contradiction.
  - destruct s as [x y tf to mu inc incv nr ts w].
    unfold run_entry, X_shape_0. repeat wp_step. intros _.
    split; [by eexists|]. exists Xa. split; [reflexivity|]. simpl. by rewrite app_nil_r.
  - unfold run_entry, py_mod. wp_go.
    apply wp_conseq with
      (Q' := fun ev r s' =>
               observations 3 (task_n_dims self) s' /\
               (r = Ok tt -> X s' = Some (Arr2 (task_n_dims self) (evaluated_points ev)))).
    { split; [apply initialize_observations|apply initialize_records]. }
    intros ev [[]|e] [x y tf to mu inc incv nr ts w]
      [(_ & (Ya & HY & _) & _) Hev]; simpl in HY; subst; [|by intros [=]].
    specialize (Hev eq_refl). cbn [X] in Hev. subst x.
    repeat wp_step; try (by intros [=]); intros _;
      (split; [by eexists|]); eexists; (split; [reflexivity|]);
      rewrite !evaluated_points_app; simpl; by rewrite ?app_nil_r.
Qed.

(** X11. [X] is the record of the evaluated points: when a [run] returns,
    the rows of [X] are the rows of the [X] it was given, if any, followed
    by the points that were handed to [task.evaluate], in the order of the
    calls, and nothing else. *)
Theorem run_records_evaluated_points num_iterations X0 Y0 s r :
  both_or_neither X0 Y0 ->
  value (run self num_iterations X0 Y0 s) = Ok r ->
  exists Xa,
    X (final (run self num_iterations X0 Y0 s)) = Some Xa /\
    rows Xa = given_points X0 ++ evaluated_points (emitted (run self num_iterations X0 Y0 s)).
Proof.
  intros Hboth Hr. destruct r as [inc v].
  destruct (run_ok_inv self num_iterations X0 Y0 s _ Hr) as [Hloop Hfin].
  destruct (run_after_loop self num_iterations X0 Y0 s Hloop) as (Hval & Hem & _).
  rewrite Hr in Hval. symmetry in Hval.
  apply run_return_ok in Hval as (_ & _ & Hlog).
  rewrite Hfin, Hem, Hlog, evaluated_points_app. simpl. rewrite app_nil_r.
  cut (wp (run_loop self num_iterations X0 Y0)
          (fun ev r s' =>
             r = Ok tt ->
             exists Xa, X s' = Some Xa /\
                        rows Xa = given_points X0 ++ evaluated_points ev) s);
    [intros Hwp; exact (Hwp Hloop)|].
  unfold run_loop. apply wp_bind.
  eapply wp_conseq; [by apply run_entry_records|].
  intros ev1 [[]|e] s1 Hs1; [|by intros [=]].
  destruct (Hs1 eq_refl) as (HY1 & Xa1 & HX1 & Hrows1).
  eapply wp_conseq; [by apply (for_iteration_records _ s1 Xa1)|].
  intros ev2 r2 s2 Hs2 Hr2. destruct (Hs2 Hr2) as (Xa2 & HX2 & Hrows2).
  exists Xa2. split; [exact HX2|].
  by rewrite Hrows2, Hrows1, evaluated_points_app, app_assoc.
Qed.
End Records.

(** ** A run with collaborators that keep to their interfaces *)

Section Returns.
Context {F W E H A : Type}.
Variable self : env F W E H A.
Implicit Types (s : solver F W).

Hypothesis Hwb : well_behaved self.

Lemma wb_train_intervall : train_intervall self <> 0.
Proof. apply Hwb. Qed.

Lemma wb_num_save dir : save_dir self = Some dir -> num_save self <> 0.
Proof. apply Hwb. Qed.

Lemma wb_uniform lo hi n :
  returns (random_uniform self lo hi n) (fun v => length v = n).
Proof. apply Hwb. Qed.

Lemma wb_evaluate x :
  nrows x = 1%nat ->
  returns (task_evaluate self x) (fun y => shape y = (1%nat, 1%nat) /\ wf_arr2 y).
Proof. apply Hwb. Qed.

Lemma wb_train Xa Ya : returns (model_train self Xa Ya) (fun _ => True).
Proof. apply Hwb. Qed.

Lemma wb_update : returns (acquisition_func_update self) (fun _ => True).
Proof. apply Hwb. Qed.

Lemma wb_maximize :
  returns (maximize_func_maximize self) (fun x => shape x = (1%nat, task_n_dims self)).
Proof. apply Hwb. Qed.

Lemma wb_strategy st sp wg :
  returns (strategy_call self st sp wg) (fun r => length (snd r) = 1%nat).
Proof. apply Hwb. Qed.

Lemma wb_param_array : returns (model_param_array self) (fun _ => True).
Proof. apply Hwb. Qed.

Lemma wb_acq_call x : returns (acquisition_func_call self x) (fun _ => True).
Proof. apply Hwb. Qed.

Lemma wb_save it h a : returns (save_iteration self it h a) (fun _ => True).
Proof. apply Hwb. Qed.

(** Uses the interface of the collaborator whose call is next. *)
Ltac wb_call :=
  let v := fresh "v" in
  let Hv := fresh "Hv" in
  let HP := fresh "HP" in
  match goal with
  | |- context [fst (random_uniform self ?lo ?hi ?n ?w)] =>
      destruct (wb_uniform lo hi n w) as (v & Hv & HP)
  | |- context [fst (model_train self ?Xa ?Ya ?w)] =>
      destruct (wb_train Xa Ya w) as (v & Hv & HP)
  | |- context [fst (acquisition_func_update self ?w)] =>
      destruct (wb_update w) as (v & Hv & HP)
  | |- context [fst (maximize_func_maximize self ?w)] =>
      destruct (wb_maximize w) as (v & Hv & HP)
  | |- context [fst (strategy_call self ?st ?sp ?wg ?w)] =>
      destruct (wb_strategy st sp wg w) as (v & Hv & HP)
  | |- context [fst (model_param_array self ?w)] =>
      destruct (wb_param_array w) as (v & Hv & HP)
  | |- context [fst (acquisition_func_call self ?x ?w)] =>
      destruct (wb_acq_call x w) as (v & Hv & HP)
  | |- context [fst (save_iteration self ?it ?h ?a ?w)] =>
      destruct (wb_save it h a w) as (v & Hv & HP)
  end;
  rewrite Hv; wp_simpl.

Lemma initialize_point_returns n i s :
  (i < n)%nat -> observations n (task_n_dims self) s ->
  wp (initialize_point self i) (fun _ r _ => r = Ok tt) s.
Proof.
  intros Hi ((Xa & HX & HXs & HXw) & (Ya & HY & HYs & HYw) &
             (fe & Hfe & Hfel) & (oh & Hoh & Hohl)).
  destruct s as [x y tf to mu inc incv nr ts w]. simpl in HX, HY, Hfe, Hoh.
  subst x y tf to. injection HXs as HXr HXc. injection HYs as HYr HYc.
  unfold initialize_point, draw_uniform. wp_go. wb_call. wp_go.
  unfold setitem1 at 1. rewrite Hohl, (proj2 (Nat.ltb_lt i n) Hi). wp_go.
  match goal with
  | |- context [fst (task_evaluate self ?x ?w)] =>
      destruct (wb_evaluate x eq_refl w) as (yv & Hy & Hys & Hyw)
  end.
  rewrite Hy. wp_simpl. wp_go.
  unfold setitem1 at 1. rewrite Hfel, (proj2 (Nat.ltb_lt i n) Hi). wp_go.
  change (getrow (np_array_row v) 0) with (@Ok E _ v). wp_simpl. wp_go.
  unfold setrow at 1. rewrite HXr, HXc, HP, (proj2 (Nat.ltb_lt i n) Hi), Nat.eqb_refl.
  wp_go. injection Hys as Hyr Hyc.
  destruct (one_row yv Hyr) as [ry Hry].
  unfold getrow at 1. rewrite Hry. change ([ry] !! 0%nat) with (Some ry). wp_simpl. wp_go.
  assert (Hlen : length ry = 1%nat).
  { unfold wf_arr2 in Hyw. rewrite Hry, Hyc in Hyw. by inversion Hyw. }
  unfold setrow at 1. rewrite HYr, HYc, Hlen, (proj2 (Nat.ltb_lt i n) Hi). simpl.
  wp_go. reflexivity.
Qed.

Lemma for_initialize_point_returns n m : forall k s,
  (k + m <= n)%nat -> observations n (task_n_dims self) s ->
  wp (for_ (seq k m) (initialize_point self))
     (fun _ r s' => r = Ok tt /\ observations n (task_n_dims self) s') s.
Proof.
  induction m as [|m IH]; intros k s Hk Hs.
  - apply wp_for_nil. by split.
  - simpl seq. apply wp_for_cons, wp_bind.
    eapply wp_conseq;
      [apply wp_and;
         [apply (initialize_point_returns n k); [lia|exact Hs]
         |by apply (initialize_point_observations self n)]|].
    intros ev r s' [-> Hs']. apply IH; [lia|exact Hs'].
Qed.

Lemma initialize_returns n s :
  wp (initialize self n)
     (fun _ r s' => r = Ok tt /\ observations n (task_n_dims self) s') s.
Proof.
  unfold initialize. do 8 wp_step.
  apply for_initialize_point_returns; [lia|].
  unfold observations; cbn [X Y time_func_eval time_optimization_overhead].
  repeat split; eexists; (split; [reflexivity|]);
    eauto using np_zeros2_shape, np_zeros2_wf, np_zeros1_length.
Qed.

Lemma argmin_from_bound (ltb : F -> F -> bool) l : forall bi bv i,
  (bi < i)%nat -> (argmin_from ltb bi bv i l < i + length l)%nat.
Proof.
  induction l as [|v l IH]; intros bi bv i Hbi; simpl; [lia|].
  destruct (ltb v bv).
  - pose proof (IH i v (S i) ltac:(lia)). lia.
  - pose proof (IH bi bv (S i) ltac:(lia)). lia.
Qed.

Lemma np_argmin_bound (ltb : F -> F -> bool) (a : arr2 F) :
  wf_arr2 a -> ncols a = 1%nat -> nrows a <> 0%nat ->
  exists i, np_argmin (E:=E) ltb a = Ok i /\ (i < nrows a)%nat.
Proof.
  intros Hwf Hcol Hne. pose proof (one_column_rows a Hwf Hcol) as Hflat.
  assert (Hlen : length (concat (rows a)) = nrows a).
  { unfold nrows. rewrite Hflat at 2. by rewrite length_map. }
  unfold np_argmin. destruct (concat (rows a)) as [|v l]; [simpl in Hlen; lia|].
  eexists. split; [reflexivity|].
  pose proof (argmin_from_bound ltb l 0%nat v 1%nat ltac:(lia)). simpl in Hlen. lia.
Qed.

Lemma best_observed_returns s Xa Ya :
  X s = Some Xa -> Y s = Some Ya ->
  wf_arr2 Ya -> ncols Ya = 1%nat -> nrows Xa = nrows Ya -> nrows Ya <> 0%nat ->
  wp (best_observed self) (fun _ r s' => s' = s /\ exists xb, r = Ok xb) s.
Proof.
  intros HX HY HwfY Hcol Hrows Hne.
  destruct (np_argmin_bound (fltb self) Ya HwfY Hcol Hne) as (i & Harg & Hi).
  destruct (lookup_lt_is_Some_2 (rows Xa) i) as [xb HXi]; [unfold nrows in *; lia|].
  unfold best_observed. wp_go. rewrite HY. wp_go. rewrite Harg. wp_go.
  rewrite HX. wp_go. unfold getrow. rewrite HXi. split; [reflexivity|by exists xb].
Qed.

Lemma comprehension_returns n : forall s,
  exists pts, value (comprehension n (draw_uniform self) s) = Ok pts.
Proof.
  induction n as [|n IH]; intros s; [by eexists|].
  simpl comprehension.
  destruct (wb_uniform (task_X_lower self) (task_X_upper self) (task_n_dims self)
              (world s)) as (v & Hv & _).
  destruct (bind_ok_proj (draw_uniform self)
              (fun v => bind (comprehension n (draw_uniform self))
                             (fun vs => ret (v :: vs))) s v Hv) as (-> & _).
  destruct (IH (final (draw_uniform self s))) as [vs Hvs].
  destruct (bind_ok_proj (comprehension n (draw_uniform self))
              (fun vs => ret (v :: vs)) _ vs Hvs) as (-> & _).
  by eexists.
Qed.

Lemma recommend_returns s Xa Ya :
  X s = Some Xa -> Y s = Some Ya ->
  wf_arr2 Ya -> ncols Ya = 1%nat -> nrows Xa = nrows Ya -> nrows Ya <> 0%nat ->
  wp (recommend self)
     (fun _ r s' =>
        r = Ok tt /\ same_arrays s s' /\ exists v, incumbent_value s' = Some [v]) s.
Proof.
  intros HX HY HwfY Hcol Hrows Hne.
  destruct (np_argmin_bound (fltb self) Ya HwfY Hcol Hne) as (i & Harg & Hi).
  destruct (lookup_lt_is_Some_2 (rows Xa) i) as [xb HXi]; [unfold nrows in *; lia|].
  destruct (lookup_lt_is_Some_2 (rows Ya) i) as [yb HYi]; [unfold nrows in *; lia|].
  assert (Hyb : exists c, yb = [c]).
  { pose proof (proj1 (Forall_lookup _ _) HwfY i yb HYi) as Hlen.
    rewrite Hcol in Hlen. destruct yb as [|c [|c' yb]]; try discriminate. by exists c. }
  destruct Hyb as [c ->].
  assert (Hone : forall r : list F * list F,
            length (snd r) = 1%nat -> exists v, Some (snd r) = Some [v]).
  { intros [ri [|v0 [|v1 rv]]] Hlen; try discriminate. by exists v0. }
  destruct s as [x y tf to mu inc incv nr ts w]. cbn [X Y] in HX, HY. subst x y.
  unfold recommend, best_observed.
  destruct (recommendation_strategy self) as [[|id]|].
  - wp_go. unfold wp at 1.
    destruct (comprehension_draw_uniform self nr
                (Solver (Some Xa) (Some Ya) tf to mu inc incv nr ts w)) as ([w' ->] & _).
    destruct (comprehension_returns nr
                (Solver (Some Xa) (Some Ya) tf to mu inc incv nr ts w)) as [pts ->].
    wp_simpl. wp_go. rewrite Harg. wp_go. unfold getrow. rewrite HXi. wp_go.
    wb_call. wp_go. split; [reflexivity|]. split; [done|by apply Hone].
  - wp_go. rewrite Harg. wp_go. unfold getrow. rewrite HXi. wp_go.
    wb_call. wp_go. split; [reflexivity|]. split; [done|by apply Hone].
  - wp_go. rewrite Harg. wp_go. unfold getrow. rewrite HXi. wp_go.
    rewrite HYi. wp_go. split; [reflexivity|]. split; [done|by exists c].
Qed.

Lemma choose_next_returns Xa Ya b s :
  wp (choose_next self (Some Xa) (Some Ya) b)
     (fun _ r s' =>
        same_arrays s s' /\
        exists x, r = Ok x /\ shape x = (1%nat, task_n_dims self)) s.
Proof.
  destruct s as [x y tf to mu inc incv nr ts w].
  unfold choose_next.
  destruct b; repeat (wp_go; try wb_call); (split; [done|by eexists]).
Qed.

Lemma checkpoint_returns it new_x s :
  wp (checkpoint self it new_x)
     (fun _ r s' => r = Ok tt /\ exists w', s' = set_world w' s) s.
Proof.
  destruct s as [x y tf to mu inc incv nr ts w].
  unfold checkpoint, py_mod.
  destruct (save_dir self) as [dir|] eqn:Hdir; [|wp_go; split; [done|by eexists]].
  apply wb_num_save, Z.eqb_neq in Hdir. rewrite Hdir. wp_go.
  destruct (it mod num_save self =? 0); [|wp_go; split; [done|by eexists]].
  destruct (model_is_GPyModel self); wp_go.
  - wb_call. wp_go. wb_call. wp_go. wb_call. destruct v1. split; [done|by eexists].
  - wb_call. destruct v. split; [done|by eexists].
Qed.

Lemma iteration_returns it s :
  ready self s -> wp (iteration self it) (fun _ r s' => r = Ok tt /\ ready self s') s.
Proof.
  intros (Xa & Ya & fe & oh & HX & HY & Hfe & Hoh & HXc & HwfY & Hcol & Hrows & Hne & _).
  destruct s as [x y tf to mu inc incv nr ts w].
  cbn [X Y time_func_eval time_optimization_overhead] in HX, HY, Hfe, Hoh.
  subst x y tf to.
  unfold iteration, do_optimize_at, py_mod.
  rewrite (proj2 (Z.eqb_neq _ _) wb_train_intervall). wp_go.
  eapply wp_conseq; [apply choose_next_returns|].
  intros ev1 r1 [x y tf to mu1 inc1 incv1 nr1 ts1 w1]
    [(Hx & Hy & Htf & Hto) (new_x & -> & Hshape)];
    cbn [X Y time_func_eval time_optimization_overhead] in Hx, Hy, Htf, Hto.
  subst x y tf to. injection Hshape as Hnr Hnc. wp_simpl. wp_go.
  eapply wp_conseq; [by apply (recommend_returns _ Xa Ya)|].
  intros ev2 r2 [x y tf to mu2 inc2 incv2 nr2 ts2 w2]
    (-> & (Hx & Hy & Htf & Hto) & Hincv);
    cbn [X Y time_func_eval time_optimization_overhead incumbent_value]
      in Hx, Hy, Htf, Hto, Hincv.
  subst x y tf to. wp_simpl. wp_go.
  match goal with
  | |- context [fst (task_evaluate self new_x ?w)] =>
      destruct (wb_evaluate new_x Hnr w) as (yv & Hy & Hys & Hyw)
  end.
  rewrite Hy. wp_simpl. wp_go. injection Hys as Hyr Hyc.
  destruct (one_row yv Hyr) as [ry Hry].
  assert (Hlen : length ry = 1%nat).
  { unfold wf_arr2 in Hyw. rewrite Hry, Hyc in Hyw. by inversion Hyw. }
  destruct ry as [|c [|c' ry]]; try discriminate.
  unfold getitem2 at 1. rewrite Hry.
  change ([[c]] !! 0%nat) with (Some [c]). wp_simpl.
  change ([c] !! 0%nat) with (Some c). wp_simpl. wp_go.
  unfold np_append0 at 1. rewrite HXc, Hnc, Nat.eqb_refl. wp_go.
  unfold np_append0 at 1. rewrite Hcol, Hyc, Nat.eqb_refl. wp_go.
  eapply wp_conseq; [apply checkpoint_returns|].
  intros ev3 r3 s3 (-> & w3 & ->). split; [reflexivity|].
  eexists _, _, _, _. cbn [X Y time_func_eval time_optimization_overhead
                           incumbent_value set_world].
  split; [reflexivity|]. split; [reflexivity|]. split; [reflexivity|].
  split; [reflexivity|]. unfold wf_arr2, nrows in *. cbn [rows ncols].
  split; [reflexivity|]. split.
  { apply Forall_app. split; [by rewrite Hcol in HwfY|]. rewrite Hry. by repeat constructor. }
  split; [reflexivity|]. rewrite !length_app, Hyr, Hnr.
  split; [lia|]. split; [lia|exact Hincv].
Qed.

Lemma for_iteration_returns l : forall s,
  ready self s ->
  wp (for_ l (iteration self)) (fun _ r s' => r = Ok tt /\ ready self s') s.
Proof.
  induction l as [|it l IH]; intros s Hs.
  - apply wp_for_nil. by split.
  - apply wp_for_cons, wp_bind.
    eapply wp_conseq; [by apply iteration_returns|].
    intros ev r s' [-> Hs']. by apply IH.
Qed.

Lemma run_entry_returns s :
  wp (run_entry self None None) (fun _ r s' => r = Ok tt /\ ready self s') s.
Proof.
  unfold run_entry, py_mod. wp_go.
  eapply wp_conseq; [apply (initialize_returns 3)|].
  intros ev r [x y tf to mu inc incv nr ts w]
    (-> & (Xa & HX & HXs & HXw) & (Ya & HY & HYs & HYw) &
     (fe & Hfe & Hfel) & (oh & Hoh & Hohl)).
  cbn [X Y time_func_eval time_optimization_overhead] in HX, HY, Hfe, Hoh.
  subst x y tf to. injection HXs as HXr HXc. injection HYs as HYr HYc.
  destruct (lookup_lt_is_Some_2 (rows Xa) 0) as [x0 Hx0]; [unfold nrows in *; lia|].
  destruct (lookup_lt_is_Some_2 (rows Ya) 0) as [y0 Hy0]; [unfold nrows in *; lia|].
  assert (Hy0' : exists c, y0 = [c]).
  { pose proof (proj1 (Forall_lookup _ _) HYw 0%nat y0 Hy0) as Hlen.
    rewrite HYc in Hlen. destruct y0 as [|c [|c' y0]]; try discriminate. by exists c. }
  destruct Hy0' as [c ->].
  assert (Hready : forall mu' inc' nr' ts' (w' : W),
            ready self (Solver (Some Xa) (Some Ya) (Some fe) (Some oh)
                          mu' inc' (Some [c]) nr' ts' w')).
  { intros. exists Xa, Ya, fe, oh.
    cbn [X Y time_func_eval time_optimization_overhead incumbent_value].
    rewrite HXr, HYr. repeat split; try done; by eexists. }
  wp_simpl. wp_go. unfold getrow at 1. rewrite Hx0. wp_go.
  unfold getrow at 1. rewrite Hy0. wp_go.
  destruct (save_dir self) as [dir|] eqn:Hdir; [|wp_go; split; [done|apply Hready]].
  apply wb_num_save, Z.eqb_neq in Hdir. rewrite Hdir. wp_go.
  destruct (0 mod num_save self =? 0); wp_go; [|split; [done|apply Hready]].
  wb_call. destruct v. split; [done|apply Hready].
Qed.

(** X12. With collaborators that keep to their interfaces (none of them
    raises, [np.random.uniform] gives [n_dims] numbers, the maximizer one
    point of [n_dims] coordinates, the task one value for one point, and
    a recommendation strategy one number as the value of its incumbent),
    a training interval that is not zero and, when [save_dir] is set, a
    saving interval that is not zero, a [run] without [X] and [Y]
    returns, for every [num_iterations], from every state of the solver:
    no indexing, shape or attribute error arises inside the solver, and
    the message of line 190 can be formatted. *)
Theorem run_returns num_iterations s :
  exists r, value (run self num_iterations None None s) = Ok r.
Proof.
  cut (wp (run self num_iterations None None) (fun _ r _ => exists v, r = Ok v) s);
    [intros Hwp; exact Hwp|].
  unfold run, run_loop. apply wp_bind, wp_bind.
  eapply wp_conseq; [apply run_entry_returns|].
  intros ev1 r1 s1 [-> Hs1]. wp_simpl.
  eapply wp_conseq; [by apply for_iteration_returns|].
  intros ev2 r2 s2 [-> Hs2]. wp_simpl.
  destruct Hs2 as (_ & _ & _ & _ & _ & _ & _ & _ & _ & _ & _ & _ & _ & [v Hv]).
  destruct s2 as [x y tf to mu inc incv nr ts w]. cbn [incumbent_value] in Hv. subst incv.
  unfold run_return, format_f. wp_go. by eexists.
Qed.
End Returns.

(** ** The properties of the loop on the concrete task *)

Lemma demo_task_gives_arrays dims fr gpy dir strat ns nt :
  task_gives_arrays (Demo.demo_env dims fr false gpy dir strat ns nt).
Proof.
  intros x w y w' [= <- _]. unfold wf_arr2. simpl.
  apply Forall_forall. intros r Hr. apply list_elem_of_fmap in Hr as (r' & -> & _). done.
Qed.

Lemma demo_uniform_gives_point dims fr picky gpy dir strat ns nt :
  uniform_gives_point (Demo.demo_env dims fr picky gpy dir strat ns nt).
Proof. intros lo hi n w v w' [= <- _]. apply length_replicate. Qed.

Lemma demo_well_behaved dims gpy dir strat ns nt :
  ns <> 0 -> nt <> 0 ->
  well_behaved (Demo.demo_env dims None false gpy dir strat ns nt).
Proof.
  intros Hns Hnt. unfold well_behaved, returns. simpl.
  split; [exact Hnt|]. split; [intros _ _; exact Hns|].
  split; [intros lo hi n w; eexists; split; [reflexivity|apply length_replicate]|].
  split.
  { intros x Hx w. eexists. split; [reflexivity|]. split.
    - unfold shape, nrows. simpl. by rewrite length_map, <- Hx.
    - apply (demo_task_gives_arrays dims None gpy dir strat ns nt x w _ w). reflexivity. }
  split; [intros; by eexists|]. split; [intros; by eexists|].
  split.
  { intros w. eexists. split; [reflexivity|]. unfold shape, nrows. simpl. done. }
  split; [intros st sp wg w; eexists; split; [reflexivity|by destruct sp]|].
  split; [intros; by eexists|].
  split; intros; by eexists.
Qed.

Lemma run_zero_train_intervall_witness :
  2 <= 2 /\
  value (run (Demo.demo_env 1 None false false None None 1 0) 2 None None (__init__ 0%nat))
    = Raise ZeroDivisionError.
Proof.
  split; [lia|].
  eapply proj1.
  eapply (proj2 (run_zero_train_intervall (Demo.demo_env 1 None false false None None 1 0)
                   2 None None (__init__ 0%nat) eq_refl ltac:(lia))).
  vm_compute. reflexivity.
Defined.

Lemma run_zero_num_save_witness :
  value (run (Demo.demo_env 1 None false false (Some "run") None 0 1) 2 None None
           (__init__ 0%nat))
    = Raise ZeroDivisionError.
Proof.
  eapply (proj2 (proj2 (proj2
            (run_zero_num_save (Demo.demo_env 1 None false false (Some "run") None 0 1)
               "run" 2 (__init__ 0%nat) eq_refl eq_refl)))).
  vm_compute. reflexivity.
Defined.

Lemma run_fresh_no_iteration_witness :
  1 <= 1 /\
  exists Xa Ya,
    X (final (run Demo.plain 1 None None (__init__ 0%nat))) = Some Xa /\
    Y (final (run Demo.plain 1 None None (__init__ 0%nat))) = Some Ya /\
    Some [2] = rows Xa !! 0%nat /\ rows Ya !! 0%nat = Some [2] /\
    sizes (final (run Demo.plain 1 None None (__init__ 0%nat))) = Some (3, 3, 3, 3)%nat /\
    trainings (emitted (run Demo.plain 1 None None (__init__ 0%nat))) = [] /\
    maximizations (emitted (run Demo.plain 1 None None (__init__ 0%nat))) = [].
Proof.
  split; [lia|].
  apply (run_fresh_no_iteration Demo.plain 1 (__init__ 0%nat) (Some [2]) [2]); [lia|].
  vm_compute. reflexivity.
Defined.

Lemma choose_next_without_observations_witness :
  choose_next Demo.plain None (Some (Arr2 1 [[7]; [2]; [2]])) false three_observations =
    choose_next Demo.plain None None true three_observations /\
  observations 3 1
    (final (choose_next Demo.plain None (Some (Arr2 1 [[7]; [2]; [2]])) false
              three_observations)).
Proof.
  pose proof (choose_next_without_observations Demo.plain None
                (Some (Arr2 1 [[7]; [2]; [2]])) false three_observations
                (or_introl eq_refl)) as (Heq & Hobs & _).
  split; [exact Heq|exact Hobs].
Defined.

Lemma run_incumbent_ignores_last_observation_witness :
  2 <= 3 /\
  best_but_last Demo.plain (Some [-20]) [-20]
    (final (run Demo.plain 3 None None (__init__ 0%nat))).
Proof.
  split; [lia|].
  apply (run_incumbent_ignores_last_observation Demo.plain eq_refl
           Z_ltb_strict_weak_order
           (demo_maximizer_gives_one_point _ _ _ _ _ _ _ _)
           (demo_task_gives_one_row_per_point _ _ _ _ _ _ _)
           (demo_task_gives_arrays _ _ _ _ _ _ _)
           3 (__init__ 0%nat) (Some [-20]) [-20]); [lia|].
  vm_compute. reflexivity.
Defined.

Lemma run_calls_witness :
  length (evaluations (emitted (run Demo.plain 3 None None (__init__ 0%nat)))) = 5%nat /\
  length (maximizations (emitted (run Demo.plain 3 None None (__init__ 0%nat)))) = 2%nat.
Proof.
  apply (run_calls Demo.plain 3 None None (__init__ 0%nat) (Some [-20], [-20]) I).
  vm_compute. reflexivity.
Defined.

Lemma run_prior_observation_count_witness :
  sizes (final (run Demo.plain 3 (Some (Arr2 1 [[9]; [4]; [6]]))
                  (Some (Arr2 1 [[7]; [2]; [2]])) (__init__ 0%nat)))
    = Some (5, 5, 5, 5)%nat.
Proof.
  apply (run_prior_observation_count Demo.plain 3 (Arr2 1 [[9]; [4]; [6]])
           (Arr2 1 [[7]; [2]; [2]]) (__init__ 0%nat) (Some [-5], [-5])
           (demo_maximizer_gives_one_point _ _ _ _ _ _ _ _)
           (demo_task_gives_one_row_per_point _ _ _ _ _ _ _)
           eq_refl).
  vm_compute. reflexivity.
Defined.

Lemma run_records_evaluated_points_witness :
  exists Xa,
    X (final (run Demo.plain 2 None None (__init__ 0%nat))) = Some Xa /\
    rows Xa =
      given_points None ++
      evaluated_points (emitted (run Demo.plain 2 None None (__init__ 0%nat))).
Proof.
  apply (run_records_evaluated_points Demo.plain
           (demo_uniform_gives_point _ _ _ _ _ _ _ _)
           2 None None (__init__ 0%nat) (Some [2], [2]) I).
  vm_compute. reflexivity.
Defined.

Lemma run_returns_witness :
  exists r, value (run Demo.checkpointed 3 None None (__init__ 0%nat)) = Ok r.
Proof.
  apply (run_returns Demo.checkpointed
           (demo_well_behaved 2 true (Some "run")
              (Some optimize_posterior_mean_and_std) 2 1
              ltac:(discriminate) ltac:(discriminate))
           3 (__init__ 0%nat)).
Defined.

(** ** A run that is given [X] without [Y] *)

Section WithoutY.
Context {F W E H A : Type}.
Variable self : env F W E H A.
Implicit Types (s : solver F W).

Hypothesis Hmax : maximizer_gives_one_point self.
Hypothesis Heval : task_gives_one_row_per_point self.

(** An iteration adds one entry to each of the four arrays, whatever
    their sizes are. *)
Lemma iteration_grows it s a b c d :
  sizes s = Some (a, b, c, d) ->
  wp (iteration self it)
     (fun _ r s' => r = Ok tt -> sizes s' = Some (S a, S b, S c, S d)) s.
Proof.
  intros Hs.
  destruct s as [[Xa|] [Ya|] [fe|] [oh|] mu inc incv nr ts w]; try discriminate.
  unfold sizes in Hs; simpl in Hs.
  injection Hs as HXa HYa Hfe Hoh.
  unfold iteration, do_optimize_at, py_mod.
  destruct (train_intervall self =? 0); wp_go; [by intros [=]|].
  eapply wp_conseq; [by apply choose_next_frame|].
  intros ev1 [new_x|e] [x y tf to mu1 inc1 incv1 nr1 ts1 w1]
    [(Hx & Hy & Htf & Hto) Hone]; simpl in Hx, Hy, Htf, Hto; subst;
    [|by intros [=]].
  specialize (Hone new_x eq_refl). wp_go.
  eapply wp_conseq; [apply recommend_frame|].
  intros ev2 [[]|e] [x y tf to mu2 inc2 incv2 nr2 ts2 w2]
    (Hx & Hy & Htf & Hto); simpl in Hx, Hy, Htf, Hto; subst;
    [|by intros [=]].
  wp_go. destruct (task_evaluate self new_x _) as [[new_y|e] w3] eqn:Hy;
    wp_simpl; [|by intros [=]].
  apply Heval in Hy. wp_go.
  destruct (getitem2 new_y 0 0); wp_simpl; [|by intros [=]]. wp_go.
  destruct (np_append0 Xa new_x) as [Xa'|] eqn:HXa'; wp_simpl; [|by intros [=]].
  wp_go.
  destruct (np_append0 Ya new_y) as [Ya'|] eqn:HYa'; wp_simpl; [|by intros [=]].
  wp_go. eapply wp_conseq; [apply checkpoint_frame|].
  intros ev3 r [x y tf to mu3 inc3 incv3 nr3 ts3 w4]
    (Hx & Hy' & Htf & Hto) _; simpl in Hx, Hy', Htf, Hto; subst.
  unfold sizes; simpl.
  apply (np_append0_nrows (E:=E)) in HXa', HYa'.
  rewrite HXa', HYa', !np_append1_length, Hy, Hone.
  by rewrite ?Nat.add_1_r.
Qed.

Lemma for_iteration_grows l : forall s a b c d,
  sizes s = Some (a, b, c, d) ->
  wp (for_ l (iteration self))
     (fun _ r s' =>
        r = Ok tt ->
        sizes s' = Some (a + length l, b + length l, c + length l, d + length l)%nat) s.
Proof.
  induction l as [|it l IH]; intros s a b c d Hs.
  - apply wp_for_nil. intros _. simpl. by rewrite !Nat.add_0_r.
  - apply wp_for_cons, wp_bind.
    eapply wp_conseq; [by apply iteration_grows|].
    intros ev [[]|e] s' Hs'; [|by intros [=]].
    eapply wp_conseq; [by apply (IH s' (S a) (S b) (S c) (S d)), Hs'|].
    intros ev' r s'' Hs'' Hr. simpl length. rewrite <- !Nat.add_succ_comm. auto.
Qed.

(** The first iteration after [X] was given without [Y]: [choose_next]
    starts over with three new points and proposes all three of them. *)
Lemma iteration_without_Y it s Xa n :
  X s = Some Xa -> Y s = None ->
  time_func_eval s = Some (np_zeros1 (fzero self) n) ->
  time_optimization_overhead s = Some (np_zeros1 (fzero self) n) ->
  wp (iteration self it)
     (fun _ r s' => r = Ok tt -> sizes s' = Some (6, 6, 4, 4)%nat) s.
Proof.
  intros HX HY Hfe Hoh.
  destruct s as [x y tf to mu inc incv nr ts w].
  cbn [X Y time_func_eval time_optimization_overhead] in HX, HY, Hfe, Hoh.
  subst x y tf to.
  unfold iteration, do_optimize_at, py_mod.
  destruct (train_intervall self =? 0); wp_go; [by intros [=]|].
  unfold choose_next. wp_go.
  apply wp_conseq with (Q' := fun _ _ s' => observations 3 (task_n_dims self) s');
    [apply initialize_observations|].
  intros ev1 [[]|e] [x y tf to mu1 inc1 incv1 nr1 ts1 w1]
    ((Xb & HXb & HXbs & _) & (Yb & HYb & HYbs & _) &
     (fe & Hfe & Hfel) & (oh & Hoh & Hohl));
    cbn [X Y time_func_eval time_optimization_overhead] in HXb, HYb, Hfe, Hoh;
    subst x y tf to; [|by intros [=]].
  injection HXbs as HXbr _. injection HYbs as HYbr _.
  wp_simpl. wp_go.
  eapply wp_conseq; [apply recommend_frame|].
  intros ev2 [[]|e] [x y tf to mu2 inc2 incv2 nr2 ts2 w2]
    (Hx & Hy & Htf & Hto); simpl in Hx, Hy, Htf, Hto; subst;
    [|by intros [=]].
  wp_go. destruct (task_evaluate self Xb _) as [[new_y|e] w3] eqn:Hy;
    wp_simpl; [|by intros [=]].
  apply Heval in Hy. wp_go.
  destruct (getitem2 new_y 0 0); wp_simpl; [|by intros [=]]. wp_go.
  destruct (np_append0 Xb Xb) as [Xa'|] eqn:HXa'; wp_simpl; [|by intros [=]].
  wp_go.
  destruct (np_append0 Yb new_y) as [Ya'|] eqn:HYa'; wp_simpl; [|by intros [=]].
  wp_go. eapply wp_conseq; [apply checkpoint_frame|].
  intros ev3 r [x y tf to mu3 inc3 incv3 nr3 ts3 w4]
    (Hx & Hy' & Htf & Hto) _; simpl in Hx, Hy', Htf, Hto; subst.
  unfold sizes; simpl.
  apply (np_append0_nrows (E:=E)) in HXa', HYa'.
  rewrite HXa', HYa', !np_append1_length, Hy, HXbr, HYbr, Hfel, Hohl. reflexivity.
Qed.

(** X13. A [run] that is given [X] but not [Y] does not keep the given
    [X]: when such a run of two or more iterations returns, with a
    maximizer that gives one point at a time and a task that gives one
    value for each point, [X] and [Y] have [6 + (num_iterations - 2)]
    rows, whatever [X] was given, and both timing arrays
    [4 + (num_iterations - 2)] entries.  (The first iteration calls
    [choose_next] without [Y], which starts over with three new points
    and hands back all three as the candidate.) *)
Theorem run_without_Y num_iterations Xa s r :
  2 <= num_iterations ->
  value (run self num_iterations (Some Xa) None s) = Ok r ->
  let k := Z.to_nat (num_iterations - 2) in
  sizes (final (run self num_iterations (Some Xa) None s)) =
    Some (6 + k, 6 + k, 4 + k, 4 + k)%nat.
Proof.
  intros HN Hr.
  destruct (run_ok_inv self num_iterations _ _ s _ Hr) as [Hloop Hfin].
  rewrite Hfin.
  cut (wp (run_loop self num_iterations (Some Xa) None)
          (fun _ r s' =>
             r = Ok tt ->
             let k := Z.to_nat (num_iterations - 2) in
             sizes s' = Some (6 + k, 6 + k, 4 + k, 4 + k)%nat) s);
    [intros Hwp; exact (Hwp Hloop)|].
  unfold run_loop. rewrite py_range_cons by lia. apply wp_bind.
  apply wp_conseq with
    (Q' := fun _ r s' =>
             r = Ok tt /\ X s' = Some Xa /\ Y s' = None /\
             time_func_eval s' = Some (np_zeros1 (fzero self) (nrows Xa)) /\
             time_optimization_overhead s' = Some (np_zeros1 (fzero self) (nrows Xa))).
  { destruct s as [x y tf to mu inc incv nr ts w].
    unfold run_entry, X_shape_0. by repeat wp_step. }
  intros ev1 r1 s1 (-> & HX & HY & Hfe & Hoh).
  apply wp_for_cons, wp_bind.
  eapply wp_conseq; [by apply (iteration_without_Y 1 s1 Xa (nrows Xa))|].
  intros ev2 [[]|e] s2 Hs2; [|by intros [=]].
  eapply wp_conseq; [by apply (for_iteration_grows _ s2 6 6 4 4)%nat, Hs2|].
  intros ev3 r3 s3 Hs3 Hr3. rewrite py_range_length in Hs3.
  replace (num_iterations - (1 + 1)) with (num_iterations - 2) in Hs3 by lia. auto.
Qed.
End WithoutY.

Lemma run_without_Y_witness :
  2 <= 3 /\
  sizes (final (run Demo.plain 3 (Some (Arr2 1 [[9]; [4]; [6]; [8]; [1]])) None
                  (__init__ 0%nat)))
    = Some (7, 7, 5, 5)%nat.
Proof.
  split; [lia|].
  eapply (run_without_Y Demo.plain
            (demo_maximizer_gives_one_point _ _ _ _ _ _ _ _)
            (demo_task_gives_one_row_per_point _ _ _ _ _ _ _)
            3 (Arr2 1 [[9]; [4]; [6]; [8]; [1]]) (__init__ 0%nat) _ ltac:(lia)).
  vm_compute. reflexivity.
Defined.
